(** * Algorzen data-quality toolkit: the quality-check engine

    A shallow embedding of [algorzen_dqt/checks/base.py],
    [checks/missing_values.py], [checks/duplicates.py], [checks/outliers.py]
    and [core/engine.py], with the properties of the check lifecycle, of the
    three checks and of the orchestrator.

    Conventions of the embedding:
    - a Python call either returns or raises: [outcome];
    - binary64 scores and fractions are exact rationals ([Q]); the few
      places where a result sits on a cut point are cross-checked in binary64
      in [Module Binary64];
    - dictionaries are association lists in insertion order;
    - the pandas frame is a row count with labelled columns of cells. *)

From Stdlib Require Import List String Ascii ZArith QArith Qabs Qround Bool Lia Arith.
From Stdlib Require Import DecimalString Floats.
Import ListNotations.

Set Warnings "-register-all,-inexact-float".

Local Open Scope string_scope.
Local Open Scope list_scope.

(* ================================================================== *)
(** * The Python runtime: exceptions and outcomes *)

Module Py.

(** The subclasses of [Exception] the modelled code can meet.  Signals
    that derive from [BaseException] only (interpreter exit, task
    cancellation) are not exceptions in this sense and are outside the
    model. *)
Inductive exn : Type :=
| ValueError (msg : string)
| KeyError (key : string)
| TypeError (msg : string)
| ZeroDivisionError
| RuntimeError (msg : string).

(** [str(e)]. *)
Definition str_exn (e : exn) : string :=
  match e with
  | ValueError msg => msg
  | KeyError key => "'" ++ key ++ "'"
  | TypeError msg => msg
  | ZeroDivisionError => "division by zero"
  | RuntimeError msg => msg
  end.

Inductive outcome (A : Type) : Type :=
| Return (a : A)
| Raise (e : exn).
Arguments Return {A} a.
Arguments Raise {A} e.

Definition bind {A B} (m : outcome A) (k : A -> outcome B) : outcome B :=
  match m with
  | Return a => k a
  | Raise e => Raise e
  end.

(** [try: m  except Exception as e: h e] *)
Definition try_except {A} (m : outcome A) (h : exn -> A) : A :=
  match m with
  | Return a => a
  | Raise e => h e
  end.

Fixpoint mapM {A B} (f : A -> outcome B) (l : list A) : outcome (list B) :=
  match l with
  | [] => Return []
  | x :: xs =>
      bind (f x) (fun y => bind (mapM f xs) (fun ys => Return (y :: ys)))
  end.

(** [x / y] on Python numbers. *)
Definition py_div (x y : Q) : outcome Q :=
  if Qeq_bool y 0 then Raise ZeroDivisionError else Return (x / y)%Q.

(** [d[key]] and [d[key] = v] on a dictionary kept in insertion order. *)
Fixpoint dict_find {V} (key : string) (d : list (string * V)) : option V :=
  match d with
  | [] => None
  | (k, v) :: d' => if String.eqb k key then Some v else dict_find key d'
  end.

Definition dict_get {V} (key : string) (d : list (string * V)) : outcome V :=
  match dict_find key d with
  | Some v => Return v
  | None => Raise (KeyError key)
  end.

Fixpoint dict_set {V} (key : string) (v : V) (d : list (string * V))
  : list (string * V) :=
  match d with
  | [] => [(key, v)]
  | (k, w) :: d' =>
      if String.eqb k key then (k, v) :: d' else (k, w) :: dict_set key v d'
  end.

Definition str_nat (n : nat) : string :=
  NilZero.string_of_uint (Nat.to_uint n).

Definition str_int (z : Z) : string :=
  NilZero.string_of_int (Z.to_int z).

End Py.

Import Py.

Declare Scope py_scope.
Notation "x <- m ;; k" := (Py.bind m (fun x => k))
  (at level 61, m at next level, right associativity) : py_scope.
Local Open Scope py_scope.

(* ================================================================== *)
(** * The tabular dataset *)

(** A cell of a pandas frame: the float NaN, the object [None], a text, an
    integer or a finite float. *)
Inductive cell : Type :=
| NaN
| PyNone
| Str (s : string)
| Int (z : Z)
| Float (q : Q).

Definition Series : Type := list cell.

(** The frame: its row count and its labelled columns.  Rows are
    addressed by position ([iloc]).  The row index is not part of the
    record: the one place where the code looks rows up by label and the
    label may be absent from the index, [data.loc[rows]] in the pattern
    analysis of the duplicates check, is taken from the runtime
    ([df_loc]), so that it can fail as it does in pandas. *)
Record DataFrame : Type := mkFrame {
  nrows : nat;                         (* len(data) *)
  columns : list (string * Series)     (* data.columns with data[column] *)
}.

(** Every column spans the row index and labels are distinct. *)
Definition frame_ok (data : DataFrame) : Prop :=
  Forall (fun c => List.length (snd c) = nrows data) (columns data)
  /\ NoDup (map fst (columns data)).

(** [data.empty]: some axis has length 0. *)
Definition df_empty (data : DataFrame) : bool :=
  (nrows data =? 0)%nat || (List.length (columns data) =? 0)%nat.

(** [pd.isna(x)] on a scalar. *)
Definition pd_isna (c : cell) : bool :=
  match c with
  | NaN | PyNone => true
  | _ => false
  end.

(** [data[column]]. *)
Definition df_col (data : DataFrame) (column : string) : outcome Series :=
  dict_get column (columns data).

(** [data.iloc[i]]: the cells of row [i], in column order. *)
Definition iloc (data : DataFrame) (i : nat) : list cell :=
  map (fun c => nth i (snd c) NaN) (columns data).

(** What the model takes from the numeric runtime and from the libraries
    the checks call (pandas, hashlib, scipy, scikit-learn) and from the wall
    clock.  An optional number is NaN when it is [None]. *)
Class Runtime : Type := {
  float_str : Q -> string;                 (* str(x) of a binary64 x *)
  format_percent : nat -> Q -> string;     (* f"{x:.N%}" *)
  series_corr : list bool -> list bool -> option Q;   (* Series.corr *)
  series_std : list Q -> option Q;                    (* Series.std *)
  stats_zscore : list Q -> list (option Q);           (* scipy.stats.zscore *)
  df_sample : nat -> DataFrame -> DataFrame; (* data.sample(n, random_state=42) *)
  (* data.duplicated(subset, keep=False): the flagged row indices *)
  df_duplicated : option (list string) -> DataFrame -> list nat;
  (* data.loc[rows] for a list of row labels: the rows found, or the
     KeyError that pandas raises when a label is not in the index *)
  df_loc : DataFrame -> list nat -> outcome (list (list cell));
  md5_hexdigest : string -> string;        (* hashlib.md5(s.encode()).hexdigest() *)
  (* fit_predict of the named scikit-learn estimator: the rows labelled -1 *)
  ml_fit_predict : string -> DataFrame -> list string -> outcome (list nat);
  time_start : Q;                          (* the clock when execute starts *)
  time_end : Q;                            (* the clock when execute ends *)
  strftime_now : string;                   (* time.strftime(...) *)
  isoformat_now : string                   (* datetime.now().isoformat() *)
}.

(** [str(x)] of a cell. *)
Definition py_str `{Runtime} (c : cell) : string :=
  match c with
  | NaN => "nan"
  | PyNone => "None"
  | Str s => s
  | Int z => str_int z
  | Float q => float_str q
  end.

(* ================================================================== *)
(** * checks/base.py *)

Module Base.

Record CheckConfig : Type := mkCheckConfig {
  check_name : option string;
  check_type : option string;
  enabled : bool;
  severity : string;
  threshold : Q;
  parameters : list (string * string);
  description : option string
}.

Definition default_CheckConfig : CheckConfig :=
  {| check_name := None; check_type := None; enabled := true;
     severity := "medium"; threshold := 0.8%Q; parameters := [];
     description := None |}.

(** Values of the free-form [details] dictionary. *)
Inductive DVal : Type :=
| DStr (s : string)
| DInt (z : Z)
| DNum (q : Q)
| DList (l : list DVal)
| DDict (d : list (string * DVal)).

Record CheckResult : Type := mkCheckResult {
  r_check_name : string;
  r_check_type : string;
  status : string;
  score : Q;
  details : list (string * DVal);
  execution_time : Q;
  timestamp : string;
  affected_rows : option nat;
  affected_columns : option (list string);
  recommendations : option (list string)
}.

(** [x or default] on an optional string: [None] and the empty string are
    both falsy. *)
Definition or_else (x : option string) (default : string) : string :=
  match x with
  | Some s => if String.eqb s "" then default else s
  | None => default
  end.

(** A check class: its name and its two abstract methods, over the
    configuration type [C] of the class.  Both methods are code of the
    subclass: either may return or raise. *)
Record QualityCheck (C : Type) : Type := mkQualityCheck {
  class_name : string;
  config : C -> CheckConfig;
  validate_config : C -> outcome bool;
  execute : C -> DataFrame -> outcome CheckResult
}.
Arguments class_name {C} _.
Arguments config {C} _ _.
Arguments validate_config {C} _ _.
Arguments execute {C} _ _ _.

(** Method calls are observed the way a call-count spy observes them: each
    call appends the receiver's class and the method name to a log. *)
Inductive event : Type :=
| Constructed (cls : string)
| Called (cls : string) (method : string).

Definition event_eqb (e1 e2 : event) : bool :=
  match e1, e2 with
  | Constructed c1, Constructed c2 => String.eqb c1 c2
  | Called c1 m1, Called c2 m2 => String.eqb c1 c2 && String.eqb m1 m2
  | _, _ => false
  end.

Definition M (A : Type) : Type := list event -> outcome A * list event.

Definition ret {A} (a : A) : M A := fun log => (Return a, log).

Definition bindM {A B} (m : M A) (k : A -> M B) : M B :=
  fun log =>
    match m log with
    | (Return a, log') => k a log'
    | (Raise e, log') => (Raise e, log')
    end.

(** Calling [method] of an object of class [cls] whose body is [body]. *)
Definition call {A} (cls method : string) (body : outcome A) : M A :=
  fun log => (body, log ++ [Called cls method]).

Definition try_exceptM {A} (m : M A) (h : exn -> M A) : M A :=
  fun log =>
    match m log with
    | (Return a, log') => (Return a, log')
    | (Raise e, log') => h e log'
    end.

Definition count_calls (cls method : string) (log : list event) : nat :=
  List.length (filter (event_eqb (Called cls method)) log).

Section Run.
Context `{Runtime} {C : Type}.
Variable K : QualityCheck C.
Variable self_config : C.

Definition name_or_class : string :=
  or_else (check_name (config K self_config)) (class_name K).

Definition type_or_unknown : string :=
  or_else (check_type (config K self_config)) "unknown".

Definition skipped_result : CheckResult :=
  {| r_check_name := name_or_class;
     r_check_type := type_or_unknown;
     status := "skipped";
     score := 1.0%Q;
     details := [("reason", DStr "Check disabled")];
     execution_time := 0.0%Q;
     timestamp := strftime_now;
     affected_rows := None; affected_columns := None;
     recommendations := None |}.

Definition error_result (message : string) (elapsed : Q) : CheckResult :=
  {| r_check_name := name_or_class;
     r_check_type := type_or_unknown;
     status := "error";
     score := 0.0%Q;
     details := [("error", DStr message)];
     execution_time := elapsed;
     timestamp := strftime_now;
     affected_rows := None; affected_columns := None;
     recommendations := None |}.

(** [result.execution_time = ...; result.timestamp = ...] *)
Definition stamp (result : CheckResult) : CheckResult :=
  {| r_check_name := r_check_name result;
     r_check_type := r_check_type result;
     status := status result;
     score := score result;
     details := details result;
     execution_time := (time_end - time_start)%Q;
     timestamp := strftime_now;
     affected_rows := affected_rows result;
     affected_columns := affected_columns result;
     recommendations := recommendations result |}.

(** [QualityCheck.run].  [self.validate_config()] is called before the
    [try] block opens, so an exception it raises leaves [run]; only
    [execute] runs under [try: ... except Exception as e]. *)
Definition run (data : DataFrame) : M CheckResult :=
  if negb (enabled (config K self_config)) then
    ret skipped_result
  else
    bindM (call (class_name K) "validate_config"
             (validate_config K self_config))
      (fun valid =>
         if negb valid then
           ret (error_result "Invalid configuration" 0.0%Q)
         else
           try_exceptM
             (bindM (call (class_name K) "execute"
                       (execute K self_config data))
                (fun result => ret (stamp result)))
             (fun e =>
                ret (error_result (str_exn e) (time_end - time_start)%Q))).

End Run.

End Base.

Import Base.

(** Python's two-argument [min] and [max]: the second argument wins only
    when it is strictly smaller (larger). *)
Definition Qlt_bool (x y : Q) : bool := negb (Qle_bool y x).
Definition py_min (a b : Q) : Q := if Qlt_bool b a then b else a.
Definition py_max (a b : Q) : Q := if Qlt_bool a b then b else a.

Definition Qnat (n : nat) : Q := inject_Z (Z.of_nat n).

(** The status ladder shared by the three checks ([_determine_status]). *)
Definition status_of_score (quality_score : Q) : string :=
  if Qle_bool 0.9 quality_score then "passed"
  else if Qle_bool 0.7 quality_score then "warning"
  else if Qle_bool 0.5 quality_score then "failed"
  else "critical".

(** [str.strip()] on ASCII whitespace. *)
Definition is_space (a : ascii) : bool :=
  let n := nat_of_ascii a in
  ((9 <=? n) && (n <=? 13) || (28 <=? n) && (n <=? 32))%nat.

Fixpoint lstrip (s : string) : string :=
  match s with
  | EmptyString => EmptyString
  | String a s' => if is_space a then lstrip s' else s
  end.

Fixpoint string_rev (s : string) : string :=
  match s with
  | EmptyString => EmptyString
  | String a s' => string_rev s' ++ String a EmptyString
  end.

Definition strip (s : string) : string :=
  string_rev (lstrip (string_rev (lstrip s))).

(** [series == text], element by element: only a text cell can be equal. *)
Definition cell_eq_str (text : string) (c : cell) : bool :=
  match c with
  | Str s => String.eqb s text
  | _ => false
  end.

Definition count_true {A} (p : A -> bool) (l : list A) : nat :=
  List.length (filter p l).

(** [Series.value_counts()]: the distinct values with their frequencies,
    most frequent first (ties keep the order of first appearance). *)
Section ValueCounts.
Context {A : Type} (eqb : A -> A -> bool).

Fixpoint tally (x : A) (acc : list (A * nat)) : list (A * nat) :=
  match acc with
  | [] => [(x, 1%nat)]
  | (y, n) :: acc' =>
      if eqb y x then (y, S n) :: acc' else (y, n) :: tally x acc'
  end.

Fixpoint insert_desc (e : A * nat) (l : list (A * nat)) : list (A * nat) :=
  match l with
  | [] => [e]
  | h :: t => if (snd h <? snd e)%nat then e :: l else h :: insert_desc e t
  end.

Definition value_counts (l : list A) : list (A * nat) :=
  fold_left (fun acc e => insert_desc e acc)
    (fold_left (fun acc x => tally x acc) l []) [].
End ValueCounts.

(* ================================================================== *)
(** * checks/missing_values.py *)

Module MissingValues.

Record MissingValuesConfig : Type := mkConfig {
  base : CheckConfig;
  missing_threshold : Q;
  critical_threshold : Q;
  detect_empty_strings : bool;
  detect_whitespace : bool;
  detect_na_values : bool;
  detect_custom_na : list string;
  analyze_patterns : bool;
  analyze_correlations : bool;
  suggest_imputation : bool;
  include_heatmap : bool;
  include_patterns : bool;
  include_recommendations : bool
}.

Definition default_config : MissingValuesConfig :=
  {| base := default_CheckConfig;
     missing_threshold := 0.1%Q;
     critical_threshold := 0.5%Q;
     detect_empty_strings := true;
     detect_whitespace := true;
     detect_na_values := true;
     detect_custom_na := ["N/A"; "NULL"; "null"; "None"; "none"; ""];
     analyze_patterns := true;
     analyze_correlations := true;
     suggest_imputation := true;
     include_heatmap := true;
     include_patterns := true;
     include_recommendations := true |}.

Definition with_base (b : CheckConfig) (c : MissingValuesConfig)
  : MissingValuesConfig :=
  {| base := b;
     missing_threshold := missing_threshold c;
     critical_threshold := critical_threshold c;
     detect_empty_strings := detect_empty_strings c;
     detect_whitespace := detect_whitespace c;
     detect_na_values := detect_na_values c;
     detect_custom_na := detect_custom_na c;
     analyze_patterns := analyze_patterns c;
     analyze_correlations := analyze_correlations c;
     suggest_imputation := suggest_imputation c;
     include_heatmap := include_heatmap c;
     include_patterns := include_patterns c;
     include_recommendations := include_recommendations c |}.

(** [MissingValuesCheck.__init__]: the check object is its configuration. *)
Definition init (config : option MissingValuesConfig) : MissingValuesConfig :=
  let c := match config with Some c => c | None => default_config end in
  with_base
    {| check_name := Some "Missing Values Analysis";
       check_type := Some "missing_values";
       enabled := enabled (base c);
       severity := severity (base c);
       threshold := threshold (base c);
       parameters := parameters (base c);
       description := description (base c) |} c.

(** One systematic pattern: [{"pattern", "count", "percentage"}]. *)
Record SystematicEntry : Type := mkEntry {
  pattern : list bool;
  count : nat;
  percentage : Q
}.

(** Values of the [missing_patterns] dictionary. *)
Inductive PatVal : Type :=
| PCounts (d : list (list bool * nat))
| PEntries (l : list SystematicEntry).

(** Truth value of a dictionary or a list: non-empty. *)
Definition truthy (v : PatVal) : bool :=
  match v with
  | PCounts [] | PEntries [] => false
  | _ => true
  end.

(** The [analysis] dictionary of [_analyze_missing_values]; its keys are
    fixed, so it is a record, while [missing_patterns] starts as the empty
    dictionary and is looked up by key. *)
Record Analysis : Type := mkAnalysis {
  total_rows : nat;
  total_columns : nat;
  missing_counts : list (string * nat);
  missing_percentages : list (string * Q);
  columns_with_missing : nat;
  overall_missing_percentage : Q;
  missing_patterns : list (string * PatVal);
  correlations : list (string * Q);
  a_recommendations : list string
}.

Section Check.
Context `{Runtime}.
Variable self_config : MissingValuesConfig.

Definition validate_config : bool :=
  if negb (Qle_bool 0 (missing_threshold self_config)
           && Qle_bool (missing_threshold self_config) 1) then false
  else if negb (Qle_bool 0 (critical_threshold self_config)
                && Qle_bool (critical_threshold self_config) 1) then false
  else if Qle_bool (critical_threshold self_config)
            (missing_threshold self_config) then false
  else true.

Definition _count_missing_values (series : Series) : nat :=
  let missing_count := 0%nat in
  let missing_count :=
    if detect_na_values self_config
    then (missing_count + count_true pd_isna series)%nat
    else missing_count in
  let missing_count :=
    if detect_empty_strings self_config
    then (missing_count + count_true (cell_eq_str "") series)%nat
    else missing_count in
  let missing_count :=
    if detect_whitespace self_config
    then (missing_count
          + count_true (fun c => String.eqb (strip (py_str c)) "") series)%nat
    else missing_count in
  let missing_count :=
    match detect_custom_na self_config with
    | [] => missing_count
    | custom =>
        fold_left
          (fun acc na_value =>
             (acc + count_true (cell_eq_str na_value) series)%nat)
          custom missing_count
    end in
  missing_count.

(** [data.isna().apply(tuple, axis=1)] *)
Definition row_patterns (data : DataFrame) : list (list bool) :=
  map (fun i => map pd_isna (iloc data i)) (seq 0 (nrows data)).

Definition pattern_eqb (p q : list bool) : bool :=
  if list_eq_dec Bool.bool_dec p q then true else false.

(** The loop over [pattern_counts.items()]: the patterns seen in more
    than 10% of the rows. *)
Definition systematic_entries (data : DataFrame)
  (pattern_counts : list (list bool * nat)) : list SystematicEntry :=
  fold_left
    (fun acc pc =>
       if Qlt_bool (Qnat (nrows data) * 0.1) (Qnat (snd pc))
       then acc ++ [{| pattern := fst pc; count := snd pc;
                       percentage := Qnat (snd pc) / Qnat (nrows data) |}]
       else acc)
    pattern_counts [].

Definition _analyze_missing_patterns (data : DataFrame)
  : list (string * PatVal) :=
  let patterns :=
    [("row_patterns", PCounts []); ("column_patterns", PCounts []);
     ("systematic_missing", PEntries [])] in
  let pattern_counts := value_counts pattern_eqb (row_patterns data) in
  let patterns :=
    dict_set "systematic_missing"
      (PEntries (systematic_entries data pattern_counts)) patterns in
  dict_set "row_patterns" (PCounts (firstn 10 pattern_counts)) patterns.

Fixpoint corr_against (col1 : string * Series) (rest : list (string * Series))
  (correlations : list (string * Q)) : list (string * Q) :=
  match rest with
  | [] => correlations
  | col2 :: rest' =>
      let correlations :=
        match series_corr (map pd_isna (snd col1)) (map pd_isna (snd col2)) with
        | Some corr =>
            if Qlt_bool 0.3 (Qabs corr)
            then dict_set (fst col1 ++ "_vs_" ++ fst col2)%string corr correlations
            else correlations
        | None => correlations
        end in
      corr_against col1 rest' correlations
  end.

Fixpoint corr_pairs (cols : list (string * Series))
  (correlations : list (string * Q)) : list (string * Q) :=
  match cols with
  | [] => correlations
  | col1 :: rest => corr_pairs rest (corr_against col1 rest correlations)
  end.

Definition _analyze_missing_correlations (data : DataFrame)
  : list (string * Q) :=
  corr_pairs (columns data) [].

Definition _generate_imputation_recommendations (analysis : Analysis)
  : outcome (list string) :=
  let recommendations := [] in
  let recommendations :=
    if Qlt_bool (critical_threshold self_config)
         (overall_missing_percentage analysis)
    then recommendations ++
         ["CRITICAL: Dataset has >50% missing data. Consider data source investigation."]
    else if Qlt_bool (missing_threshold self_config)
              (overall_missing_percentage analysis)
    then recommendations ++
         ["WARNING: Dataset has >10% missing data. Implement imputation strategies."]
    else recommendations in
  let recommendations :=
    fold_left
      (fun (acc : list string) (cp : string * Q) =>
         if Qlt_bool (critical_threshold self_config) (snd cp)
         then acc ++ [("CRITICAL: Column '" ++ fst cp ++ "' has "
                       ++ format_percent 1 (snd cp) ++ " missing data")%string]
         else if Qlt_bool (missing_threshold self_config) (snd cp)
         then acc ++ [("WARNING: Column '" ++ fst cp ++ "' has "
                       ++ format_percent 1 (snd cp) ++ " missing data")%string]
         else acc)
      (missing_percentages analysis) recommendations in
  systematic <- dict_get "systematic_missing" (missing_patterns analysis) ;;
  let recommendations :=
    if truthy systematic
    then recommendations ++
         ["PATTERN: Systematic missing data detected. Investigate data collection process."]
    else recommendations in
  let recommendations :=
    match correlations analysis with
    | [] => recommendations
    | _ => recommendations ++
           ["CORRELATION: Missing values are correlated between columns. Consider joint imputation."]
    end in
  Return recommendations.

Definition with_recommendations (a : Analysis) (r : list string) : Analysis :=
  {| total_rows := total_rows a; total_columns := total_columns a;
     missing_counts := missing_counts a;
     missing_percentages := missing_percentages a;
     columns_with_missing := columns_with_missing a;
     overall_missing_percentage := overall_missing_percentage a;
     missing_patterns := missing_patterns a;
     correlations := correlations a;
     a_recommendations := r |}.

(** The per-column loop of [_analyze_missing_values]: the three entries
    of [analysis] it updates. *)
Fixpoint analyze_columns (data : DataFrame) (cols : list (string * Series))
  (counts : list (string * nat)) (percentages : list (string * Q))
  (with_missing : nat)
  : outcome (list (string * nat) * list (string * Q) * nat) :=
  match cols with
  | [] => Return (counts, percentages, with_missing)
  | (column, series) :: cols' =>
      let missing_count := _count_missing_values series in
      missing_percentage <-
        py_div (Qnat missing_count) (Qnat (nrows data)) ;;
      analyze_columns data cols'
        (dict_set column missing_count counts)
        (dict_set column missing_percentage percentages)
        (if (0 <? missing_count)%nat then S with_missing else with_missing)
  end.

Definition _analyze_missing_values (data : DataFrame) : outcome Analysis :=
  per_column <- analyze_columns data (columns data) [] [] 0%nat ;;
  let '(counts, percentages, with_missing) := per_column in
  let total_missing := list_sum (map snd counts) in
  let total_cells := (nrows data * List.length (columns data))%nat in
  overall <- py_div (Qnat total_missing) (Qnat total_cells) ;;
  let analysis :=
    {| total_rows := nrows data;
       total_columns := List.length (columns data);
       missing_counts := counts;
       missing_percentages := percentages;
       columns_with_missing := with_missing;
       overall_missing_percentage := overall;
       missing_patterns :=
         if analyze_patterns self_config
         then _analyze_missing_patterns data else [];
       correlations :=
         if analyze_correlations self_config
         then _analyze_missing_correlations data else [];
       a_recommendations := [] |} in
  if suggest_imputation self_config then
    recs <- _generate_imputation_recommendations analysis ;;
    Return (with_recommendations analysis recs)
  else Return analysis.

Definition _calculate_quality_score (analysis : Analysis) : outcome Q :=
  let base_score := 1.0%Q in
  let missing_penalty := (overall_missing_percentage analysis * 0.5)%Q in
  let base_score := (base_score - missing_penalty)%Q in
  ratio <- py_div (Qnat (columns_with_missing analysis))
             (Qnat (total_columns analysis)) ;;
  let columns_penalty := (ratio * 0.2)%Q in
  let base_score := (base_score - columns_penalty)%Q in
  systematic <- dict_get "systematic_missing" (missing_patterns analysis) ;;
  let base_score :=
    if truthy systematic then (base_score - 0.1)%Q else base_score in
  Return (py_max 0.0 (py_min 1.0 base_score)).

Definition _determine_status (quality_score : Q) (analysis : Analysis)
  : string :=
  status_of_score quality_score.

Definition column_status (pct : Q) : string :=
  if Qlt_bool (critical_threshold self_config) pct then "critical"
  else if Qlt_bool (missing_threshold self_config) pct then "warning"
  else "good".

Definition dval_of_pattern (p : list bool) : DVal :=
  DList (map (fun b : bool => DStr (if b then "True" else "False")) p).

Definition dval_of_patval (v : PatVal) : DVal :=
  match v with
  | PCounts d =>
      DList (map (fun pc => DList [dval_of_pattern (fst pc);
                                   DInt (Z.of_nat (snd pc))]) d)
  | PEntries l =>
      DList (map (fun e => DDict [("pattern", dval_of_pattern (pattern e));
                                  ("count", DInt (Z.of_nat (count e)));
                                  ("percentage", DNum (percentage e))]) l)
  end.

Definition _generate_details (analysis : Analysis)
  : outcome (list (string * DVal)) :=
  column_analysis <-
    mapM (fun cc =>
            pct <- dict_get (fst cc) (missing_percentages analysis) ;;
            Return (fst cc,
                    DDict [("missing_count", DInt (Z.of_nat (snd cc)));
                           ("missing_percentage", DStr (format_percent 2 pct));
                           ("status", DStr (column_status pct))]))
      (filter (fun cc => (0 <? snd cc)%nat) (missing_counts analysis)) ;;
  Return
    [("summary",
      DDict [("total_missing_cells",
              DInt (Z.of_nat (list_sum (map snd (missing_counts analysis)))));
             ("overall_missing_percentage",
              DStr (format_percent 2 (overall_missing_percentage analysis)));
             ("columns_with_missing",
              DInt (Z.of_nat (columns_with_missing analysis)));
             ("critical_columns",
              DList (map (fun cp => DStr (fst cp))
                       (filter (fun cp => Qlt_bool (critical_threshold self_config)
                                            (snd cp))
                          (missing_percentages analysis))))]);
     ("column_analysis", DDict column_analysis);
     ("patterns",
      DDict (map (fun kv => (fst kv, dval_of_patval (snd kv)))
               (missing_patterns analysis)));
     ("correlations",
      DDict (map (fun kv => (fst kv, DNum (snd kv))) (correlations analysis)));
     ("recommendations", DList (map DStr (a_recommendations analysis)))].

Definition failure (e : exn) : CheckResult :=
  {| r_check_name := "Missing Values Analysis";
     r_check_type := "missing_values";
     status := "error";
     score := 0.0%Q;
     details := [("error", DStr (str_exn e))];
     execution_time := (time_end - time_start)%Q;
     timestamp := isoformat_now;
     affected_rows := None; affected_columns := None;
     recommendations := None |}.

(** The body of [execute] inside its [try]. *)
Definition execute_body (data : DataFrame) : outcome CheckResult :=
  _ <- (if negb validate_config
        then Raise (ValueError "Invalid configuration") else Return tt) ;;
  missing_analysis <- _analyze_missing_values data ;;
  quality_score <- _calculate_quality_score missing_analysis ;;
  let status := _determine_status quality_score missing_analysis in
  details <- _generate_details missing_analysis ;;
  Return
    {| r_check_name := "Missing Values Analysis";
       r_check_type := "missing_values";
       status := status;
       score := quality_score;
       details := details;
       execution_time := (time_end - time_start)%Q;
       timestamp := isoformat_now;
       affected_rows := Some (total_rows missing_analysis);
       affected_columns := Some (map fst (columns data));
       recommendations := None |}.

Definition execute (data : DataFrame) : CheckResult :=
  try_except (execute_body data) failure.

End Check.

(** The class as an instance of the abstract interface. *)
Definition MissingValuesCheck `{Runtime} : QualityCheck MissingValuesConfig :=
  {| class_name := "MissingValuesCheck";
     config := base;
     Base.validate_config := fun c => Return (validate_config c);
     Base.execute := fun c data => Return (execute c data) |}.

End MissingValues.

(* ================================================================== *)
(** * difflib.SequenceMatcher(None, a, b).ratio()

    The matcher of the Python standard library, over the characters of two
    strings (no junk predicate, [autojunk] on).  A string is its sequence
    of bytes, which is its sequence of characters for ASCII text. *)

Module Difflib.

Definition ascii_eqb (x y : ascii) : bool := Ascii.eqb x y.

Section Matcher.
Variables a b : list ascii.

Definition char_at (s : list ascii) (i : nat) : ascii := nth i s Ascii.zero.

(** [bpopular]: with 200 characters or more in [b], a character that
    fills more than 1% of [b] (plus one) is dropped from the index. *)
Definition popular (c : ascii) : bool :=
  (200 <=? List.length b)%nat
  && (List.length b / 100 + 1 <? count_true (ascii_eqb c) b)%nat.

(** [b2j.get(c, [])]: the positions of [c] in [b], increasing. *)
Definition b2j (c : ascii) : list nat :=
  if popular c then []
  else filter (fun j => ascii_eqb (char_at b j) c) (seq 0 (List.length b)).

(** [j2len.get(j, 0)] *)
Fixpoint j2len_get (j2len : list (nat * nat)) (j : nat) : nat :=
  match j2len with
  | [] => 0
  | (j', k) :: rest => if (j' =? j)%nat then k else j2len_get rest j
  end.

(** The inner loop of [find_longest_match] for one [i]; the [bool] turns
    true at [break]. *)
Fixpoint scan_row (i blo bhi : nat) (js : list nat)
  (j2len newj2len : list (nat * nat)) (best : nat * nat * nat)
  : list (nat * nat) * (nat * nat * nat) :=
  match js with
  | [] => (newj2len, best)
  | j :: js' =>
      if (j <? blo)%nat then scan_row i blo bhi js' j2len newj2len best
      else if (bhi <=? j)%nat then (newj2len, best)
      else
        let k := (match j with
                  | O => 0          (* j2len.get(-1, 0) *)
                  | S j1 => j2len_get j2len j1
                  end + 1)%nat in
        let newj2len := (j, k) :: newj2len in
        let '(besti, bestj, bestsize) := best in
        let best :=
          if (bestsize <? k)%nat
          then (i + 1 - k, j + 1 - k, k)%nat
          else (besti, bestj, bestsize) in
        scan_row i blo bhi js' j2len newj2len best
  end.

Fixpoint scan_rows (blo bhi : nat) (rows : list nat)
  (j2len : list (nat * nat)) (best : nat * nat * nat) : nat * nat * nat :=
  match rows with
  | [] => best
  | i :: rows' =>
      let '(newj2len, best) :=
        scan_row i blo bhi (b2j (char_at a i)) j2len [] best in
      scan_rows blo bhi rows' newj2len best
  end.

(** [while besti > alo and bestj > blo and a[besti-1] == b[bestj-1]] *)
Fixpoint extend_left (alo blo besti bestj bestsize : nat) : nat * nat * nat :=
  match besti with
  | O => (besti, bestj, bestsize)
  | S i1 =>
      if (alo <? besti)%nat && (blo <? bestj)%nat
         && ascii_eqb (char_at a i1) (char_at b (bestj - 1))
      then extend_left alo blo i1 (bestj - 1) (S bestsize)
      else (besti, bestj, bestsize)
  end.

(** [while besti+bestsize < ahi and bestj+bestsize < bhi and
    a[besti+bestsize] == b[bestj+bestsize]]; [gap] counts the positions
    left below [ahi]. *)
Fixpoint extend_right (gap ahi bhi besti bestj bestsize : nat) : nat :=
  match gap with
  | O => bestsize
  | S gap' =>
      if (besti + bestsize <? ahi)%nat && (bestj + bestsize <? bhi)%nat
         && ascii_eqb (char_at a (besti + bestsize))
              (char_at b (bestj + bestsize))
      then extend_right gap' ahi bhi besti bestj (S bestsize)
      else bestsize
  end.

(** [find_longest_match(alo, ahi, blo, bhi)]; without a junk predicate
    the two junk-extension loops never run. *)
Definition find_longest_match (alo ahi blo bhi : nat) : nat * nat * nat :=
  let '(besti, bestj, bestsize) :=
    scan_rows blo bhi (seq alo (ahi - alo)) [] (alo, blo, 0%nat) in
  let '(besti, bestj, bestsize) :=
    extend_left alo blo besti bestj bestsize in
  let bestsize :=
    extend_right (ahi - (besti + bestsize)) ahi bhi besti bestj bestsize in
  (besti, bestj, bestsize).

(** The blocks collected by the work queue of [get_matching_blocks];
    [fuel] bounds the depth by the length of the [a] range. *)
Fixpoint matching_blocks (fuel alo ahi blo bhi : nat)
  : list (nat * nat * nat) :=
  match fuel with
  | O => []
  | S fuel' =>
      let '(i, j, k) := find_longest_match alo ahi blo bhi in
      if (k =? 0)%nat then []
      else
        (i, j, k)
        :: (if (alo <? i)%nat && (blo <? j)%nat
            then matching_blocks fuel' alo i blo j else [])
        ++ (if (i + k <? ahi)%nat && (j + k <? bhi)%nat
            then matching_blocks fuel' (i + k) ahi (j + k) bhi else [])
  end.

Definition get_matching_blocks : list (nat * nat * nat) :=
  matching_blocks (List.length a) 0 (List.length a) 0 (List.length b).

(** [ratio()]: [2.0 * matches / length], and 1.0 for two empty strings. *)
Definition matcher_ratio : Q :=
  let matches := list_sum (map (fun t => snd t) get_matching_blocks) in
  let length := (List.length a + List.length b)%nat in
  if (length =? 0)%nat then 1.0%Q
  else (2.0 * Qnat matches / Qnat length)%Q.

End Matcher.

Definition ratio (s1 s2 : string) : Q :=
  matcher_ratio (list_ascii_of_string s1) (list_ascii_of_string s2).

End Difflib.

(** A Python set of row indices, kept as a list without repetition in
    insertion order.  The interpreter iterates a set in hash order, so the
    order inside a result may differ; membership does not. *)
Definition mem_nat (x : nat) (l : list nat) : bool := existsb (Nat.eqb x) l.
Definition set_add_nat (x : nat) (l : list nat) : list nat :=
  if mem_nat x l then l else l ++ [x].
Definition set_update_nat (l new : list nat) : list nat :=
  fold_left (fun acc x => set_add_nat x acc) new l.

(** [np.mean]: NaN ([None]) on an empty list. *)
Definition np_mean (l : list Q) : option Q :=
  match l with
  | [] => None
  | _ => Some (fold_left Qplus l 0 / Qnat (List.length l))%Q
  end.

(** [x >= threshold] on a possibly-NaN [x]: NaN compares false. *)
Definition ge_threshold (x : option Q) (threshold : Q) : bool :=
  match x with
  | Some v => Qle_bool threshold v
  | None => false
  end.

(** Python's [==] on two cells: NaN differs from everything, itself
    included; numbers compare by value. *)
Definition py_eq (c1 c2 : cell) : bool :=
  match c1, c2 with
  | PyNone, PyNone => true
  | Str s1, Str s2 => String.eqb s1 s2
  | Int z1, Int z2 => Z.eqb z1 z2
  | Int z, Float q | Float q, Int z => Qeq_bool (inject_Z z) q
  | Float q1, Float q2 => Qeq_bool q1 q2
  | _, _ => false
  end.

(** Equality of values in a pandas hash table: as [py_eq], with missing
    values equal to one another. *)
Definition cell_same (c1 c2 : cell) : bool :=
  (pd_isna c1 && pd_isna c2) || py_eq c1 c2.

Fixpoint list_eqb {A} (eqb : A -> A -> bool) (l1 l2 : list A) : bool :=
  match l1, l2 with
  | [], [] => true
  | x :: l1', y :: l2' => eqb x y && list_eqb eqb l1' l2'
  | _, _ => false
  end.

(* ================================================================== *)
(** * checks/duplicates.py *)

Module Duplicates.

Record DuplicatesConfig : Type := mkConfig {
  base : CheckConfig;
  exact_matching : bool;
  fuzzy_matching : bool;
  business_key_matching : bool;
  semantic_matching : bool;
  fuzzy_threshold : Q;
  business_key_columns : option (list string);
  analyze_duplicate_patterns : bool;
  suggest_deduplication : bool;
  include_similarity_scores : bool;
  max_fuzzy_comparisons : Z;
  use_sampling : bool;
  sample_size : Z
}.

Definition default_config : DuplicatesConfig :=
  {| base := default_CheckConfig;
     exact_matching := true;
     fuzzy_matching := true;
     business_key_matching := true;
     semantic_matching := false;
     fuzzy_threshold := 0.8%Q;
     business_key_columns := None;
     analyze_duplicate_patterns := true;
     suggest_deduplication := true;
     include_similarity_scores := true;
     max_fuzzy_comparisons := 10000%Z;
     use_sampling := true;
     sample_size := 10000%Z |}.

Definition with_base (b : CheckConfig) (c : DuplicatesConfig)
  : DuplicatesConfig :=
  {| base := b;
     exact_matching := exact_matching c;
     fuzzy_matching := fuzzy_matching c;
     business_key_matching := business_key_matching c;
     semantic_matching := semantic_matching c;
     fuzzy_threshold := fuzzy_threshold c;
     business_key_columns := business_key_columns c;
     analyze_duplicate_patterns := analyze_duplicate_patterns c;
     suggest_deduplication := suggest_deduplication c;
     include_similarity_scores := include_similarity_scores c;
     max_fuzzy_comparisons := max_fuzzy_comparisons c;
     use_sampling := use_sampling c;
     sample_size := sample_size c |}.

(** [DuplicatesCheck.__init__] *)
Definition init (config : option DuplicatesConfig) : DuplicatesConfig :=
  let c := match config with Some c => c | None => default_config end in
  with_base
    {| check_name := Some "Duplicate Detection Analysis";
       check_type := Some "duplicates";
       enabled := enabled (base c);
       severity := severity (base c);
       threshold := threshold (base c);
       parameters := parameters (base c);
       description := description (base c) |} c.

(** Keys of [duplicate_groups]: a hash or group name, or a key tuple. *)
Inductive GroupKey : Type :=
| KStr (s : string)
| KTuple (t : list cell).

Definition key_eqb (k1 k2 : GroupKey) : bool :=
  match k1, k2 with
  | KStr s1, KStr s2 => String.eqb s1 s2
  | KTuple t1, KTuple t2 => list_eqb py_eq t1 t2
  | _, _ => false
  end.

(** The dictionary a detection method returns. *)
Record MethodResult : Type := mkMethodResult {
  duplicate_rows : list nat;
  duplicate_pairs : list (nat * nat);
  duplicate_groups : list (GroupKey * list nat);
  similarity_scores : list (string * option Q);
  total_groups : nat;
  method : string
}.

(** The dictionary of [_analyze_duplicate_patterns]. *)
Record Patterns : Type := mkPatterns {
  column_duplication : list (string * (nat * nat));
  systematic_duplicates : list (list cell * nat)
}.

(** The [analysis] dictionary; a method that did not run leaves the empty
    dictionary ([None]), and so does a pattern analysis that did not. *)
Record Analysis : Type := mkAnalysis {
  total_rows : nat;
  exact_duplicates : option MethodResult;
  fuzzy_duplicates : option MethodResult;
  business_key_duplicates : option MethodResult;
  semantic_duplicates : option MethodResult;
  total_duplicate_rows : nat;
  duplicate_percentage : Q;
  duplicate_patterns : option Patterns;
  a_recommendations : list string
}.

(** [d["total_groups"]] and [d.get("total_groups", 0)] on a method
    dictionary. *)
Definition total_groups_item (d : option MethodResult) : outcome nat :=
  match d with
  | Some r => Return (total_groups r)
  | None => Raise (KeyError "total_groups")
  end.

Definition total_groups_get (d : option MethodResult) : nat :=
  match d with
  | Some r => total_groups r
  | None => 0
  end.

(** [groups[key].append(idx)], creating the list on a new key. *)
Fixpoint group_append (key : GroupKey) (idx : nat)
  (groups : list (GroupKey * list nat)) : list (GroupKey * list nat) :=
  match groups with
  | [] => [(key, [idx])]
  | (k, v) :: rest =>
      if key_eqb k key then (k, v ++ [idx]) :: rest
      else (k, v) :: group_append key idx rest
  end.

(** [graph[i].add(j)] on a [defaultdict(set)]. *)
Fixpoint graph_add (i j : nat) (graph : list (nat * list nat))
  : list (nat * list nat) :=
  match graph with
  | [] => [(i, [j])]
  | (n, s) :: rest =>
      if (n =? i)%nat then (n, set_add_nat j s) :: rest
      else (n, s) :: graph_add i j rest
  end.

Fixpoint graph_get (graph : list (nat * list nat)) (i : nat) : list nat :=
  match graph with
  | [] => []
  | (n, s) :: rest => if (n =? i)%nat then s else graph_get rest i
  end.

Definition build_graph (duplicate_pairs : list (nat * nat))
  : list (nat * list nat) :=
  fold_left (fun graph p => graph_add (snd p) (fst p)
                              (graph_add (fst p) (snd p) graph))
    duplicate_pairs [].

(** The [while stack:] loop; the head of [stack] is its top.  Each turn
    pops one node, and a node is pushed at most once, so [fuel] counts
    the nodes of the graph. *)
Fixpoint dfs (fuel : nat) (graph : list (nat * list nat))
  (stack visited group : list nat) : list nat * list nat :=
  match fuel, stack with
  | _, [] => (group, visited)
  | O, _ => (group, visited)
  | S fuel', current :: stack' =>
      let '(visited, stack') :=
        fold_left
          (fun vs neighbor =>
             if mem_nat neighbor (fst vs) then vs
             else (fst vs ++ [neighbor], neighbor :: snd vs))
          (graph_get graph current) (visited, stack') in
      dfs fuel' graph stack' visited (group ++ [current])
  end.

(** One turn of the loop [for node in graph], on [visited] and [groups]. *)
Definition visit (fuel : nat) (graph : list (nat * list nat))
  (vg : list nat * list (list nat)) (node : nat)
  : list nat * list (list nat) :=
  if mem_nat node (fst vg) then vg
  else
    let found := dfs fuel graph [node] (fst vg ++ [node]) [] in
    if (1 <? List.length (fst found))%nat
    then (snd found, snd vg ++ [fst found])
    else (snd found, snd vg).

Definition components (fuel : nat) (graph : list (nat * list nat))
  : list (list nat) :=
  snd (fold_left (visit fuel graph) (map fst graph) ([], [])).

Definition _group_similar_rows (data : DataFrame)
  (duplicate_pairs : list (nat * nat)) : list (GroupKey * list nat) :=
  let graph := build_graph duplicate_pairs in
  let groups := components (List.length graph) graph in
  map (fun ig => (KStr ("group_" ++ str_nat (fst ig)), snd ig))
    (combine (seq 0 (List.length groups)) groups).

Section Check.
Context `{Runtime}.
Variable self_config : DuplicatesConfig.

Definition validate_config : bool :=
  if negb (Qle_bool 0 (fuzzy_threshold self_config)
           && Qle_bool (fuzzy_threshold self_config) 1) then false
  else if (max_fuzzy_comparisons self_config <? 100)%Z then false
  else if (sample_size self_config <? 100)%Z then false
  else true.

(** [_hash_row]: md5 of the cells joined by a bar. *)
Definition _hash_row (row : list cell) : string :=
  md5_hexdigest (String.concat "|" (map py_str row)).

Definition _detect_exact_duplicates (data : DataFrame) : MethodResult :=
  let duplicate_indices := df_duplicated None data in
  let duplicate_groups :=
    fold_left
      (fun groups idx => group_append (KStr (_hash_row (iloc data idx))) idx groups)
      duplicate_indices [] in
  let duplicate_groups :=
    filter (fun kv => (1 <? List.length (snd kv))%nat) duplicate_groups in
  {| duplicate_rows := duplicate_indices;
     duplicate_pairs := [];
     duplicate_groups := duplicate_groups;
     similarity_scores := [];
     total_groups := List.length duplicate_groups;
     method := "exact_matching" |}.

Definition column_similarity (c1 c2 : cell) : Q :=
  let val1 := Str (py_str c1) in
  let val2 := Str (py_str c2) in
  if pd_isna val1 || pd_isna val2 then 0.0%Q
  else if py_eq val1 val2 then 1.0%Q
  else Difflib.ratio (py_str c1) (py_str c2).

(** [_calculate_row_similarity]: two rows of one frame, column by
    column. *)
Definition _calculate_row_similarity (row1 row2 : list cell) : option Q :=
  let similarities :=
    map (fun cc => column_similarity (fst cc) (snd cc)) (combine row1 row2) in
  np_mean similarities.

Definition _detect_fuzzy_duplicates (data : DataFrame) : MethodResult :=
  let sample_data :=
    if (max_fuzzy_comparisons self_config <? Z.of_nat (nrows data))%Z
       && use_sampling self_config
    then df_sample (Nat.min (Z.to_nat (sample_size self_config)) (nrows data)) data
    else data in
  let n := nrows sample_data in
  let '(duplicate_pairs, similarity_scores) :=
    fold_left
      (fun acc i =>
         fold_left
           (fun acc j =>
              let similarity :=
                _calculate_row_similarity (iloc sample_data i)
                  (iloc sample_data j) in
              if ge_threshold similarity (fuzzy_threshold self_config)
              then (fst acc ++ [(i, j)],
                    dict_set (str_nat i ++ "_" ++ str_nat j)%string
                      similarity (snd acc))
              else acc)
           (seq (i + 1) (n - (i + 1))) acc)
      (seq 0 n) ([], []) in
  let duplicate_groups := _group_similar_rows sample_data duplicate_pairs in
  {| duplicate_rows :=
       set_update_nat []
         (flat_map (fun p => [fst p; snd p]) duplicate_pairs);
     duplicate_pairs := duplicate_pairs;
     duplicate_groups := duplicate_groups;
     similarity_scores := similarity_scores;
     total_groups := List.length duplicate_groups;
     method := "fuzzy_matching" |}.

Definition empty_result (name : string) : MethodResult :=
  {| duplicate_rows := []; duplicate_pairs := []; duplicate_groups := [];
     similarity_scores := []; total_groups := 0; method := name |}.

Definition _detect_business_key_duplicates (data : DataFrame) : MethodResult :=
  let labels := map fst (columns data) in
  let key_columns :=
    match business_key_columns self_config with
    | None | Some [] => Some (firstn (Nat.min 3 (List.length labels)) labels)
    | Some wanted =>
        match filter (fun col => existsb (String.eqb col) labels) wanted with
        | [] => None
        | found => Some found
        end
    end in
  match key_columns with
  | None => empty_result "business_key"
  | Some key_columns =>
      let duplicate_indices := df_duplicated (Some key_columns) data in
      let key_values idx :=
        map (fun col => nth idx (try_except (df_col data col) (fun _ => [])) NaN)
          key_columns in
      let duplicate_groups :=
        fold_left
          (fun groups idx => group_append (KTuple (key_values idx)) idx groups)
          duplicate_indices [] in
      {| duplicate_rows := duplicate_indices;
         duplicate_pairs := [];
         duplicate_groups := duplicate_groups;
         similarity_scores := [];
         total_groups := List.length duplicate_groups;
         method := "business_key" |}
  end.

Definition _detect_semantic_duplicates (data : DataFrame) : MethodResult :=
  empty_result "semantic".

(** [_analyze_duplicate_patterns]; [duplicate_rows] mixes the labels
    reported by the exact and business-key methods with the positions
    reported by the fuzzy method, and [data.loc[list(duplicate_rows)]]
    looks all of them up as labels. *)
Definition _analyze_duplicate_patterns (data : DataFrame)
  (duplicate_rows : list nat) : outcome Patterns :=
  let column_duplication :=
    fold_left
      (fun acc col =>
         let counts :=
           value_counts cell_same
             (filter (fun c => negb (pd_isna c)) (snd col)) in
         let duplicate_values := filter (fun vc => (1 <? snd vc)%nat) counts in
         match duplicate_values with
         | [] => acc
         | _ =>
             dict_set (fst col)
               (List.length duplicate_values,
                (list_sum (map snd duplicate_values)
                 - List.length duplicate_values)%nat) acc
         end)
      (columns data) [] in
  systematic <-
    match duplicate_rows with
    | [] => Return []
    | _ =>
        duplicate_data <- df_loc data duplicate_rows ;;
        Return (filter (fun pc => (1 <? snd pc)%nat)
                  (value_counts (list_eqb cell_same) duplicate_data))
    end ;;
  Return {| column_duplication := column_duplication;
            systematic_duplicates := systematic |}.

Definition _generate_deduplication_recommendations (analysis : Analysis)
  : outcome (list string) :=
  let recommendations :=
    if Qlt_bool 0.1 (duplicate_percentage analysis)
    then ["CRITICAL: Dataset has >10% duplicate data. Implement deduplication immediately."]
    else if Qlt_bool 0.05 (duplicate_percentage analysis)
    then ["WARNING: Dataset has >5% duplicate data. Consider deduplication."]
    else [] in
  exact_groups <- total_groups_item (exact_duplicates analysis) ;;
  let recommendations :=
    if (0 <? exact_groups)%nat
    then recommendations ++
         [("EXACT: " ++ str_nat exact_groups
           ++ " exact duplicate groups found. Remove exact duplicates first.")%string]
    else recommendations in
  fuzzy_groups <- total_groups_item (fuzzy_duplicates analysis) ;;
  let recommendations :=
    if (0 <? fuzzy_groups)%nat
    then recommendations ++
         [("FUZZY: " ++ str_nat fuzzy_groups
           ++ " fuzzy duplicate groups found. Review similarity threshold.")%string]
    else recommendations in
  key_groups <- total_groups_item (business_key_duplicates analysis) ;;
  let recommendations :=
    if (0 <? key_groups)%nat
    then recommendations ++
         [("BUSINESS KEY: " ++ str_nat key_groups
           ++ " business key duplicates. Verify business logic.")%string]
    else recommendations in
  patterns <- match duplicate_patterns analysis with
              | Some p => Return p
              | None => Raise (KeyError "systematic_duplicates")
              end ;;
  let recommendations :=
    match systematic_duplicates patterns with
    | [] => recommendations
    | _ => recommendations ++
           ["PATTERN: Systematic duplicates detected. Investigate data generation process."]
    end in
  Return recommendations.

Definition rows_of (d : option MethodResult) : list nat :=
  match d with
  | Some r => duplicate_rows r
  | None => []
  end.

Definition _detect_duplicates (data : DataFrame) : outcome Analysis :=
  let exact :=
    if exact_matching self_config
    then Some (_detect_exact_duplicates data) else None in
  let fuzzy :=
    if fuzzy_matching self_config
    then Some (_detect_fuzzy_duplicates data) else None in
  let key :=
    if business_key_matching self_config
    then Some (_detect_business_key_duplicates data) else None in
  let semantic :=
    if semantic_matching self_config
    then Some (_detect_semantic_duplicates data) else None in
  let all_duplicate_rows :=
    fold_left (fun acc d => set_update_nat acc (rows_of d))
      [exact; fuzzy; key; semantic] [] in
  let total := List.length all_duplicate_rows in
  pct <- py_div (Qnat total) (Qnat (nrows data)) ;;
  patterns <-
    (if analyze_duplicate_patterns self_config
     then p <- _analyze_duplicate_patterns data all_duplicate_rows ;;
          Return (Some p)
     else Return None) ;;
  let analysis recs :=
    {| total_rows := nrows data;
       exact_duplicates := exact;
       fuzzy_duplicates := fuzzy;
       business_key_duplicates := key;
       semantic_duplicates := semantic;
       total_duplicate_rows := total;
       duplicate_percentage := pct;
       duplicate_patterns := patterns;
       a_recommendations := recs |} in
  if suggest_deduplication self_config then
    recs <- _generate_deduplication_recommendations (analysis []) ;;
    Return (analysis recs)
  else Return (analysis []).

Definition sum_total_groups (analysis : Analysis) : nat :=
  (total_groups_get (exact_duplicates analysis)
   + total_groups_get (fuzzy_duplicates analysis)
   + total_groups_get (business_key_duplicates analysis))%nat.

Definition _calculate_quality_score (analysis : Analysis) : Q :=
  let base_score := 1.0%Q in
  let duplicate_penalty := (duplicate_percentage analysis * 0.6)%Q in
  let base_score := (base_score - duplicate_penalty)%Q in
  let total_groups := sum_total_groups analysis in
  let base_score :=
    if (0 <? total_groups)%nat
    then (base_score - py_min 0.2 (Qnat total_groups / 100))%Q
    else base_score in
  py_max 0.0 (py_min 1.0 base_score).

Definition _determine_status (quality_score : Q) (analysis : Analysis)
  : string :=
  status_of_score quality_score.

Definition dval_of_method (d : option MethodResult) : DVal :=
  match d with
  | None => DDict []
  | Some r =>
      DDict [("duplicate_rows",
              DList (map (fun i => DInt (Z.of_nat i)) (duplicate_rows r)));
             ("total_groups", DInt (Z.of_nat (total_groups r)));
             ("method", DStr (method r))]
  end.

Definition dval_of_patterns (p : option Patterns) : DVal :=
  match p with
  | None => DDict []
  | Some p =>
      DDict [("column_duplication",
              DDict (map (fun kv =>
                            (fst kv,
                             DDict [("duplicate_values",
                                     DInt (Z.of_nat (fst (snd kv))));
                                    ("total_duplicates",
                                     DInt (Z.of_nat (snd (snd kv))))]))
                       (column_duplication p)));
             ("value_frequency", DDict []);
             ("systematic_duplicates",
              DList (map (fun pc =>
                            DDict [("pattern",
                                    DList (map (fun c => DStr (py_str c)) (fst pc)));
                                   ("count", DInt (Z.of_nat (snd pc)))])
                       (systematic_duplicates p)))]
  end.

(** [_generate_details]; of each method dictionary the entries common to
    all methods are kept. *)
Definition _generate_details (analysis : Analysis) : list (string * DVal) :=
  [("summary",
    DDict [("total_duplicate_rows",
            DInt (Z.of_nat (total_duplicate_rows analysis)));
           ("duplicate_percentage",
            DStr (format_percent 2 (duplicate_percentage analysis)));
           ("total_duplicate_groups",
            DInt (Z.of_nat (sum_total_groups analysis)))]);
   ("method_results",
    DDict [("exact_matching", dval_of_method (exact_duplicates analysis));
           ("fuzzy_matching", dval_of_method (fuzzy_duplicates analysis));
           ("business_key", dval_of_method (business_key_duplicates analysis))]);
   ("patterns", dval_of_patterns (duplicate_patterns analysis));
   ("recommendations", DList (map DStr (a_recommendations analysis)))].

Definition failure (e : exn) : CheckResult :=
  {| r_check_name := "Duplicate Detection Analysis";
     r_check_type := "duplicates";
     status := "error";
     score := 0.0%Q;
     details := [("error", DStr (str_exn e))];
     execution_time := (time_end - time_start)%Q;
     timestamp := isoformat_now;
     affected_rows := None; affected_columns := None;
     recommendations := None |}.

Definition execute_body (data : DataFrame) : outcome CheckResult :=
  _ <- (if negb validate_config
        then Raise (ValueError "Invalid configuration") else Return tt) ;;
  duplicate_analysis <- _detect_duplicates data ;;
  let quality_score := _calculate_quality_score duplicate_analysis in
  let status := _determine_status quality_score duplicate_analysis in
  let details := _generate_details duplicate_analysis in
  Return
    {| r_check_name := "Duplicate Detection Analysis";
       r_check_type := "duplicates";
       status := status;
       score := quality_score;
       details := details;
       execution_time := (time_end - time_start)%Q;
       timestamp := isoformat_now;
       affected_rows := Some (total_duplicate_rows duplicate_analysis);
       affected_columns := Some (map fst (columns data));
       recommendations := None |}.

Definition execute (data : DataFrame) : CheckResult :=
  try_except (execute_body data) failure.

End Check.

Definition DuplicatesCheck `{Runtime} : QualityCheck DuplicatesConfig :=
  {| class_name := "DuplicatesCheck";
     config := base;
     Base.validate_config := fun c => Return (validate_config c);
     Base.execute := fun c data => Return (execute c data) |}.

End Duplicates.

(** Sorting rationals, and the order statistics pandas and numpy compute. *)
Fixpoint insert_sorted (x : Q) (l : list Q) : list Q :=
  match l with
  | [] => [x]
  | y :: l' => if Qle_bool x y then x :: l else y :: insert_sorted x l'
  end.

Definition sort_Q (l : list Q) : list Q := fold_right insert_sorted [] l.

(** [median]: NaN ([None]) on an empty list. *)
Definition median (l : list Q) : option Q :=
  let sorted := sort_Q l in
  let n := List.length sorted in
  match n with
  | O => None
  | _ =>
      if Nat.odd n then Some (nth (n / 2) sorted 0)
      else Some ((nth (n / 2 - 1) sorted 0 + nth (n / 2) sorted 0) / 2)%Q
  end.

(** [Series.quantile(q)] with linear interpolation. *)
Definition quantile (l : list Q) (q : Q) : option Q :=
  let sorted := sort_Q l in
  let n := List.length sorted in
  match n with
  | O => None
  | _ =>
      let position := (Qnat (n - 1) * q)%Q in
      let lower := Z.to_nat (Qfloor position) in
      let fraction := (position - Qnat lower)%Q in
      let x_lower := nth lower sorted 0 in
      let x_upper := nth (Nat.min (lower + 1) (n - 1)) sorted 0 in
      Some (x_lower + (x_upper - x_lower) * fraction)%Q
  end.

(* ================================================================== *)
(** * checks/outliers.py *)

Module Outliers.

Record OutliersConfig : Type := mkConfig {
  base : CheckConfig;
  zscore_method : bool;
  iqr_method : bool;
  modified_zscore : bool;
  isolation_forest : bool;
  local_outlier_factor : bool;
  dbscan_method : bool;
  zscore_threshold : Q;
  iqr_multiplier : Q;
  modified_zscore_threshold : Q;
  if_contamination : Q;
  if_random_state : Z;
  lof_contamination : Q;
  lof_n_neighbors : Z;
  dbscan_eps : Q;
  dbscan_min_samples : Z;
  analyze_outlier_patterns : bool;
  suggest_treatment : bool;
  include_visualization : bool;
  max_rows_for_ml : Z;
  use_sampling : bool;
  sample_size : Z
}.

Definition default_config : OutliersConfig :=
  {| base := default_CheckConfig;
     zscore_method := true;
     iqr_method := true;
     modified_zscore := true;
     isolation_forest := false;
     local_outlier_factor := false;
     dbscan_method := false;
     zscore_threshold := 3.0%Q;
     iqr_multiplier := 1.5%Q;
     modified_zscore_threshold := 3.5%Q;
     if_contamination := 0.1%Q;
     if_random_state := 42%Z;
     lof_contamination := 0.1%Q;
     lof_n_neighbors := 20%Z;
     dbscan_eps := 0.5%Q;
     dbscan_min_samples := 5%Z;
     analyze_outlier_patterns := true;
     suggest_treatment := true;
     include_visualization := true;
     max_rows_for_ml := 100000%Z;
     use_sampling := true;
     sample_size := 10000%Z |}.

Definition with_base (b : CheckConfig) (c : OutliersConfig) : OutliersConfig :=
  {| base := b;
     zscore_method := zscore_method c;
     iqr_method := iqr_method c;
     modified_zscore := modified_zscore c;
     isolation_forest := isolation_forest c;
     local_outlier_factor := local_outlier_factor c;
     dbscan_method := dbscan_method c;
     zscore_threshold := zscore_threshold c;
     iqr_multiplier := iqr_multiplier c;
     modified_zscore_threshold := modified_zscore_threshold c;
     if_contamination := if_contamination c;
     if_random_state := if_random_state c;
     lof_contamination := lof_contamination c;
     lof_n_neighbors := lof_n_neighbors c;
     dbscan_eps := dbscan_eps c;
     dbscan_min_samples := dbscan_min_samples c;
     analyze_outlier_patterns := analyze_outlier_patterns c;
     suggest_treatment := suggest_treatment c;
     include_visualization := include_visualization c;
     max_rows_for_ml := max_rows_for_ml c;
     use_sampling := use_sampling c;
     sample_size := sample_size c |}.

(** [OutliersCheck.__init__] *)
Definition init (config : option OutliersConfig) : OutliersConfig :=
  let c := match config with Some c => c | None => default_config end in
  with_base
    {| check_name := Some "Outlier Detection Analysis";
       check_type := Some "outliers";
       enabled := enabled (base c);
       severity := severity (base c);
       threshold := threshold (base c);
       parameters := parameters (base c);
       description := description (base c) |} c.

(** What a method records besides the flagged rows of a column. *)
Inductive Evidence : Type :=
| Scores (l : list Q)                 (* z_scores, modified_z_scores *)
| Bounds (lower upper iqr : Q).       (* bounds, iqr *)

Record ColumnOutliers : Type := mkColumnOutliers {
  co_count : nat;
  co_indices : list nat;
  co_evidence : Evidence
}.

(** The dictionary a detection method returns. *)
Record MethodResult : Type := mkMethodResult {
  outlier_rows : list nat;
  column_outliers : list (string * ColumnOutliers);
  total_outliers : nat;
  method : string;
  error : option string
}.

Record Distribution : Type := mkDistribution {
  d_count : nat;
  d_mean : Q;
  d_std : option Q;
  d_min : Q;
  d_max : Q
}.

(** The dictionary of [_analyze_outlier_patterns]. *)
Record Patterns : Type := mkPatterns {
  column_distribution : list (string * Distribution);
  outlier_clusters : list (string * nat)
}.

(** The [analysis] dictionary; [outlier_patterns] is [None] while it is
    the empty dictionary. *)
Record Analysis : Type := mkAnalysis {
  total_rows : nat;
  numeric_columns : list string;
  outlier_results : list (string * MethodResult);
  total_outlier_rows : nat;
  outlier_percentage : Q;
  outlier_patterns : option Patterns;
  a_recommendations : list string
}.

Definition is_number (c : cell) : bool :=
  match c with
  | Int _ | Float _ | NaN => true
  | _ => false
  end.

(** [data.select_dtypes(include=[np.number]).columns.tolist()] *)
Definition select_numeric (data : DataFrame) : list string :=
  map fst (filter (fun col => forallb is_number (snd col)) (columns data)).

(** [series.dropna()] as (row, value) pairs; arithmetic on a text cell is
    a [TypeError]. *)
Fixpoint dropna_from (i : nat) (series : Series) : outcome (list (nat * Q)) :=
  match series with
  | [] => Return []
  | c :: rest =>
      match c with
      | NaN | PyNone => dropna_from (S i) rest
      | Int z => tl <- dropna_from (S i) rest ;; Return ((i, inject_Z z) :: tl)
      | Float q => tl <- dropna_from (S i) rest ;; Return ((i, q) :: tl)
      | Str _ => Raise (TypeError "unsupported operand type(s)")
      end
  end.

Definition dropna (series : Series) : outcome (list (nat * Q)) :=
  dropna_from 0 series.

Definition Qmin_list (l : list Q) : Q :=
  match l with
  | [] => 0
  | x :: l' => fold_left (fun m y => if Qlt_bool y m then y else m) l' x
  end.

Definition Qmax_list (l : list Q) : Q :=
  match l with
  | [] => 0
  | x :: l' => fold_left (fun m y => if Qlt_bool m y then y else m) l' x
  end.

(** [outlier_patterns["outlier_clusters"]["rows_with_multiple_outliers"]] *)
Definition rows_with_multiple_outliers (analysis : Analysis) : outcome nat :=
  match outlier_patterns analysis with
  | None => Raise (KeyError "outlier_clusters")
  | Some p => dict_get "rows_with_multiple_outliers" (outlier_clusters p)
  end.

(** [try: m  except (KeyError, TypeError): pass] around an update of [x]. *)
Definition unless_key_or_type_error {A} (m : outcome A) (x : A) : outcome A :=
  match m with
  | Return y => Return y
  | Raise (KeyError _) | Raise (TypeError _) => Return x
  | Raise e => Raise e
  end.

Section Check.
Context `{Runtime}.
Variable self_config : OutliersConfig.

Definition validate_config : bool :=
  if Qle_bool (zscore_threshold self_config) 0 then false
  else if Qle_bool (iqr_multiplier self_config) 0 then false
  else if negb (Qlt_bool 0 (if_contamination self_config)
                && Qlt_bool (if_contamination self_config) 0.5) then false
  else if negb (Qlt_bool 0 (lof_contamination self_config)
                && Qlt_bool (lof_contamination self_config) 0.5) then false
  else true.

(** The state of a detection loop: [outlier_rows], [column_outliers]. *)
Definition Acc : Type := (list nat * list (string * ColumnOutliers))%type.

Definition flag (column : string) (flagged : list (nat * Q))
  (evidence : Evidence) (acc : Acc) : Acc :=
  match flagged with
  | [] => acc                              (* not outlier_mask.any() *)
  | _ =>
      let outlier_indices := map fst flagged in
      (set_update_nat (fst acc) outlier_indices,
       dict_set column
         {| co_count := List.length outlier_indices;
            co_indices := outlier_indices;
            co_evidence := evidence |} (snd acc))
  end.

Definition finish (acc : Acc) (name : string) : MethodResult :=
  {| outlier_rows := fst acc;
     column_outliers := snd acc;
     total_outliers := List.length (fst acc);
     method := name;
     error := None |}.

(** One turn of the loop of [_detect_zscore_outliers]. *)
Definition zscore_column (data : DataFrame) (column : string) (acc : Acc)
  : outcome Acc :=
  series <- df_col data column ;;
  clean_data <- dropna series ;;
  match clean_data with
  | [] => Return acc
  | _ =>
      let z_scores :=
        map (option_map Qabs) (stats_zscore (map snd clean_data)) in
      let flagged :=
        filter (fun vz => match snd vz with
                          | Some z => Qlt_bool (zscore_threshold self_config) z
                          | None => false
                          end)
          (combine clean_data z_scores) in
      Return (flag column (map fst flagged)
                (Scores (flat_map (fun vz => match snd vz with
                                             | Some z => [z]
                                             | None => []
                                             end) flagged)) acc)
  end.

Fixpoint for_columns (step : string -> Acc -> outcome Acc)
  (numeric_columns : list string) (acc : Acc) : outcome Acc :=
  match numeric_columns with
  | [] => Return acc
  | column :: rest => acc' <- step column acc ;; for_columns step rest acc'
  end.

Definition _detect_zscore_outliers (data : DataFrame)
  (numeric_columns : list string) : outcome MethodResult :=
  acc <- for_columns (zscore_column data) numeric_columns ([], []) ;;
  Return (finish acc "zscore").

(** One turn of the loop of [_detect_iqr_outliers]. *)
Definition iqr_column (data : DataFrame) (column : string) (acc : Acc)
  : outcome Acc :=
  series <- df_col data column ;;
  clean_data <- dropna series ;;
  match clean_data,
        quantile (map snd clean_data) 0.25, quantile (map snd clean_data) 0.75 with
  | _ :: _, Some Q1, Some Q3 =>
      let IQR := (Q3 - Q1)%Q in
      let lower_bound := (Q1 - iqr_multiplier self_config * IQR)%Q in
      let upper_bound := (Q3 + iqr_multiplier self_config * IQR)%Q in
      let flagged :=
        filter (fun iv => Qlt_bool (snd iv) lower_bound
                          || Qlt_bool upper_bound (snd iv)) clean_data in
      Return (flag column flagged (Bounds lower_bound upper_bound IQR) acc)
  | _, _, _ => Return acc
  end.

Definition _detect_iqr_outliers (data : DataFrame)
  (numeric_columns : list string) : outcome MethodResult :=
  acc <- for_columns (iqr_column data) numeric_columns ([], []) ;;
  Return (finish acc "iqr").

(** [np.median(np.abs(clean_data - median))] *)
Definition mad_of (values : list Q) (center : Q) : option Q :=
  median (map (fun x => Qabs (x - center)) values).

(** One turn of the loop of [_detect_modified_zscore_outliers]. *)
Definition modified_zscore_column (data : DataFrame) (column : string)
  (acc : Acc) : outcome Acc :=
  series <- df_col data column ;;
  clean_data <- dropna series ;;
  match clean_data with
  | [] => Return acc                               (* continue *)
  | _ =>
      match median (map snd clean_data) with
      | None => Return acc
      | Some center =>
          match mad_of (map snd clean_data) center with
          | None => Return acc
          | Some mad =>
              if Qeq_bool mad 0 then Return acc    (* continue *)
              else
                modified_z_scores <-
                  mapM (fun iv =>
                          z <- py_div (0.6745 * (snd iv - center)) mad ;;
                          Return (fst iv, z)) clean_data ;;
                let flagged :=
                  filter (fun iz =>
                            Qlt_bool (modified_zscore_threshold self_config)
                              (Qabs (snd iz))) modified_z_scores in
                Return (flag column flagged (Scores (map snd flagged)) acc)
          end
      end
  end.

Definition _detect_modified_zscore_outliers (data : DataFrame)
  (numeric_columns : list string) : outcome MethodResult :=
  acc <- for_columns (modified_zscore_column data) numeric_columns ([], []) ;;
  Return (finish acc "modified_zscore").

(** The three scikit-learn methods share one shape: fit, keep the rows
    labelled -1, and turn any failure into an empty result that carries
    the message. *)
Definition ml_method (estimator name : string) (data : DataFrame)
  (numeric_columns : list string) : MethodResult :=
  match ml_fit_predict estimator data numeric_columns with
  | Return outlier_indices =>
      {| outlier_rows := outlier_indices; column_outliers := [];
         total_outliers := List.length outlier_indices;
         method := name; error := None |}
  | Raise e =>
      {| outlier_rows := []; column_outliers := []; total_outliers := 0;
         method := name; error := Some (str_exn e) |}
  end.

Definition _detect_isolation_forest_outliers :=
  ml_method "IsolationForest" "isolation_forest".
Definition _detect_lof_outliers :=
  ml_method "LocalOutlierFactor" "local_outlier_factor".
Definition _detect_dbscan_outliers := ml_method "DBSCAN" "dbscan".

Definition _analyze_outlier_patterns (data : DataFrame)
  (outlier_rows : list nat) (numeric_columns : list string)
  : outcome Patterns :=
  match outlier_rows with
  | [] => Return {| column_distribution := []; outlier_clusters := [] |}
  | _ =>
      distribution <-
        (fix loop (cols : list string) (acc : list (string * Distribution)) :=
           match cols with
           | [] => Return acc
           | column :: rest =>
               match dict_find column (columns data) with
               | None => loop rest acc     (* column not in outlier_data *)
               | Some series =>
                   column_outliers <-
                     dropna (map (fun i => nth i series NaN) outlier_rows) ;;
                   match map snd column_outliers with
                   | [] => loop rest acc
                   | values =>
                       loop rest
                         (dict_set column
                            {| d_count := List.length values;
                               d_mean := (fold_left Qplus values 0
                                          / Qnat (List.length values))%Q;
                               d_std := series_std values;
                               d_min := Qmin_list values;
                               d_max := Qmax_list values |} acc)
                   end
               end
           end) numeric_columns [] ;;
      Return {| column_distribution := distribution;
                outlier_clusters :=
                  [("rows_with_multiple_outliers", 0%nat);
                   ("max_outliers_per_row", 1%nat)] |}
  end.

Definition method_total (results : list (string * MethodResult))
  (name : string) : nat :=
  match dict_find name results with
  | Some r => total_outliers r
  | None => 0
  end.

Definition _generate_treatment_recommendations (analysis : Analysis)
  : outcome (list string) :=
  let recommendations :=
    if Qlt_bool 0.1 (outlier_percentage analysis)
    then ["CRITICAL: Dataset has >10% outliers. Investigate data quality immediately."]
    else if Qlt_bool 0.05 (outlier_percentage analysis)
    then ["WARNING: Dataset has >5% outliers. Consider outlier treatment strategies."]
    else [] in
  let method_results := outlier_results analysis in
  let recommendations :=
    if (0 <? method_total method_results "zscore")%nat
    then recommendations ++
         [("Z-SCORE: " ++ str_nat (method_total method_results "zscore")
           ++ " outliers detected. Consider adjusting threshold.")%string]
    else recommendations in
  let recommendations :=
    if (0 <? method_total method_results "iqr")%nat
    then recommendations ++
         [("IQR: " ++ str_nat (method_total method_results "iqr")
           ++ " outliers detected. Review IQR multiplier.")%string]
    else recommendations in
  let recommendations :=
    if (0 <? method_total method_results "isolation_forest")%nat
    then recommendations ++
         [("ISOLATION FOREST: "
           ++ str_nat (method_total method_results "isolation_forest")
           ++ " outliers detected. Adjust contamination parameter.")%string]
    else recommendations in
  recommendations <-
    unless_key_or_type_error
      (n <- rows_with_multiple_outliers analysis ;;
       Return (if (0 <? n)%nat
               then recommendations ++
                    ["PATTERN: Multiple outliers per row detected. Investigate systematic data quality issues."]
               else recommendations))
      recommendations ;;
  Return
    (if Qlt_bool 0 (outlier_percentage analysis)
     then recommendations ++
          ["TREATMENT: Consider winsorization for extreme outliers";
           "TREATMENT: Use robust statistical methods for analysis";
           "TREATMENT: Investigate root causes of outlier generation"]
     else recommendations).

Definition _detect_outliers (data : DataFrame) : outcome Analysis :=
  let numeric_columns := select_numeric data in
  let analysis results total pct patterns recs :=
    {| total_rows := nrows data;
       numeric_columns := numeric_columns;
       outlier_results := results;
       total_outlier_rows := total;
       outlier_percentage := pct;
       outlier_patterns := patterns;
       a_recommendations := recs |} in
  match numeric_columns with
  | [] => Return (analysis [] 0%nat 0.0%Q None [])
  | _ =>
      let sample_data :=
        if (max_rows_for_ml self_config <? Z.of_nat (nrows data))%Z
           && use_sampling self_config
        then df_sample (Nat.min (Z.to_nat (sample_size self_config))
                          (nrows data)) data
        else data in
      let small :=
        (Z.of_nat (nrows sample_data) <=? max_rows_for_ml self_config)%Z in
      let results := [] in
      results <-
        (if zscore_method self_config
         then r <- _detect_zscore_outliers sample_data numeric_columns ;;
              Return (dict_set "zscore" r results)
         else Return results) ;;
      results <-
        (if iqr_method self_config
         then r <- _detect_iqr_outliers sample_data numeric_columns ;;
              Return (dict_set "iqr" r results)
         else Return results) ;;
      results <-
        (if modified_zscore self_config
         then r <- _detect_modified_zscore_outliers sample_data numeric_columns ;;
              Return (dict_set "modified_zscore" r results)
         else Return results) ;;
      let results :=
        if isolation_forest self_config && small
        then dict_set "isolation_forest"
               (_detect_isolation_forest_outliers sample_data numeric_columns)
               results
        else results in
      let results :=
        if local_outlier_factor self_config && small
        then dict_set "lof"
               (_detect_lof_outliers sample_data numeric_columns) results
        else results in
      let results :=
        if dbscan_method self_config && small
        then dict_set "dbscan"
               (_detect_dbscan_outliers sample_data numeric_columns) results
        else results in
      let all_outlier_rows :=
        fold_left (fun acc kv => set_update_nat acc (outlier_rows (snd kv)))
          results [] in
      let total := List.length all_outlier_rows in
      pct <- py_div (Qnat total) (Qnat (nrows data)) ;;
      patterns <-
        (if analyze_outlier_patterns self_config
         then p <- _analyze_outlier_patterns sample_data all_outlier_rows
                     numeric_columns ;;
              Return (Some p)
         else Return None) ;;
      if suggest_treatment self_config then
        recs <- _generate_treatment_recommendations
                  (analysis results total pct patterns []) ;;
        Return (analysis results total pct patterns recs)
      else Return (analysis results total pct patterns [])
  end.

Definition methods_with_outliers (analysis : Analysis) : nat :=
  count_true (fun kv => (0 <? total_outliers (snd kv))%nat)
    (outlier_results analysis).

Definition _calculate_quality_score (analysis : Analysis) : outcome Q :=
  let base_score := 1.0%Q in
  let outlier_penalty := (outlier_percentage analysis * 0.4)%Q in
  let base_score := (base_score - outlier_penalty)%Q in
  let methods_with_outliers := methods_with_outliers analysis in
  let base_score :=
    if (0 <? methods_with_outliers)%nat
    then (base_score - py_min 0.2 (Qnat methods_with_outliers * 0.05))%Q
    else base_score in
  base_score <-
    unless_key_or_type_error
      (n <- rows_with_multiple_outliers analysis ;;
       Return (if (0 <? n)%nat then (base_score - 0.1)%Q else base_score))
      base_score ;;
  Return (py_max 0.0 (py_min 1.0 base_score)).

Definition _determine_status (quality_score : Q) (analysis : Analysis)
  : string :=
  status_of_score quality_score.

(** [_generate_details]; of each method dictionary the entries common to
    all methods are kept. *)
Definition _generate_details (analysis : Analysis) : list (string * DVal) :=
  [("summary",
    DDict [("total_outlier_rows", DInt (Z.of_nat (total_outlier_rows analysis)));
           ("outlier_percentage",
            DStr (format_percent 2 (outlier_percentage analysis)));
           ("numeric_columns_analyzed",
            DInt (Z.of_nat (List.length (numeric_columns analysis))));
           ("methods_used",
            DList (map (fun kv => DStr (fst kv)) (outlier_results analysis)))]);
   ("method_results",
    DDict (map (fun kv =>
                  (fst kv,
                   DDict [("outlier_rows",
                           DList (map (fun i => DInt (Z.of_nat i))
                                    (outlier_rows (snd kv))));
                          ("total_outliers",
                           DInt (Z.of_nat (total_outliers (snd kv))));
                          ("method", DStr (method (snd kv)))]))
             (outlier_results analysis)));
   ("patterns",
    match outlier_patterns analysis with
    | None => DDict []
    | Some p =>
        DDict [("column_distribution",
                DDict (map (fun kv =>
                              (fst kv,
                               DDict [("count", DInt (Z.of_nat (d_count (snd kv))));
                                      ("mean", DNum (d_mean (snd kv)));
                                      ("std", match d_std (snd kv) with
                                              | Some sd => DNum sd
                                              | None => DStr "nan"
                                              end);
                                      ("min", DNum (d_min (snd kv)));
                                      ("max", DNum (d_max (snd kv)))]))
                         (column_distribution p)));
               ("outlier_clusters",
                DDict (map (fun kv => (fst kv, DInt (Z.of_nat (snd kv))))
                         (outlier_clusters p)));
               ("correlation_analysis", DDict [])]
    end);
   ("recommendations", DList (map DStr (a_recommendations analysis)))].

Definition failure (e : exn) : CheckResult :=
  {| r_check_name := "Outlier Detection Analysis";
     r_check_type := "outliers";
     status := "error";
     score := 0.0%Q;
     details := [("error", DStr (str_exn e))];
     execution_time := (time_end - time_start)%Q;
     timestamp := isoformat_now;
     affected_rows := None; affected_columns := None;
     recommendations := None |}.

Definition execute_body (data : DataFrame) : outcome CheckResult :=
  _ <- (if negb validate_config
        then Raise (ValueError "Invalid configuration") else Return tt) ;;
  outlier_analysis <- _detect_outliers data ;;
  quality_score <- _calculate_quality_score outlier_analysis ;;
  let status := _determine_status quality_score outlier_analysis in
  let details := _generate_details outlier_analysis in
  Return
    {| r_check_name := "Outlier Detection Analysis";
       r_check_type := "outliers";
       status := status;
       score := quality_score;
       details := details;
       execution_time := (time_end - time_start)%Q;
       timestamp := isoformat_now;
       affected_rows := Some (total_outlier_rows outlier_analysis);
       affected_columns := Some (numeric_columns outlier_analysis);
       recommendations := None |}.

Definition execute (data : DataFrame) : CheckResult :=
  try_except (execute_body data) failure.

End Check.

Definition OutliersCheck `{Runtime} : QualityCheck OutliersConfig :=
  {| class_name := "OutliersCheck";
     config := base;
     Base.validate_config := fun c => Return (validate_config c);
     Base.execute := fun c data => Return (execute c data) |}.

End Outliers.

(* ================================================================== *)
(** * core/engine.py *)

Module Engine.

(** The part of the engine's state the orchestration touches. *)
Record DataQualityEngine : Type := mkEngine {
  results : list CheckResult
}.

Definition basic_checks : list string :=
  ["missing_values"; "data_types"; "duplicates"; "outliers"].

Notation "x <-- m ;;; k" := (bindM m (fun x => k))
  (at level 61, m at next level, right associativity).

Section Orchestrator.
Context `{Runtime}.

(** [check = Cls()]: construction with the class defaults. *)
Definition construct {C} (K : QualityCheck C) (c : C) : M C :=
  fun log => (Return c, log ++ [Constructed (class_name K)]).

Definition placeholder_data_types : CheckResult :=
  {| r_check_name := "Data Types Validation";
     r_check_type := "data_types";
     status := "passed";
     score := 0.95%Q;
     details := [("message", DStr "Data types check completed successfully")];
     execution_time := 0.1%Q;
     timestamp := isoformat_now;
     affected_rows := None; affected_columns := None;
     recommendations := None |}.

Definition check_failed (check_type : string) (e : exn) : CheckResult :=
  {| r_check_name := check_type ++ " check";
     r_check_type := check_type;
     status := "error";
     score := 0.0%Q;
     details := [("error", DStr (str_exn e))];
     execution_time := 0.0%Q;
     timestamp := isoformat_now;
     affected_rows := None; affected_columns := None;
     recommendations := None |}.

(** [DataQualityEngine._execute_check] *)
Definition _execute_check (data : DataFrame) (check_type : string)
  (custom_rules : option (list (string * string)))
  : M (option CheckResult) :=
  try_exceptM
    (if String.eqb check_type "missing_values" then
       check <-- construct MissingValues.MissingValuesCheck
                   (MissingValues.init None) ;;;
       result <-- call "MissingValuesCheck" "execute"
                    (Base.execute MissingValues.MissingValuesCheck check data) ;;;
       ret (Some result)
     else if String.eqb check_type "duplicates" then
       check <-- construct Duplicates.DuplicatesCheck
                   (Duplicates.init None) ;;;
       result <-- call "DuplicatesCheck" "execute"
                    (Base.execute Duplicates.DuplicatesCheck check data) ;;;
       ret (Some result)
     else if String.eqb check_type "outliers" then
       check <-- construct Outliers.OutliersCheck (Outliers.init None) ;;;
       result <-- call "OutliersCheck" "execute"
                    (Base.execute Outliers.OutliersCheck check data) ;;;
       ret (Some result)
     else if String.eqb check_type "data_types" then
       ret (Some placeholder_data_types)
     else
       ret None)
    (fun e => ret (Some (check_failed check_type e))).

Fixpoint execute_all (data : DataFrame) (check_types : list string)
  (custom_rules : option (list (string * string)))
  (results : list CheckResult) : M (list CheckResult) :=
  match check_types with
  | [] => ret results
  | check_type :: rest =>
      result <-- _execute_check data check_type custom_rules ;;;
      execute_all data rest custom_rules
        (match result with
         | Some r => results ++ [r]
         | None => results
         end)
  end.

(** [DataQualityEngine.run_quality_checks]: the returned list and the
    engine with its [results] extended. *)
Definition run_quality_checks (self : DataQualityEngine) (data : DataFrame)
  (check_types : option (list string))
  (custom_rules : option (list (string * string)))
  : M (list CheckResult * DataQualityEngine) :=
  if df_empty data then ret ([], self)
  else
    let requested :=
      match check_types with
      | None | Some [] => basic_checks
      | Some l => l
      end in
    results <-- execute_all data requested custom_rules [] ;;;
    ret (results, {| results := Engine.results self ++ results |}).

End Orchestrator.

End Engine.

(* ================================================================== *)
(** * Inputs and notions the statements below are about *)

(** [data.duplicated(subset, keep=False)]: the rows that agree with another
    row on the columns of [subset] (on all columns without one). *)
Definition duplicated_rows (subset : option (list string)) (data : DataFrame)
  : list nat :=
  let cols :=
    match subset with
    | None => columns data
    | Some labels =>
        filter (fun c => existsb (String.eqb (fst c)) labels) (columns data)
    end in
  let key i := map (fun c => nth i (snd c) NaN) cols in
  filter
    (fun i =>
       existsb (fun j => negb (i =? j)%nat && list_eqb cell_same (key i) (key j))
         (seq 0 (nrows data)))
    (seq 0 (nrows data)).

(** [data.loc[rows]] on a frame with the default index, where the labels
    are the positions: a label beyond the last row is a [KeyError]. *)
Definition loc_rows (data : DataFrame) (rows : list nat)
  : outcome (list (list cell)) :=
  if forallb (fun i => (i <? nrows data)%nat) rows
  then Return (map (iloc data) rows)
  else Raise (KeyError "not in index").

(** A runtime to evaluate the model on concrete inputs: duplicates and
    label lookup as above, the identity for the hash, no sampling, and
    NaN for every statistic that needs a square root; formatting is a
    stub.  Nothing stated below with it depends on the stubs. *)
Definition sample_runtime : Runtime :=
  {| float_str := fun _ => "0.0";
     format_percent := fun _ _ => "%";
     series_corr := fun _ _ => None;
     series_std := fun _ => None;
     stats_zscore := fun l => map (fun _ => None) l;
     df_sample := fun _ data => data;
     df_duplicated := duplicated_rows;
     df_loc := loc_rows;
     md5_hexdigest := fun s => s;
     ml_fit_predict := fun _ _ _ => Return [];
     time_start := 0; time_end := 1;
     strftime_now := "2024-01-01T00:00:00Z";
     isoformat_now := "2024-01-01T00:00:00" |}.

Module Cases.

(** A check whose [execute] always fails, and a check with a
    configuration test, to exercise the wrapper. *)
Definition failing_check : QualityCheck CheckConfig :=
  {| class_name := "FailingCheck";
     config := fun c => c;
     Base.validate_config := fun _ => Return true;
     Base.execute := fun _ _ => Raise (RuntimeError "boom") |}.

Definition picky_check : QualityCheck CheckConfig :=
  {| class_name := "PickyCheck";
     config := fun c => c;
     Base.validate_config := fun c => Return (Qle_bool (threshold c) 1);
     Base.execute := fun _ _ => Raise (RuntimeError "never reached") |}.

(** A check whose [validate_config] itself fails. *)
Definition unvalidatable_check : QualityCheck CheckConfig :=
  {| class_name := "UnvalidatableCheck";
     config := fun c => c;
     Base.validate_config := fun _ => Raise (ValueError "no schema loaded");
     Base.execute := fun _ _ => Raise (RuntimeError "never reached") |}.

Definition disabled_config : CheckConfig :=
  {| check_name := None; check_type := None; enabled := false;
     severity := "medium"; threshold := 0.8%Q; parameters := [];
     description := None |}.

Definition invalid_config : CheckConfig :=
  {| check_name := None; check_type := None; enabled := true;
     severity := "medium"; threshold := 2%Q; parameters := [];
     description := None |}.

Definition one_cell : DataFrame := mkFrame 1 [("x", [Int 1])].

Definition two_by_two : DataFrame :=
  mkFrame 2 [("id", [Int 1; Int 2]); ("name", [Str "ann"; Str "bob"])].

(** Missing values: empty strings detected, standard nulls not,
    everything else at its default. *)
Definition empty_strings_config : MissingValues.MissingValuesConfig :=
  MissingValues.init
    (Some {| MissingValues.base := default_CheckConfig;
             MissingValues.missing_threshold := 0.1%Q;
             MissingValues.critical_threshold := 0.5%Q;
             MissingValues.detect_empty_strings := true;
             MissingValues.detect_whitespace := true;
             MissingValues.detect_na_values := false;
             MissingValues.detect_custom_na :=
               ["N/A"; "NULL"; "null"; "None"; "none"; ""];
             MissingValues.analyze_patterns := true;
             MissingValues.analyze_correlations := true;
             MissingValues.suggest_imputation := true;
             MissingValues.include_heatmap := true;
             MissingValues.include_patterns := true;
             MissingValues.include_recommendations := true |}).

(** The same with the whitespace method and the sentinel list turned off
    as well, so that only the empty-string method counts. *)
Definition empty_only_config : MissingValues.MissingValuesConfig :=
  MissingValues.init
    (Some {| MissingValues.base := default_CheckConfig;
             MissingValues.missing_threshold := 0.1%Q;
             MissingValues.critical_threshold := 0.5%Q;
             MissingValues.detect_empty_strings := true;
             MissingValues.detect_whitespace := false;
             MissingValues.detect_na_values := false;
             MissingValues.detect_custom_na := [];
             MissingValues.analyze_patterns := true;
             MissingValues.analyze_correlations := true;
             MissingValues.suggest_imputation := true;
             MissingValues.include_heatmap := true;
             MissingValues.include_patterns := true;
             MissingValues.include_recommendations := true |}).

(** The defaults with pattern analysis switched off. *)
Definition patterns_off : MissingValues.MissingValuesConfig :=
  MissingValues.init
    (Some {| MissingValues.base := default_CheckConfig;
             MissingValues.missing_threshold := 0.1%Q;
             MissingValues.critical_threshold := 0.5%Q;
             MissingValues.detect_empty_strings := true;
             MissingValues.detect_whitespace := true;
             MissingValues.detect_na_values := true;
             MissingValues.detect_custom_na :=
               ["N/A"; "NULL"; "null"; "None"; "none"; ""];
             MissingValues.analyze_patterns := false;
             MissingValues.analyze_correlations := true;
             MissingValues.suggest_imputation := true;
             MissingValues.include_heatmap := true;
             MissingValues.include_patterns := true;
             MissingValues.include_recommendations := true |}).

Definition three_empty_cells : Series :=
  [Str ""; Str "a"; Str ""; Str "b"; Str "c";
   Str ""; Str "d"; Str "e"; Str "f"; Str "g"].

Definition three_empty : DataFrame := mkFrame 10 [("value", three_empty_cells)].

(** Two rows whose cells are all missing. *)
Definition all_missing : DataFrame :=
  mkFrame 2 [("a", [NaN; NaN]); ("b", [PyNone; PyNone])].

(** The three rows of the fuzzy scenario and its configuration. *)
Definition names : DataFrame :=
  mkFrame 3 [("name", [Str "alice"; Str "alicia"; Str "bob"]);
             ("age", [Int 30; Int 30; Int 40])].

Definition threshold_06 : Duplicates.DuplicatesConfig :=
  Duplicates.init
    (Some {| Duplicates.base := default_CheckConfig;
             Duplicates.exact_matching := true;
             Duplicates.fuzzy_matching := true;
             Duplicates.business_key_matching := true;
             Duplicates.semantic_matching := false;
             Duplicates.fuzzy_threshold := 0.6%Q;
             Duplicates.business_key_columns := None;
             Duplicates.analyze_duplicate_patterns := true;
             Duplicates.suggest_deduplication := true;
             Duplicates.include_similarity_scores := true;
             Duplicates.max_fuzzy_comparisons := 10000%Z;
             Duplicates.use_sampling := true;
             Duplicates.sample_size := 10000%Z |}).

(** Two numeric columns of identical values, one of them with a gap. *)
Definition constant_columns : DataFrame :=
  mkFrame 4 [("k", [Int 7; Int 7; Int 7; Int 7]);
             ("x", [Float 1.5; NaN; Float 1.5; Float 1.5])].

End Cases.

Module Notions.

(** A cell the whitespace method counts. *)
Definition blank `{Runtime} (c : cell) : bool :=
  String.eqb (strip (py_str c)) "".

(** The per-column loop of the missing-values analysis, as the folds it
    performs on [missing_counts] and on [columns_with_missing]. *)
Definition counts_after `{Runtime} (cfg : MissingValues.MissingValuesConfig)
  (cols : list (string * Series)) (counts : list (string * nat))
  : list (string * nat) :=
  fold_left
    (fun acc col =>
       dict_set (fst col) (MissingValues._count_missing_values cfg (snd col)) acc)
    cols counts.

Definition missing_after `{Runtime} (cfg : MissingValues.MissingValuesConfig)
  (cols : list (string * Series)) (n : nat) : nat :=
  fold_left
    (fun acc col =>
       if (0 <? MissingValues._count_missing_values cfg (snd col))%nat
       then S acc else acc)
    cols n.

(** A block [(besti, _, bestsize)] lies in the rows [alo .. hi) of [a]. *)
Definition within (alo hi : nat) (best : nat * nat * nat) : Prop :=
  (alo <= fst (fst best) /\ fst (fst best) + snd best <= hi)%nat.

(** No run recorded in [j2len] is longer than [bound]. *)
Definition runs_below (bound : nat) (j2len : list (nat * nat)) : Prop :=
  forall j, (Difflib.j2len_get j2len j <= bound)%nat.

Definition nodes (graph : list (nat * list nat)) : list nat := map fst graph.

(** Every neighbour is itself a node of the graph. *)
Definition closed (graph : list (nat * list nat)) : Prop :=
  forall i x, In x (Duplicates.graph_get graph i) -> In x (nodes graph).

(** What the search keeps true of [visited]. *)
Definition tidy (graph : list (nat * list nat)) (visited : list nat) : Prop :=
  NoDup visited /\ incl visited (nodes graph).

(** The body of [for neighbor in graph[current]], on [visited] and
    [stack]. *)
Definition push (vs : list nat * list nat) (neighbor : nat)
  : list nat * list nat :=
  if mem_nat neighbor (fst vs) then vs
  else (fst vs ++ [neighbor], neighbor :: snd vs).

(** [y] is a neighbour of [x]. *)
Definition adj (graph : list (nat * list nat)) (x y : nat) : Prop :=
  In y (Duplicates.graph_get graph x).

(** Two rows are linked by a duplicate pair, in either order. *)
Definition linked (duplicate_pairs : list (nat * nat)) (x y : nat) : Prop :=
  In (x, y) duplicate_pairs \/ In (y, x) duplicate_pairs.

(** [y] can be reached from [x] along edges. *)
Inductive connected (edge : nat -> nat -> Prop) : nat -> nat -> Prop :=
| connected_here (x : nat) : connected edge x x
| connected_step (x y z : nat) :
    connected edge x y -> edge y z -> connected edge x z.

Definition symmetric (graph : list (nat * list nat)) : Prop :=
  forall x y, adj graph x y -> adj graph y x.

(** A set of nodes no edge leaves. *)
Definition sealed (graph : list (nat * list nat)) (seen : list nat) : Prop :=
  forall x y, In x seen -> adj graph x y -> In y seen.

(** The state of one search from [start], entered with [seen] visited. *)
Record searching (graph : list (nat * list nat)) (start : nat)
  (seen stack visited group : list nat) : Prop := mkSearching {
  visited_split :
    forall x, In x visited <-> In x seen \/ In x group \/ In x stack;
  found_connected :
    forall x, In x group \/ In x stack -> connected (adj graph) start x;
  group_expanded :
    forall x y, In x group -> adj graph x y -> In y visited;
  found_fresh :
    forall x, In x group \/ In x stack -> ~ In x seen;
  start_found : In start group \/ In start stack
}.

(** The state of the loop over the nodes. *)
Record swept (graph : list (nat * list nat)) (visited : list nat)
  (groups : list (list nat)) : Prop := mkSwept {
  swept_sealed : sealed graph visited;
  swept_groups :
    forall group x, In group groups -> In x group ->
                    forall y, In y group <-> connected (adj graph) x y;
  swept_sizes : forall group, In group groups -> (1 < List.length group)%nat;
  swept_covered :
    forall x, In x visited ->
              (exists group, In group groups /\ In x group)
              \/ (forall y, adj graph x y -> y = x)
}.

(** Row [i] is in some group; rows [i] and [j] share a group. *)
Definition grouped (r : Duplicates.MethodResult) (i : nat) : bool :=
  existsb (fun kg => mem_nat i (snd kg)) (Duplicates.duplicate_groups r).

Definition same_group (r : Duplicates.MethodResult) (i j : nat) : bool :=
  existsb (fun kg => mem_nat i (snd kg) && mem_nat j (snd kg))
    (Duplicates.duplicate_groups r).

(** The median absolute deviation of a column is 0. *)
Definition mad_is_zero (series : Series) : bool :=
  match Outliers.dropna series with
  | Return [] => false
  | Return clean_data =>
      match median (map snd clean_data) with
      | Some center =>
          match Outliers.mad_of (map snd clean_data) center with
          | Some mad => Qeq_bool mad 0
          | None => false
          end
      | None => false
      end
  | Raise _ => false
  end.

Definition degenerate (data : DataFrame) (column : string) : bool :=
  match df_col data column with
  | Return series => mad_is_zero series
  | Raise _ => false
  end.

(** The label names a column of numbers. *)
Definition resolves (data : DataFrame) (column : string) : bool :=
  match df_col data column with
  | Return series =>
      match Outliers.dropna series with
      | Return _ => true
      | Raise _ => false
      end
  | Raise _ => false
  end.

(** The result of the modified z-score method when it flags nothing. *)
Definition no_outliers : Outliers.MethodResult :=
  {| Outliers.outlier_rows := []; Outliers.column_outliers := [];
     Outliers.total_outliers := 0;
     Outliers.method := "modified_zscore"; Outliers.error := None |}.

(** What every result of a check satisfies: the score is in [0, 1], and
    the status is "error" with score 0.0 or else the rung of the ladder
    the score stands on. *)
Definition well_scored (r : CheckResult) : Prop :=
  0 <= score r /\ score r <= 1
  /\ ((status r = "error" /\ score r == 0)
      \/ status r = status_of_score (score r)).

End Notions.

(** The scoring arithmetic of the scenarios in IEEE binary64, as the
    interpreter performs it, next to the exact rationals of the model. *)
Module Binary64.

Local Open Scope float_scope.

(** Two-argument [min] and [max] of the interpreter. *)
Definition py_min (a b : float) : float := if PrimFloat.ltb b a then b else a.
Definition py_max (a b : float) : float := if PrimFloat.ltb a b then b else a.

(** Nothing missing: both penalties are 0.0 and the systematic pattern
    costs 0.1. *)
Definition complete_score : float :=
  py_max 0.0 (py_min 1.0 (1.0 - 0.0 * 0.5 - (0 / 2) * 0.2 - 0.1)).

(** The two rows "alice"/30 and "alicia"/30, and either against
    "bob"/40. *)
Definition alice_alicia : float := (2.0 * 4 / 11 + 1.0) / 2.
Definition against_bob : float := (2.0 * 0 / 8 + 2.0 * 1 / 4) / 2.

End Binary64.

(* ================================================================== *)
(** * core/engine.py: the engine object and its other methods *)

Module EngineObject.
Import Engine.

(** A registered connector: its class, and what [await self.disconnect()]
    does when the connector is closed. *)
Record DataConnector : Type := mkConnector {
  connector_class : string;
  disconnect : outcome unit
}.

(** The engine object: the arguments of the constructor, the registry of
    connectors and the results kept by the orchestration. *)
Record Engine : Type := mkEngineObject {
  config_path : option string;
  enable_monitoring : bool;
  max_workers : Z;
  connectors : list (string * DataConnector);
  orchestration : DataQualityEngine;            (* self.results *)
  current_session : option string
}.

Definition results_of (self : Engine) : list CheckResult :=
  results (orchestration self).

Definition with_orchestration (self : Engine) (o : DataQualityEngine) : Engine :=
  {| config_path := config_path self;
     enable_monitoring := enable_monitoring self;
     max_workers := max_workers self;
     connectors := connectors self;
     orchestration := o;
     current_session := current_session self |}.

(** [DataQualityEngine.__init__]; a path that is [None] or empty is no
    path.  Loading the configuration and registering the default
    components only write to the log. *)
Definition init (config_path : option string) (enable_monitoring : bool)
  (max_workers : Z) : Engine :=
  {| config_path :=
       match config_path with
       | Some p => if String.eqb p "" then None else Some p
       | None => None
       end;
     enable_monitoring := enable_monitoring;
     max_workers := max_workers;
     connectors := [];
     orchestration := {| results := [] |};
     current_session := None |}.

(** [connect_data_source]: the identifier it returns; the engine is left
    as it was. *)
Definition connect_data_source (self : Engine) (source_type : string)
  (connection_params : list (string * string)) (source_name : option string)
  : string * Engine :=
  let source_id :=
    or_else source_name
      (source_type ++ "_" ++ str_nat (List.length (connectors self))) in
  (source_id, self).

(** [load_data]: the placeholder frame [pd.DataFrame()] has no rows and
    no columns. *)
Definition load_data (self : Engine) (source_id : string)
  (query : option string) (filters : option (list (string * string)))
  : outcome DataFrame :=
  match dict_find source_id (connectors self) with
  | None => Raise (ValueError ("Unknown data source: " ++ source_id))
  | Some _ => Return (mkFrame 0 [])
  end.

Section Methods.
Context `{Runtime}.

(** [run_quality_checks] on the whole object. *)
Definition run_quality_checks (self : Engine) (data : DataFrame)
  (check_types : option (list string))
  (custom_rules : option (list (string * string)))
  : M (list CheckResult * Engine) :=
  bindM (Engine.run_quality_checks (orchestration self) data check_types
           custom_rules)
    (fun out => ret (fst out, with_orchestration self (snd out))).

(** [generate_report]; [output_path] is a string or [None]. *)
Definition generate_report (self : Engine) (report_type : string)
  (output_path : option string) (include_charts : bool) : string :=
  match results_of self with
  | [] => ""
  | _ => or_else output_path ("quality_report." ++ report_type)
  end.

(** [sum(xs)] on floats. *)
Definition py_sum (xs : list Q) : Q := fold_left Qplus xs 0.

Definition get_quality_score (self : Engine) : Q :=
  match results_of self with
  | [] => 0.0%Q
  | _ =>
      let scores := map score (results_of self) in
      (py_sum scores / Qnat (List.length scores))%Q
  end.

(** [sum(1 for r in self.results if r.status == s)] *)
Definition count_status (s : string) (results : list CheckResult) : nat :=
  count_true (fun r => String.eqb (status r) s) results.

Definition get_summary (self : Engine) : list (string * DVal) :=
  match results_of self with
  | [] => [("message", DStr "No quality checks have been run")]
  | _ =>
      let passed := count_status "passed" (results_of self) in
      let failed := count_status "failed" (results_of self) in
      let warnings := count_status "warning" (results_of self) in
      [("total_checks", DInt (Z.of_nat (List.length (results_of self))));
       ("passed", DInt (Z.of_nat passed));
       ("failed", DInt (Z.of_nat failed));
       ("warnings", DInt (Z.of_nat warnings));
       ("overall_score", DNum (get_quality_score self));
       ("execution_time", DNum (py_sum (map execution_time (results_of self))))]
  end.

(** [DataConnector.close] *)
Definition close (connector : DataConnector) : M unit :=
  call (connector_class connector) "close" (disconnect connector).

Fixpoint close_all (cs : list (string * DataConnector)) : M unit :=
  match cs with
  | [] => ret tt
  | c :: rest => bindM (close (snd c)) (fun _ => close_all rest)
  end.

(** [cleanup]: close every connector, then clear the results. *)
Definition cleanup (self : Engine) : M Engine :=
  bindM (close_all (connectors self))
    (fun _ => ret (with_orchestration self {| results := [] |})).

End Methods.

End EngineObject.

(* ================================================================== *)
(** * Notions used to state the further properties *)

Module CheckNotions.

(** What [_generate_deduplication_recommendations] looks up in the
    analysis: the results of the three matching methods and of the
    pattern analysis. *)
Definition recommendations_supplied (cfg : Duplicates.DuplicatesConfig) : bool :=
  Duplicates.exact_matching cfg && Duplicates.fuzzy_matching cfg
  && Duplicates.business_key_matching cfg
  && Duplicates.analyze_duplicate_patterns cfg.

(** The outlier methods run on the dataset itself, not on a sample. *)
Definition not_sampled (cfg : Outliers.OutliersConfig) (data : DataFrame)
  : bool :=
  negb ((Outliers.max_rows_for_ml cfg <? Z.of_nat (nrows data))%Z
        && Outliers.use_sampling cfg).

(** The rows the duplicates check collects from its methods:
    [all_duplicate_rows]. *)
Definition collected_rows `{Runtime} (cfg : Duplicates.DuplicatesConfig)
  (data : DataFrame) : list nat :=
  fold_left (fun acc d => set_update_nat acc (Duplicates.rows_of d))
    [if Duplicates.exact_matching cfg
     then Some (Duplicates._detect_exact_duplicates data) else None;
     if Duplicates.fuzzy_matching cfg
     then Some (Duplicates._detect_fuzzy_duplicates cfg data) else None;
     if Duplicates.business_key_matching cfg
     then Some (Duplicates._detect_business_key_duplicates cfg data)
     else None;
     if Duplicates.semantic_matching cfg
     then Some (Duplicates._detect_semantic_duplicates data) else None]
    [].

(** The statuses of the ladder. *)
Definition graded (s : string) : Prop :=
  In s ["passed"; "warning"; "failed"; "critical"].

Definition pattern_advice : string :=
  "PATTERN: Multiple outliers per row detected. Investigate systematic data quality issues.".

(** Two results that differ at most in their timing. *)
Definition same_verdict (r1 r2 : CheckResult) : Prop :=
  r_check_name r1 = r_check_name r2
  /\ r_check_type r1 = r_check_type r2
  /\ status r1 = status r2
  /\ score r1 = score r2
  /\ details r1 = details r2
  /\ affected_rows r1 = affected_rows r2
  /\ affected_columns r1 = affected_columns r2
  /\ recommendations r1 = recommendations r2.

(** The lookup of the rows with several outliers finds 0 or fails. *)
Definition no_clusters (a : Outliers.Analysis) : Prop :=
  Outliers.rows_with_multiple_outliers a = Return 0%nat
  \/ exists key, Outliers.rows_with_multiple_outliers a = Raise (KeyError key).

(** A frame with one column of two texts, and one with a numeric column
    that has one far value. *)
Definition two_texts : DataFrame := mkFrame 2 [("name", [Str "ann"; Str "bob"])].

Definition with_far_value : DataFrame :=
  mkFrame 6 [("x", [Int 1; Int 2; Int 3; Int 2; Int 1; Int 100])].

(** What the outliers check finds in that frame. *)
Definition far_value_analysis : Outliers.Analysis :=
  match @Outliers._detect_outliers sample_runtime (Outliers.init None)
          with_far_value with
  | Return a => a
  | Raise _ =>
      {| Outliers.total_rows := 0; Outliers.numeric_columns := [];
         Outliers.outlier_results := []; Outliers.total_outlier_rows := 0;
         Outliers.outlier_percentage := 0; Outliers.outlier_patterns := None;
         Outliers.a_recommendations := [] |}
  end.

(** The duplicates check with exact matching switched off and everything
    else at its default. *)
Definition exact_off : Duplicates.DuplicatesConfig :=
  Duplicates.init
    (Some {| Duplicates.base := default_CheckConfig;
             Duplicates.exact_matching := false;
             Duplicates.fuzzy_matching := true;
             Duplicates.business_key_matching := true;
             Duplicates.semantic_matching := false;
             Duplicates.fuzzy_threshold := 0.8%Q;
             Duplicates.business_key_columns := None;
             Duplicates.analyze_duplicate_patterns := true;
             Duplicates.suggest_deduplication := true;
             Duplicates.include_similarity_scores := true;
             Duplicates.max_fuzzy_comparisons := 10000%Z;
             Duplicates.use_sampling := true;
             Duplicates.sample_size := 10000%Z |}).

End CheckNotions.

Module EngineNotions.
Import Engine EngineObject.

(** The check types the orchestrator recognises. *)
Definition known (check_type : string) : bool :=
  existsb (String.eqb check_type) basic_checks.

(** The types a call of [run_quality_checks] goes through:
    [check_types or basic_checks]. *)
Definition requested (check_types : option (list string)) : list string :=
  match check_types with
  | None | Some [] => basic_checks
  | Some l => l
  end.

(** The states an engine can be in: built by the constructor, and then
    taken through its state-changing methods. *)
Inductive reachable `{Runtime} : Engine -> Prop :=
| reach_init (path : option string) (monitoring : bool) (workers : Z) :
    reachable (init path monitoring workers)
| reach_connect (self : Engine) (source_type : string)
    (connection_params : list (string * string)) (source_name : option string) :
    reachable self ->
    reachable (snd (connect_data_source self source_type connection_params
                      source_name))
| reach_checks (self self' : Engine) (data : DataFrame)
    (check_types : option (list string))
    (custom_rules : option (list (string * string)))
    (out : list CheckResult) (log log' : list event) :
    reachable self ->
    run_quality_checks self data check_types custom_rules log
    = (Return (out, self'), log') ->
    reachable self'
| reach_cleanup (self self' : Engine) (log log' : list event) :
    reachable self ->
    cleanup self log = (Return self', log') ->
    reachable self'.

(** The keys of the summary of an engine that has results. *)
Definition summary_keys : list string :=
  ["total_checks"; "passed"; "failed"; "warnings"; "overall_score";
   "execution_time"].

(** An engine as the command line builds it, and the same engine after
    the four basic checks on a column of four empty strings. *)
Definition fresh : Engine := init None true 4.

Definition blanks : DataFrame :=
  mkFrame 4 [("note", [Str ""; Str ""; Str ""; Str ""])].

Definition checked : Engine :=
  match fst (@run_quality_checks sample_runtime fresh blanks None None []) with
  | Return out => snd out
  | Raise _ => fresh
  end.

End EngineNotions.

Module PatternNotions.

(** Every row pattern over [c] columns. *)
Fixpoint all_patterns (c : nat) : list (list bool) :=
  match c with
  | O => [[]]
  | S c' =>
      map (cons true) (all_patterns c') ++ map (cons false) (all_patterns c')
  end.

(** The systematic patterns the check finds in a dataset. *)
Definition systematic_patterns (data : DataFrame)
  : list MissingValues.SystematicEntry :=
  MissingValues.systematic_entries data
    (value_counts MissingValues.pattern_eqb (MissingValues.row_patterns data)).

(** How many times a configuration counts one cell. *)
Definition cell_weight `{Runtime} (cfg : MissingValues.MissingValuesConfig)
  (c : cell) : nat :=
  MissingValues._count_missing_values cfg [c].

(** Three rows, one of them with a gap. *)
Definition with_gap : DataFrame :=
  mkFrame 3 [("id", [Int 1; Int 2; Int 3]);
             ("city", [Str "Oslo"; NaN; Str "Rome"])].

End PatternNotions.

Module FuzzyNotions.

(** The rows the fuzzy method compares: a sample of a large dataset, the
    dataset itself otherwise. *)
Definition fuzzy_sample `{Runtime} (cfg : Duplicates.DuplicatesConfig)
  (data : DataFrame) : DataFrame :=
  if (Duplicates.max_fuzzy_comparisons cfg <? Z.of_nat (nrows data))%Z
     && Duplicates.use_sampling cfg
  then df_sample (Nat.min (Z.to_nat (Duplicates.sample_size cfg)) (nrows data))
         data
  else data.

(** Rows [i] and [j] are similar enough to be reported. *)
Definition similar `{Runtime} (cfg : Duplicates.DuplicatesConfig)
  (sample : DataFrame) (i j : nat) : bool :=
  ge_threshold
    (Duplicates._calculate_row_similarity (iloc sample i) (iloc sample j))
    (Duplicates.fuzzy_threshold cfg).

(** The body of the inner loop of the comparison. *)
Definition compare_rows `{Runtime} (cfg : Duplicates.DuplicatesConfig)
  (sample : DataFrame) (i : nat)
  (acc : list (nat * nat) * list (string * option Q)) (j : nat)
  : list (nat * nat) * list (string * option Q) :=
  let similarity :=
    Duplicates._calculate_row_similarity (iloc sample i) (iloc sample j) in
  if ge_threshold similarity (Duplicates.fuzzy_threshold cfg)
  then (fst acc ++ [(i, j)],
        dict_set (str_nat i ++ "_" ++ str_nat j)%string similarity (snd acc))
  else acc.

(** The name of the [i]-th group. *)
Definition group_key (i : nat) : Duplicates.GroupKey :=
  Duplicates.KStr ("group_" ++ str_nat i).

(** A block [(_, bestj, bestsize)] lies in the columns [blo .. bhi) of
    [b]. *)
Definition within_b (blo bhi : nat) (best : nat * nat * nat) : Prop :=
  (blo <= snd (fst best) /\ snd (fst best) + snd best <= bhi)%nat.

(** No run recorded in [j2len] starts before [blo]. *)
Definition runs_inside (blo : nat) (j2len : list (nat * nat)) : Prop :=
  forall j, (Difflib.j2len_get j2len j <= j + 1 - blo)%nat.

(** The characters matched by a list of blocks. *)
Definition matched (blocks : list (nat * nat * nat)) : nat :=
  list_sum (map (fun t => snd t) blocks).

(** Two rows of a frame print the same, column by column. *)
Definition printed_alike `{Runtime} (sample : DataFrame) (i j : nat) : Prop :=
  map py_str (iloc sample i) = map py_str (iloc sample j).

(** Two rows that differ in a digit only. *)
Definition near_rows : DataFrame :=
  mkFrame 2 [("id", [Str "a1"; Str "a2"]); ("name", [Str "x"; Str "x"])].

(** Two rows that print the same although their cells differ. *)
Definition alike_rows : DataFrame :=
  mkFrame 2 [("id", [Int 7; Str "7"]); ("name", [PyNone; Str "None"])].

(** The sample runtime on a frame whose index does not hold the label 0
    (a frame filtered down to the labels 1, 2, ...): a lookup that asks
    for 0 fails as in pandas. *)
Definition without_label_zero : Runtime :=
  {| float_str := @float_str sample_runtime;
     format_percent := @format_percent sample_runtime;
     series_corr := @series_corr sample_runtime;
     series_std := @series_std sample_runtime;
     stats_zscore := @stats_zscore sample_runtime;
     df_sample := @df_sample sample_runtime;
     df_duplicated := @df_duplicated sample_runtime;
     df_loc := fun data rows =>
                 if existsb (Nat.eqb 0) rows
                 then Raise (KeyError "[0] not in index")
                 else loc_rows data rows;
     md5_hexdigest := @md5_hexdigest sample_runtime;
     ml_fit_predict := @ml_fit_predict sample_runtime;
     time_start := @time_start sample_runtime;
     time_end := @time_end sample_runtime;
     strftime_now := @strftime_now sample_runtime;
     isoformat_now := @isoformat_now sample_runtime |}.

End FuzzyNotions.

Module DetectionNotions.

(** What a detection method reports is about the data: the rows are rows
    of the frame, listed once and counted; every entry of
    [column_outliers] belongs to an analysed column, is not empty, counts
    its rows, and its rows are among the reported ones. *)
Definition well_reported (data : DataFrame) (numeric_columns : list string)
  (rows : list nat) (entries : list (string * Outliers.ColumnOutliers))
  : Prop :=
  NoDup rows
  /\ Forall (fun i => (i < nrows data)%nat) rows
  /\ Forall (fun kv =>
               In (fst kv) numeric_columns
               /\ Outliers.co_indices (snd kv) <> []
               /\ Outliers.co_count (snd kv)
                  = List.length (Outliers.co_indices (snd kv))
               /\ incl (Outliers.co_indices (snd kv)) rows)
       entries.

(** The same of the state of a detection loop. *)
Definition kept (data : DataFrame) (numeric_columns : list string)
  (acc : Outliers.Acc) : Prop :=
  well_reported data numeric_columns (fst acc) (snd acc).

Definition well_reported_result (data : DataFrame)
  (numeric_columns : list string) (r : Outliers.MethodResult) : Prop :=
  well_reported data numeric_columns (Outliers.outlier_rows r)
    (Outliers.column_outliers r)
  /\ Outliers.total_outliers r = List.length (Outliers.outlier_rows r)
  /\ Outliers.error r = None.

(** None of the scikit-learn methods is switched on. *)
Definition statistical_only (cfg : Outliers.OutliersConfig) : bool :=
  negb (Outliers.isolation_forest cfg)
  && negb (Outliers.local_outlier_factor cfg)
  && negb (Outliers.dbscan_method cfg).

End DetectionNotions.

(* ================================================================== *)
(** * Properties of the check lifecycle ([QualityCheck.run]) *)

Module BaseProps.
Import Cases.

Section Lifecycle.
Context `{Runtime} {C : Type}.
Variable K : QualityCheck C.
Variable cfg : C.
Variable data : DataFrame.
Variable log : list event.

Lemma run_disabled :
  enabled (config K cfg) = false ->
  run K cfg data log = (Return (skipped_result K cfg), log).
Proof.
  intros Hoff. unfold run. rewrite Hoff. reflexivity.
Qed.

Lemma run_invalid :
  enabled (config K cfg) = true ->
  validate_config K cfg = Return false ->
  run K cfg data log =
    (Return (error_result K cfg "Invalid configuration" 0.0%Q),
     log ++ [Called (class_name K) "validate_config"]).
Proof.
  intros Hon Hbad. unfold run, bindM, call, ret.
  rewrite Hon. cbn. rewrite Hbad. reflexivity.
Qed.

Lemma run_valid :
  enabled (config K cfg) = true ->
  validate_config K cfg = Return true ->
  run K cfg data log =
    (Return (match execute K cfg data with
             | Return result => stamp result
             | Raise e =>
                 error_result K cfg (str_exn e) (time_end - time_start)%Q
             end),
     log ++ [Called (class_name K) "validate_config";
             Called (class_name K) "execute"]).
Proof.
  intros Hon Hok. unfold run, bindM, try_exceptM, call, ret.
  rewrite Hon. cbn. rewrite Hok. cbn.
  rewrite <- app_assoc. cbn.
  destruct (execute K cfg data); reflexivity.
Qed.

Lemma run_unvalidated (e : exn) :
  enabled (config K cfg) = true ->
  validate_config K cfg = Raise e ->
  run K cfg data log =
    (Raise e, log ++ [Called (class_name K) "validate_config"]).
Proof.
  intros Hon Hraise. unfold run, bindM, call.
  rewrite Hon. cbn. rewrite Hraise. reflexivity.
Qed.

(** C1, amended.  [run] raises exactly when the check is enabled and
    [validate_config] itself raises: the exception is the one
    [validate_config] raised, and [execute] has not been called.  In every
    other case [run] returns a result; and when [execute] raises an
    exception [e], the returned result has status "error", score 0.0 and
    exactly the entry "error" -> str(e) in its details. *)
Theorem run_raises_only_from_validate_config :
  (forall e log',
     run K cfg data log = (Raise e, log')
     <-> enabled (config K cfg) = true
         /\ validate_config K cfg = Raise e
         /\ log' = log ++ [Called (class_name K) "validate_config"])
  /\ (enabled (config K cfg) = false
      \/ (exists valid, validate_config K cfg = Return valid) ->
      exists r log', run K cfg data log = (Return r, log'))
  /\ (forall e,
        enabled (config K cfg) = true ->
        validate_config K cfg = Return true ->
        execute K cfg data = Raise e ->
        exists r log',
          run K cfg data log = (Return r, log')
          /\ status r = "error"
          /\ score r == 0.0
          /\ details r = [("error", DStr (str_exn e))]).
Proof.
  assert (Hreturns :
            enabled (config K cfg) = false
            \/ (exists valid, validate_config K cfg = Return valid) ->
            exists r log', run K cfg data log = (Return r, log')).
  { destruct (enabled (config K cfg)) eqn:Hon.
    - intros [Hoff | [valid Hvalid]]; [discriminate|].
      destruct valid.
      + rewrite (run_valid Hon Hvalid). eauto.
      + rewrite (run_invalid Hon Hvalid). eauto.
    - intros _. rewrite (run_disabled Hon). eauto. }
  split; [|split; [exact Hreturns|]].
  - intros e log'. split.
    + intros Hrun.
      destruct (enabled (config K cfg)) eqn:Hon.
      * destruct (validate_config K cfg) as [valid|e'] eqn:Hvalid.
        -- destruct (Hreturns (or_intror (ex_intro _ valid eq_refl)))
             as [r [log1 Hr]].
           rewrite Hr in Hrun. discriminate Hrun.
        -- rewrite (run_unvalidated e' Hon Hvalid) in Hrun.
           injection Hrun as -> <-. repeat split.
      * rewrite (run_disabled Hon) in Hrun. discriminate Hrun.
    + intros [Hon [Hraise ->]]. apply run_unvalidated; assumption.
  - intros e Hon Hok Hraise.
    rewrite (run_valid Hon Hok), Hraise.
    eexists; eexists; split; [reflexivity|].
    cbn. repeat split; reflexivity.
Qed.

(** C2.  [run] decides before it calls [execute]: a disabled check
    returns "skipped" with score 1.0 and calls nothing at all; an
    enabled check whose [validate_config()] is false returns "error"
    with score 0.0 after the single call of [validate_config]; in both
    cases the number of [execute] calls seen by a spy is unchanged. *)
Theorem run_gates_before_execute :
  (enabled (config K cfg) = false ->
   exists r,
     run K cfg data log = (Return r, log)
     /\ status r = "skipped" /\ score r == 1.0)
  /\ (enabled (config K cfg) = true ->
      validate_config K cfg = Return false ->
      exists r,
        run K cfg data log =
          (Return r, log ++ [Called (class_name K) "validate_config"])
        /\ status r = "error" /\ score r == 0.0
        /\ forall cls,
             count_calls cls "execute"
               (log ++ [Called (class_name K) "validate_config"])
             = count_calls cls "execute" log).
Proof.
  split.
  - intros Hoff. rewrite (run_disabled Hoff).
    eexists; split; [reflexivity|]. cbn. split; reflexivity.
  - intros Hon Hbad. rewrite (run_invalid Hon Hbad).
    eexists; split; [reflexivity|]. cbn.
    repeat split; try reflexivity.
    intros cls. unfold count_calls.
    rewrite filter_app, length_app. cbn.
    rewrite andb_false_r. cbn. lia.
Qed.

End Lifecycle.

(** C1 as stated fails: a check whose [validate_config] raises makes
    [run] raise that exception to the caller, on any dataset; the only
    call made is the one of [validate_config]. *)
Lemma raising_validate_config_escapes_run :
  @run sample_runtime _ unvalidatable_check default_CheckConfig one_cell []
  = (Raise (ValueError "no schema loaded"),
     [Called "UnvalidatableCheck" "validate_config"]).
Proof. reflexivity. Qed.

Lemma run_raises_only_from_validate_config_witness :
  exists r log',
    @run sample_runtime _ failing_check default_CheckConfig one_cell []
    = (Return r, log')
    /\ status r = "error"
    /\ score r == 0.0
    /\ details r = [("error", DStr "boom")].
Proof.
  apply (proj2 (proj2 (@run_raises_only_from_validate_config sample_runtime _
                         failing_check default_CheckConfig one_cell []))
           (RuntimeError "boom")); reflexivity.
Defined.

Lemma run_gates_before_execute_witness :
  (exists r,
     @run sample_runtime _ picky_check disabled_config one_cell []
     = (Return r, [])
     /\ status r = "skipped" /\ score r == 1.0)
  /\ (exists r,
        @run sample_runtime _ picky_check invalid_config one_cell []
        = (Return r, [Called "PickyCheck" "validate_config"])
        /\ status r = "error" /\ score r == 0.0
        /\ forall cls,
             count_calls cls "execute" [Called "PickyCheck" "validate_config"]
             = count_calls cls "execute" []).
Proof.
  split.
  - apply (proj1 (@run_gates_before_execute sample_runtime _ picky_check
                    disabled_config one_cell [])); reflexivity.
  - apply (proj2 (@run_gates_before_execute sample_runtime _ picky_check
                    invalid_config one_cell [])); reflexivity.
Defined.

End BaseProps.

(* ================================================================== *)
(** * Arithmetic of scores *)

Module ScoreFacts.

Lemma Qlt_bool_true (x y : Q) : Qlt_bool x y = true <-> x < y.
Proof.
  unfold Qlt_bool. rewrite negb_true_iff.
  split; intros Hxy.
  - apply Qnot_le_lt. intros Hle.
    apply Qle_bool_iff in Hle. congruence.
  - destruct (Qle_bool y x) eqn:E; [|reflexivity].
    apply Qle_bool_iff in E. exfalso. exact (Qlt_not_le _ _ Hxy E).
Qed.

Lemma Qlt_bool_false (x y : Q) : Qlt_bool x y = false <-> y <= x.
Proof.
  unfold Qlt_bool. rewrite negb_false_iff. apply Qle_bool_iff.
Qed.

Lemma py_min_le_l (a b : Q) : py_min a b <= a.
Proof.
  unfold py_min. destruct (Qlt_bool b a) eqn:E.
  - apply Qlt_le_weak, Qlt_bool_true, E.
  - apply Qle_refl.
Qed.

Lemma py_max_ge_l (a b : Q) : a <= py_max a b.
Proof.
  unfold py_max. destruct (Qlt_bool a b) eqn:E.
  - apply Qlt_le_weak, Qlt_bool_true, E.
  - apply Qle_refl.
Qed.

(** The clamp [max(0.0, min(1.0, x))] lands in [0, 1]. *)
Lemma clamp_bounds (x : Q) :
  0 <= py_max 0.0 (py_min 1.0 x) /\ py_max 0.0 (py_min 1.0 x) <= 1.
Proof.
  split.
  - apply Qle_trans with 0.0; [discriminate | apply py_max_ge_l].
  - unfold py_max. destruct (Qlt_bool 0.0 (py_min 1.0 x)).
    + apply Qle_trans with 1.0; [apply py_min_le_l | discriminate].
    + discriminate.
Qed.

(** Inside [0, 1] the clamp changes nothing. *)
Lemma clamp_inside (x : Q) :
  0 <= x -> x <= 1 -> py_max 0.0 (py_min 1.0 x) == x.
Proof.
  intros H0 H1. unfold py_max, py_min.
  assert (Hz : 0.0 == 0) by reflexivity.
  assert (Ho : 1.0 == 1) by reflexivity.
  destruct (Qlt_bool x 1.0) eqn:E1.
  - destruct (Qlt_bool 0.0 x) eqn:E0; [reflexivity|].
    apply Qlt_bool_false in E0. rewrite Hz in *.
    apply Qle_antisym; assumption.
  - apply Qlt_bool_false in E1. rewrite Ho in E1.
    assert (Hx : x == 1) by (apply Qle_antisym; assumption).
    destruct (Qlt_bool 0.0 1.0) eqn:E0.
    + rewrite Hx. exact Ho.
    + discriminate.
Qed.

Lemma Qle_bool_compat (a : Q) {x y : Q} : x == y -> Qle_bool a x = Qle_bool a y.
Proof.
  intros Hxy.
  destruct (Qle_bool a x) eqn:Ex, (Qle_bool a y) eqn:Ey; try reflexivity.
  - apply Qle_bool_iff in Ex. rewrite Hxy in Ex.
    apply Qle_bool_iff in Ex. congruence.
  - apply Qle_bool_iff in Ey. rewrite <- Hxy in Ey.
    apply Qle_bool_iff in Ey. congruence.
Qed.

Lemma status_of_score_compat {x y : Q} :
  x == y -> status_of_score x = status_of_score y.
Proof.
  intros Hxy. unfold status_of_score.
  rewrite !(Qle_bool_compat _ Hxy). reflexivity.
Qed.

Lemma Qnat_nonzero {n : nat} : n <> 0%nat -> Qeq_bool (Qnat n) 0 = false.
Proof.
  intros Hn. destruct (Qeq_bool (Qnat n) 0) eqn:E; [|reflexivity].
  apply Qeq_bool_iff in E. unfold Qnat, Qeq in E. cbn in E. lia.
Qed.

Lemma py_div_Qnat (x : Q) {n : nat} :
  n <> 0%nat -> py_div x (Qnat n) = Return (x / Qnat n).
Proof.
  intros Hn. unfold py_div. rewrite (Qnat_nonzero Hn). reflexivity.
Qed.

Lemma py_div_zero (x : Q) : py_div x (Qnat 0) = Raise ZeroDivisionError.
Proof. reflexivity. Qed.

Lemma zero_div (n : nat) : Qnat 0 / Qnat n == 0.
Proof. unfold Qdiv. apply Qmult_0_l. Qed.

End ScoreFacts.

(* ================================================================== *)
(** * Properties of the missing-values check *)

Module MissingValuesProps.
Import MissingValues ScoreFacts Cases Notions.

Section Facts.
Context `{Runtime}.
Variable cfg : MissingValuesConfig.

Lemma systematic_key (data : DataFrame) :
  dict_find "systematic_missing" (_analyze_missing_patterns data)
  = Some (PEntries
            (systematic_entries data
               (value_counts pattern_eqb (row_patterns data)))).
Proof. reflexivity. Qed.

Lemma analyze_columns_returns (data : DataFrame) :
  nrows data <> 0%nat ->
  forall cols counts pcts n,
  exists pcts',
    analyze_columns cfg data cols counts pcts n
    = Return (counts_after cfg cols counts, pcts', missing_after cfg cols n).
Proof.
  intros Hrows cols. induction cols as [|[column series] cols IH];
    intros counts pcts n.
  - eexists. reflexivity.
  - cbn [analyze_columns]. rewrite (py_div_Qnat _ Hrows).
    cbn [bind]. apply IH.
Qed.

Lemma analyze_columns_no_rows (data : DataFrame) :
  nrows data = 0%nat ->
  forall column series cols counts pcts n,
    analyze_columns cfg data ((column, series) :: cols) counts pcts n
    = Raise ZeroDivisionError.
Proof.
  intros Hrows column series cols counts pcts n.
  cbn [analyze_columns]. rewrite Hrows. reflexivity.
Qed.

Lemma recommendations_without_patterns (a : Analysis) :
  missing_patterns a = [] ->
  _generate_imputation_recommendations cfg a
  = Raise (KeyError "systematic_missing").
Proof.
  intros Hp. unfold _generate_imputation_recommendations.
  rewrite Hp. reflexivity.
Qed.

Lemma score_without_patterns (a : Analysis) :
  missing_patterns a = [] ->
  _calculate_quality_score a
  = match py_div (Qnat (columns_with_missing a)) (Qnat (total_columns a)) with
    | Return _ => Raise (KeyError "systematic_missing")
    | Raise e => Raise e
    end.
Proof.
  intros Hp. unfold _calculate_quality_score. rewrite Hp.
  destruct (py_div _ _); reflexivity.
Qed.

(** With pattern analysis off, the body of [execute] always raises. *)
Lemma body_raises_without_patterns (data : DataFrame) :
  analyze_patterns cfg = false ->
  exists e, execute_body cfg data = Raise e
            /\ (validate_config cfg = true -> df_empty data = false ->
                e = KeyError "systematic_missing").
Proof.
  intros Hoff. unfold execute_body.
  destruct (validate_config cfg) eqn:Hvalid; cbn [negb bind].
  2:{ eexists; split; [reflexivity | discriminate]. }
  unfold _analyze_missing_values. rewrite Hoff.
  destruct (Nat.eq_dec (nrows data) 0) as [Hrows | Hrows].
  - (* no rows *)
    destruct (columns data) as [|[column series] cols] eqn:Hcols.
    + cbn. rewrite Hrows. cbn.
      eexists; split; [reflexivity|].
      intros _ Hempty. unfold df_empty in Hempty.
      rewrite Hrows in Hempty. discriminate.
    + rewrite (analyze_columns_no_rows data Hrows). cbn.
      eexists; split; [reflexivity|].
      intros _ Hempty. unfold df_empty in Hempty.
      rewrite Hrows in Hempty. discriminate.
  - destruct (analyze_columns_returns data Hrows (columns data) [] [] 0%nat)
      as [pcts' Hloop].
    rewrite Hloop. cbn [bind].
    destruct (Nat.eq_dec (List.length (columns data)) 0) as [Hcols | Hcols].
    + rewrite Hcols, Nat.mul_0_r. cbn.
      eexists; split; [reflexivity|].
      intros _ Hempty. unfold df_empty in Hempty.
      rewrite Hcols, orb_true_r in Hempty. discriminate.
    + assert (Hcells : (nrows data * List.length (columns data))%nat <> 0%nat)
        by (intros Hz; apply Nat.eq_mul_0 in Hz; tauto).
      rewrite (py_div_Qnat _ Hcells). cbn [bind].
      destruct (suggest_imputation cfg).
      * rewrite recommendations_without_patterns by reflexivity.
        cbn. eexists; split; [reflexivity | reflexivity].
      * cbn [bind]. rewrite score_without_patterns by reflexivity.
        cbn [total_columns columns_with_missing].
        rewrite (py_div_Qnat _ Hcols). cbn.
        eexists; split; [reflexivity | reflexivity].
Qed.

Lemma recommendations_return (a : Analysis) (v : PatVal) :
  dict_find "systematic_missing" (missing_patterns a) = Some v ->
  exists recs, _generate_imputation_recommendations cfg a = Return recs.
Proof.
  intros Hv. unfold _generate_imputation_recommendations, dict_get.
  rewrite Hv. cbn [bind]. eexists. reflexivity.
Qed.

(** On a non-empty frame, with pattern analysis on, the analysis
    returns, and these are its entries. *)
Lemma analysis_returns (data : DataFrame) :
  df_empty data = false ->
  analyze_patterns cfg = true ->
  exists a,
    _analyze_missing_values cfg data = Return a
    /\ total_rows a = nrows data
    /\ total_columns a = List.length (columns data)
    /\ missing_counts a = counts_after cfg (columns data) []
    /\ columns_with_missing a = missing_after cfg (columns data) 0
    /\ overall_missing_percentage a
       = (Qnat (list_sum (map snd (counts_after cfg (columns data) [])))
          / Qnat (nrows data * List.length (columns data)))%Q
    /\ missing_patterns a = _analyze_missing_patterns data.
Proof.
  intros Hdata Hon. unfold df_empty in Hdata.
  apply orb_false_elim in Hdata. destruct Hdata as [Hrows Hcols].
  apply Nat.eqb_neq in Hrows. apply Nat.eqb_neq in Hcols.
  unfold _analyze_missing_values.
  destruct (analyze_columns_returns data Hrows (columns data) [] [] 0%nat)
    as [pcts' Hloop].
  rewrite Hloop. cbn [bind].
  assert (Hcells : (nrows data * List.length (columns data))%nat <> 0%nat)
    by (intros Hz; apply Nat.eq_mul_0 in Hz; tauto).
  rewrite (py_div_Qnat _ Hcells). cbn [bind]. rewrite Hon.
  destruct (suggest_imputation cfg).
  - match goal with
    | |- context [_generate_imputation_recommendations cfg ?a] =>
        destruct (recommendations_return a _ (systematic_key data))
          as [recs Hrecs]; rewrite Hrecs
    end.
    cbn [bind]. eexists. split; [reflexivity|]. cbn. repeat split.
  - eexists. split; [reflexivity|]. cbn. repeat split.
Qed.

End Facts.

Lemma count_at_defaults `{Runtime} (series : Series) :
  count_true (cell_eq_str "") series = 3%nat ->
  count_true blank series = 3%nat ->
  (forall na, In na ["N/A"; "NULL"; "null"; "None"; "none"] ->
              count_true (cell_eq_str na) series = 0%nat) ->
  _count_missing_values empty_strings_config series = 9%nat.
Proof.
  intros Hempty Hblank Hother.
  unfold _count_missing_values. cbn.
  fold blank. rewrite Hempty, Hblank.
  rewrite !Hother by (cbn; tauto). reflexivity.
Qed.

Lemma count_empty_only `{Runtime} (series : Series) :
  count_true (cell_eq_str "") series = 3%nat ->
  _count_missing_values empty_only_config series = 3%nat.
Proof.
  intros Hempty. unfold _count_missing_values. cbn.
  rewrite Hempty. reflexivity.
Qed.

(** C5 as stated fails: under the stated configuration the three empty
    cells are counted by the empty-string method, by the whitespace
    method and by the "" sentinel, so the column reports 9 and the
    dataset 0.9, not 3 and 0.3. *)
Lemma three_empty_counted_thrice :
  exists a,
    @_analyze_missing_values sample_runtime empty_strings_config three_empty
    = Return a
    /\ dict_find "value" (missing_counts a) = Some 9%nat
    /\ overall_missing_percentage a == 0.9
    /\ dict_find "value" (missing_counts a) <> Some 3%nat
    /\ ~ overall_missing_percentage a == 0.3.
Proof.
  eexists. split; [vm_compute; reflexivity|].
  cbn. repeat split; try reflexivity; discriminate.
Qed.

(** C5, amended.  On a 10-row, 1-column dataset with exactly 3 empty
    strings whose other cells are neither blank nor a sentinel token, the
    check with [detect_empty_strings=True], [detect_na_values=False] and
    the other options at their defaults reports 9 missing values for the
    column and an overall fraction of 0.9; with the whitespace method and
    the sentinel list switched off as well it reports 3 and 0.3. *)
Theorem empty_cells_counted_per_method `{Runtime}
  (column : string) (series : Series) :
  List.length series = 10%nat ->
  count_true (cell_eq_str "") series = 3%nat ->
  count_true blank series = 3%nat ->
  (forall na, In na ["N/A"; "NULL"; "null"; "None"; "none"] ->
              count_true (cell_eq_str na) series = 0%nat) ->
  (exists a,
     _analyze_missing_values empty_strings_config (mkFrame 10 [(column, series)])
     = Return a
     /\ missing_counts a = [(column, 9%nat)]
     /\ overall_missing_percentage a == 0.9)
  /\ (exists a,
        _analyze_missing_values empty_only_config (mkFrame 10 [(column, series)])
        = Return a
        /\ missing_counts a = [(column, 3%nat)]
        /\ overall_missing_percentage a == 0.3).
Proof.
  intros Hlen Hempty Hblank Hother. split.
  - destruct (analysis_returns empty_strings_config (mkFrame 10 [(column, series)])
                eq_refl eq_refl)
      as [a [Hrun [_ [_ [Hcounts [_ [Hoverall _]]]]]]].
    exists a. split; [exact Hrun|].
    unfold counts_after in Hcounts, Hoverall.
    cbn [columns fold_left fst snd dict_set nrows] in Hcounts, Hoverall.
    rewrite (count_at_defaults series Hempty Hblank Hother) in Hcounts, Hoverall.
    split; [exact Hcounts|]. rewrite Hoverall. reflexivity.
  - destruct (analysis_returns empty_only_config (mkFrame 10 [(column, series)])
                eq_refl eq_refl)
      as [a [Hrun [_ [_ [Hcounts [_ [Hoverall _]]]]]]].
    exists a. split; [exact Hrun|].
    unfold counts_after in Hcounts, Hoverall.
    cbn [columns fold_left fst snd dict_set nrows] in Hcounts, Hoverall.
    rewrite (count_empty_only series Hempty) in Hcounts, Hoverall.
    split; [exact Hcounts|]. rewrite Hoverall. reflexivity.
Qed.

(** ** A dataset with nothing missing *)

Lemma count_true_zero {A} (p : A -> bool) (l : list A) :
  count_true p l = 0%nat -> Forall (fun x => p x = false) l.
Proof.
  unfold count_true. induction l as [|x l IH]; intros Hz; [constructor|].
  cbn in Hz. destruct (p x) eqn:Ep; [discriminate|].
  constructor; [exact Ep | exact (IH Hz)].
Qed.

Lemma fold_add_ge {A} (f : A -> nat) (l : list A) (init : nat) :
  (init <= fold_left (fun acc x => acc + f x) l init)%nat.
Proof.
  revert init. induction l as [|x l IH]; intros init; cbn; [lia|].
  specialize (IH (init + f x)%nat). lia.
Qed.

Lemma default_count_zero_no_na `{Runtime} (series : Series) :
  _count_missing_values (init None) series = 0%nat ->
  Forall (fun c => pd_isna c = false) series.
Proof.
  intros Hz. apply count_true_zero.
  unfold _count_missing_values in Hz.
  cbn [init default_config with_base detect_na_values detect_empty_strings
       detect_whitespace detect_custom_na] in Hz.
  match type of Hz with
  | fold_left ?g ?l ?i = _ =>
      pose proof (fold_add_ge
                    (fun na_value => count_true (cell_eq_str na_value) series)
                    l i) as Hge
  end.
  cbv beta in Hge. rewrite Hz in Hge. lia.
Qed.

Lemma map_constant {A B} (f : A -> B) (b : B) (l : list A) :
  (forall x, In x l -> f x = b) -> map f l = repeat b (List.length l).
Proof.
  induction l as [|x l IH]; intros Hf; [reflexivity|].
  cbn. rewrite (Hf x) by (left; reflexivity).
  rewrite IH by (intros y Hy; apply Hf; right; exact Hy). reflexivity.
Qed.

(** With every column spanning the index and no missing cell, every row
    has the all-present pattern. *)
Lemma row_patterns_all_present (data : DataFrame) :
  Forall (fun c => List.length (snd c) = nrows data) (columns data) ->
  Forall (fun c => Forall (fun x => pd_isna x = false) (snd c)) (columns data) ->
  row_patterns data
  = repeat (repeat false (List.length (columns data))) (nrows data).
Proof.
  intros Hspan Hfull. unfold row_patterns.
  rewrite (map_constant _ (repeat false (List.length (columns data)))).
  - rewrite length_seq. reflexivity.
  - intros i Hi. apply in_seq in Hi.
    unfold iloc. rewrite map_map.
    apply map_constant. intros c Hc.
    rewrite Forall_forall in Hspan, Hfull.
    specialize (Hspan c Hc). specialize (Hfull c Hc).
    rewrite Forall_forall in Hfull. apply Hfull.
    apply nth_In. lia.
Qed.

Lemma pattern_eqb_refl (p : list bool) : pattern_eqb p p = true.
Proof.
  unfold pattern_eqb. destruct (list_eq_dec bool_dec p p); congruence.
Qed.

Lemma tally_repeat (p : list bool) (k m : nat) :
  fold_left (fun acc x => tally pattern_eqb x acc) (repeat p k) [(p, m)]
  = [(p, (m + k)%nat)].
Proof.
  revert m. induction k as [|k IH]; intros m; cbn.
  - rewrite Nat.add_0_r. reflexivity.
  - rewrite pattern_eqb_refl, IH. f_equal. f_equal. lia.
Qed.

Lemma value_counts_repeat (p : list bool) (n : nat) :
  value_counts pattern_eqb (repeat p (S n)) = [(p, S n)].
Proof.
  unfold value_counts. cbn [repeat fold_left tally].
  rewrite tally_repeat. reflexivity.
Qed.

Lemma all_rows_exceed_a_tenth (n : nat) :
  Qlt_bool (Qnat (S n) * 0.1) (Qnat (S n)) = true.
Proof.
  apply Qlt_bool_true. unfold Qlt, Qnat. cbn [Qnum Qden Qmult inject_Z].
  lia.
Qed.

Lemma dict_set_all_zero (key : string) (d : list (string * nat)) :
  Forall (fun kv => snd kv = 0%nat) d ->
  Forall (fun kv => snd kv = 0%nat) (dict_set key 0%nat d).
Proof.
  induction d as [|[k v] d IH]; intros Hz; cbn.
  - constructor; [reflexivity | constructor].
  - inversion Hz; subst. destruct (String.eqb k key); constructor; auto.
Qed.

Section Complete.
Context `{Runtime}.
Variable cfg : MissingValuesConfig.
Variable cols : list (string * Series).
Hypothesis Hzero :
  forall c, In c cols -> _count_missing_values cfg (snd c) = 0%nat.

Lemma counts_after_all_zero :
  forall counts,
    Forall (fun kv => snd kv = 0%nat) counts ->
    Forall (fun kv => snd kv = 0%nat) (counts_after cfg cols counts).
Proof.
  unfold counts_after. induction cols as [|c cs IH]; intros counts Hc.
  - exact Hc.
  - cbn [fold_left]. apply IH.
    + intros c' Hin. apply Hzero. right. exact Hin.
    + rewrite (Hzero c) by (left; reflexivity).
      apply dict_set_all_zero, Hc.
Qed.

Lemma missing_after_all_zero : forall n, missing_after cfg cols n = n.
Proof.
  unfold missing_after. induction cols as [|c cs IH]; intros n.
  - reflexivity.
  - cbn [fold_left]. rewrite (Hzero c) by (left; reflexivity).
    cbn. apply IH. intros c' Hin. apply Hzero. right. exact Hin.
Qed.
End Complete.

Lemma all_zero_sum (d : list (string * nat)) :
  Forall (fun kv => snd kv = 0%nat) d ->
  list_sum (map snd d) = 0%nat /\ filter (fun kv => (0 <? snd kv)%nat) d = [].
Proof.
  induction 1 as [|[k v] d Hv _ [IHs IHf]]; [split; reflexivity|].
  cbn in *. subst v. cbn. split; assumption.
Qed.

Lemma complete_data_is_systematic `{Runtime} (data : DataFrame) :
  df_empty data = false ->
  frame_ok data ->
  (forall c, In c (columns data) ->
             _count_missing_values (init None) (snd c) = 0%nat) ->
  exists e,
    systematic_entries data (value_counts pattern_eqb (row_patterns data))
    = [e].
Proof.
  intros Hdata [Hspan _] Hzero.
  rewrite row_patterns_all_present.
  - unfold df_empty in Hdata. apply orb_false_elim in Hdata.
    destruct Hdata as [Hrows _]. apply Nat.eqb_neq in Hrows.
    destruct (nrows data) as [|n] eqn:En; [congruence|].
    rewrite value_counts_repeat. unfold systematic_entries.
    cbn [fold_left fst snd]. rewrite En, all_rows_exceed_a_tenth.
    eexists. reflexivity.
  - exact Hspan.
  - apply Forall_forall. intros c Hc.
    apply default_count_zero_no_na, Hzero, Hc.
Qed.

Lemma complete_data_execute `{Runtime} (data : DataFrame) :
  df_empty data = false ->
  frame_ok data ->
  (forall c, In c (columns data) ->
             _count_missing_values (init None) (snd c) = 0%nat) ->
  score (execute (init None) data) == 0.9
  /\ status (execute (init None) data) = "passed".
Proof.
  intros Hdata Hok Hzero.
  destruct (analysis_returns (init None) data Hdata eq_refl)
    as [a [Hrun [_ [Hcols [Hcounts [Hwith [Hoverall Hpatterns]]]]]]].
  destruct (complete_data_is_systematic data Hdata Hok Hzero) as [e He].
  pose proof (counts_after_all_zero (init None) (columns data) Hzero []
                (Forall_nil _)) as Hallzero.
  apply all_zero_sum in Hallzero. destruct Hallzero as [Hsum Hfilter].
  rewrite Hsum in Hoverall.
  rewrite (missing_after_all_zero (init None) (columns data) Hzero) in Hwith.
  assert (Hncols : List.length (columns data) <> 0%nat).
  { unfold df_empty in Hdata. apply orb_false_elim in Hdata.
    destruct Hdata as [_ Hc]. apply Nat.eqb_neq in Hc. exact Hc. }
  assert (Hscore :
            _calculate_quality_score a
            = Return (py_max 0.0
                        (py_min 1.0
                           (1.0 - overall_missing_percentage a * 0.5
                            - Qnat 0 / Qnat (List.length (columns data)) * 0.2
                            - 0.1)))).
  { unfold _calculate_quality_score, dict_get.
    rewrite Hwith, Hcols, Hpatterns, systematic_key, He.
    rewrite (py_div_Qnat _ Hncols). reflexivity. }
  assert (Hdetails : exists d, _generate_details (init None) a = Return d).
  { unfold _generate_details. rewrite Hcounts, Hfilter. cbn [mapM bind].
    eexists. reflexivity. }
  destruct Hdetails as [d Hd].
  unfold execute, execute_body.
  replace (validate_config (init None)) with true by reflexivity.
  cbn [negb bind]. rewrite Hrun. cbn [bind]. rewrite Hscore. cbn [bind].
  rewrite Hd. cbn [bind try_except score status _determine_status].
  assert (Hvalue :
            py_max 0.0
              (py_min 1.0
                 (1.0 - overall_missing_percentage a * 0.5
                  - Qnat 0 / Qnat (List.length (columns data)) * 0.2 - 0.1))
            == 0.9).
  { assert (Hbase :
              1.0 - overall_missing_percentage a * 0.5
              - Qnat 0 / Qnat (List.length (columns data)) * 0.2 - 0.1
              == 0.9).
    { rewrite Hoverall, !zero_div. reflexivity. }
    rewrite clamp_inside; rewrite Hbase; [reflexivity | discriminate ..]. }
  split; [exact Hvalue|].
  transitivity (status_of_score 0.9);
    [exact (status_of_score_compat Hvalue) | reflexivity].
Qed.

(** C9.  On a non-empty dataset in which no cell is missing under any
    detection method, the check with its default configuration returns
    score 0.9 and status "passed", from [execute] and from [run] alike: the
    all-present row pattern covers every row, so it is recorded as
    systematic and costs 0.1. *)
Theorem complete_data_scores_nine_tenths `{Runtime} (data : DataFrame)
  (log : list event) :
  df_empty data = false ->
  frame_ok data ->
  (forall c, In c (columns data) ->
             _count_missing_values (init None) (snd c) = 0%nat) ->
  score (execute (init None) data) == 0.9
  /\ status (execute (init None) data) = "passed"
  /\ exists r log',
       run MissingValuesCheck (init None) data log = (Return r, log')
       /\ score r == 0.9 /\ status r = "passed".
Proof.
  intros Hdata Hok Hzero.
  destruct (complete_data_execute data Hdata Hok Hzero) as [Hscore Hstatus].
  split; [exact Hscore|]. split; [exact Hstatus|].
  rewrite (BaseProps.run_valid MissingValuesCheck (init None) data log
             eq_refl eq_refl).
  eexists; eexists. split; [reflexivity|].
  split; [exact Hscore | exact Hstatus].
Qed.

Lemma patterns_off_execute `{Runtime} (cfg : MissingValuesConfig)
  (data : DataFrame) :
  analyze_patterns cfg = false ->
  status (execute cfg data) = "error"
  /\ score (execute cfg data) == 0.0
  /\ (validate_config cfg = true -> df_empty data = false ->
      details (execute cfg data) = [("error", DStr "'systematic_missing'")]).
Proof.
  intros Hoff.
  destruct (body_raises_without_patterns cfg data Hoff) as [e [Hbody Hkey]].
  unfold execute. rewrite Hbody. cbn.
  repeat split; try reflexivity.
  intros Hvalid Hdata. rewrite (Hkey Hvalid Hdata). reflexivity.
Qed.

(** C10.  With [analyze_patterns=False] the check returns status "error"
    and score 0.0 on every dataset, from [execute] and, when enabled, from
    [run]: [missing_patterns] stays the empty dictionary, the lookup of
    "systematic_missing" fails, and the handler of [execute] turns the
    failure into the result; on a non-empty dataset with a valid
    configuration the recorded message is that of the failed lookup. *)
Theorem patterns_off_is_error `{Runtime} (cfg : MissingValuesConfig)
  (data : DataFrame) (log : list event) :
  analyze_patterns cfg = false ->
  status (execute cfg data) = "error"
  /\ score (execute cfg data) == 0.0
  /\ (validate_config cfg = true -> df_empty data = false ->
      details (execute cfg data) = [("error", DStr "'systematic_missing'")])
  /\ (enabled (base cfg) = true ->
      exists r log',
        run MissingValuesCheck cfg data log = (Return r, log')
        /\ status r = "error" /\ score r == 0.0).
Proof.
  intros Hoff.
  destruct (patterns_off_execute cfg data Hoff) as [Hstatus [Hscore Hdetails]].
  split; [exact Hstatus|]. split; [exact Hscore|]. split; [exact Hdetails|].
  intros Hon. destruct (validate_config cfg) eqn:Hvalid.
  - rewrite (BaseProps.run_valid MissingValuesCheck cfg data log Hon
               (f_equal Return Hvalid)).
    eexists; eexists. split; [reflexivity|].
    split; [exact Hstatus | exact Hscore].
  - rewrite (BaseProps.run_invalid MissingValuesCheck cfg data log Hon
               (f_equal Return Hvalid)).
    eexists; eexists. split; [reflexivity|]. split; reflexivity.
Qed.

Lemma patterns_off_is_error_witness :
  status (@execute sample_runtime patterns_off two_by_two) = "error"
  /\ score (@execute sample_runtime patterns_off two_by_two) == 0.0
  /\ details (@execute sample_runtime patterns_off two_by_two)
     = [("error", DStr "'systematic_missing'")]
  /\ exists r log',
       @run sample_runtime _ (@MissingValuesCheck sample_runtime) patterns_off
         two_by_two []
       = (Return r, log')
       /\ status r = "error" /\ score r == 0.0.
Proof.
  destruct (@patterns_off_is_error sample_runtime patterns_off two_by_two []
              eq_refl) as [Hs [Hq [Hd Hr]]].
  split; [exact Hs|]. split; [exact Hq|].
  split; [exact (Hd eq_refl eq_refl) | exact (Hr eq_refl)].
Defined.

Lemma two_by_two_ok : frame_ok two_by_two.
Proof.
  split.
  - repeat constructor.
  - repeat constructor; cbn; intuition discriminate.
Qed.

Lemma empty_cells_counted_per_method_witness :
  (exists a,
     @_analyze_missing_values sample_runtime empty_strings_config three_empty
     = Return a
     /\ missing_counts a = [("value", 9%nat)]
     /\ overall_missing_percentage a == 0.9)
  /\ (exists a,
        @_analyze_missing_values sample_runtime empty_only_config three_empty
        = Return a
        /\ missing_counts a = [("value", 3%nat)]
        /\ overall_missing_percentage a == 0.3).
Proof.
  apply (@empty_cells_counted_per_method sample_runtime "value"
           three_empty_cells);
    try reflexivity.
  intros na Hna. cbn in Hna.
  repeat (destruct Hna as [<- | Hna]; [reflexivity|]).
  destruct Hna.
Defined.

Lemma complete_data_scores_nine_tenths_witness :
  score (@execute sample_runtime (init None) two_by_two) == 0.9
  /\ status (@execute sample_runtime (init None) two_by_two) = "passed"
  /\ exists r log',
       @run sample_runtime _ (@MissingValuesCheck sample_runtime) (init None)
         two_by_two []
       = (Return r, log')
       /\ score r == 0.9 /\ status r = "passed".
Proof.
  apply (@complete_data_scores_nine_tenths sample_runtime two_by_two []).
  - reflexivity.
  - exact two_by_two_ok.
  - intros c Hc. cbn in Hc.
    repeat (destruct Hc as [<- | Hc]; [reflexivity|]).
    destruct Hc.
Defined.

End MissingValuesProps.

(* ================================================================== *)
(** * The sequence matcher never runs out of fuel *)

Module DifflibProps.
Import Difflib Notions.

Section Bounds.
Variables a b : list ascii.

Lemma runs_below_nil (bound : nat) : runs_below bound [].
Proof. intros j. cbn. lia. Qed.

Lemma runs_below_cons (bound j k : nat) (j2len : list (nat * nat)) :
  (k <= bound)%nat -> runs_below bound j2len ->
  runs_below bound ((j, k) :: j2len).
Proof.
  intros Hk Hrest j'. cbn. destruct (j =? j')%nat; [exact Hk | apply Hrest].
Qed.

Lemma scan_row_bounds (alo i blo bhi : nat) (js : list nat)
  (j2len : list (nat * nat)) :
  (alo <= i)%nat ->
  runs_below (i - alo) j2len ->
  forall newj2len best,
    runs_below (i - alo + 1) newj2len ->
    within alo (i + 1) best ->
    runs_below (i - alo + 1)
      (fst (scan_row i blo bhi js j2len newj2len best))
    /\ within alo (i + 1)
         (snd (scan_row i blo bhi js j2len newj2len best)).
Proof.
  intros Hi Hold. induction js as [|j js IH]; intros newj2len best Hnew Hbest.
  - cbn. split; assumption.
  - cbn [scan_row].
    destruct (j <? blo)%nat; [apply IH; assumption|].
    destruct (bhi <=? j)%nat; [cbn; split; assumption|].
    destruct best as [[besti bestj] bestsize].
    set (k := (match j with O => 0 | S j1 => j2len_get j2len j1 end + 1)%nat).
    assert (Hk : (k <= i - alo + 1)%nat).
    { subst k. destruct j as [|j1]; [lia|]. specialize (Hold j1). lia. }
    apply IH.
    + apply runs_below_cons; assumption.
    + destruct (bestsize <? k)%nat; [|exact Hbest].
      unfold within. cbn. lia.
Qed.

Lemma scan_rows_bounds (alo blo bhi : nat) :
  forall m s j2len best,
    (alo <= s)%nat ->
    runs_below (s - alo) j2len ->
    within alo s best ->
    within alo (s + m) (scan_rows a b blo bhi (seq s m) j2len best).
Proof.
  induction m as [|m IH]; intros s j2len best Hs Hold Hbest.
  - cbn. rewrite Nat.add_0_r. exact Hbest.
  - cbn [seq scan_rows].
    assert (Hbest' : within alo (s + 1) best)
      by (unfold within in *; lia).
    destruct (scan_row_bounds alo s blo bhi (b2j b (char_at a s)) j2len
                Hs Hold [] best (runs_below_nil _) Hbest')
      as [Hnew Hafter].
    destruct (scan_row s blo bhi (b2j b (char_at a s)) j2len [] best)
      as [newj2len best1].
    cbn [fst snd] in Hnew, Hafter.
    replace (s + S m)%nat with (S s + m)%nat by lia.
    apply IH.
    + lia.
    + replace (S s - alo)%nat with (s - alo + 1)%nat by lia. exact Hnew.
    + replace (S s) with (s + 1)%nat by lia. exact Hafter.
Qed.

Lemma extend_left_bounds (alo blo : nat) :
  forall besti bestj bestsize,
    (alo <= besti)%nat ->
    let r := extend_left a b alo blo besti bestj bestsize in
    (alo <= fst (fst r))%nat
    /\ (fst (fst r) + snd r = besti + bestsize)%nat.
Proof.
  induction besti as [|i1 IH]; intros bestj bestsize Halo.
  - cbn. lia.
  - cbn [extend_left].
    destruct ((alo <? S i1)%nat && (blo <? bestj)%nat
              && ascii_eqb (char_at a i1) (char_at b (bestj - 1))) eqn:E.
    + apply andb_prop in E. destruct E as [E _].
      apply andb_prop in E. destruct E as [E _].
      apply Nat.ltb_lt in E.
      destruct (IH (bestj - 1)%nat (S bestsize)) as [H1 H2]; [lia|].
      split; [exact H1 | lia].
    + cbn. lia.
Qed.

Lemma extend_right_bounds (ahi bhi besti bestj : nat) :
  forall gap bestsize,
    (besti + bestsize <= ahi)%nat ->
    (besti + extend_right a b gap ahi bhi besti bestj bestsize <= ahi)%nat.
Proof.
  induction gap as [|gap IH]; intros bestsize Hin; cbn [extend_right].
  - exact Hin.
  - destruct ((besti + bestsize <? ahi)%nat && (bestj + bestsize <? bhi)%nat
              && ascii_eqb (char_at a (besti + bestsize))
                   (char_at b (bestj + bestsize))) eqn:E; [|exact Hin].
    apply andb_prop in E. destruct E as [E _].
    apply andb_prop in E. destruct E as [E _].
    apply Nat.ltb_lt in E. apply IH. lia.
Qed.

(** The block found lies inside the [a] range it was asked about. *)
Lemma find_longest_match_bounds (alo ahi blo bhi : nat) :
  (alo <= ahi)%nat ->
  within alo ahi (find_longest_match a b alo ahi blo bhi).
Proof.
  intros Hrange. unfold find_longest_match.
  pose proof (scan_rows_bounds alo blo bhi (ahi - alo) alo [] (alo, blo, 0%nat)
                (Nat.le_refl _) (runs_below_nil _)) as Hscan.
  replace (alo + (ahi - alo))%nat with ahi in Hscan by lia.
  assert (Hstart : within alo alo (alo, blo, 0%nat))
    by (unfold within; cbn; lia).
  specialize (Hscan Hstart).
  destruct (scan_rows a b blo bhi (seq alo (ahi - alo)) [] (alo, blo, 0%nat))
    as [[besti bestj] bestsize].
  unfold within in Hscan. cbn [fst snd] in Hscan.
  destruct Hscan as [Hlo Hhi].
  pose proof (extend_left_bounds alo blo besti bestj bestsize Hlo) as Hleft.
  cbv zeta in Hleft.
  destruct (extend_left a b alo blo besti bestj bestsize)
    as [[besti1 bestj1] bestsize1].
  cbn [fst snd] in Hleft. destruct Hleft as [Hlo1 Hsum].
  unfold within. cbn [fst snd]. split; [exact Hlo1|].
  apply extend_right_bounds. lia.
Qed.

(** Fuel beyond the length of the [a] range changes nothing. *)
Lemma matching_blocks_fuel :
  forall fuel1 fuel2 alo ahi blo bhi,
    (alo <= ahi)%nat ->
    (ahi - alo <= fuel1)%nat -> (ahi - alo <= fuel2)%nat ->
    matching_blocks a b fuel1 alo ahi blo bhi
    = matching_blocks a b fuel2 alo ahi blo bhi.
Proof.
  induction fuel1 as [|fuel1 IH]; intros fuel2 alo ahi blo bhi Hrange H1 H2.
  - destruct fuel2 as [|fuel2]; [reflexivity|]. cbn [matching_blocks].
    pose proof (find_longest_match_bounds alo ahi blo bhi Hrange) as Hb.
    destruct (find_longest_match a b alo ahi blo bhi) as [[i j] k].
    unfold within in Hb. cbn [fst snd] in Hb.
    replace k with 0%nat by lia. reflexivity.
  - destruct fuel2 as [|fuel2].
    + cbn [matching_blocks].
      pose proof (find_longest_match_bounds alo ahi blo bhi Hrange) as Hb.
      destruct (find_longest_match a b alo ahi blo bhi) as [[i j] k].
      unfold within in Hb. cbn [fst snd] in Hb.
      replace k with 0%nat by lia. reflexivity.
    + cbn [matching_blocks].
      pose proof (find_longest_match_bounds alo ahi blo bhi Hrange) as Hb.
      destruct (find_longest_match a b alo ahi blo bhi) as [[i j] k].
      unfold within in Hb. cbn [fst snd] in Hb.
      destruct (k =? 0)%nat eqn:Ek; [reflexivity|].
      apply Nat.eqb_neq in Ek.
      rewrite (IH fuel2 alo i blo j) by lia.
      rewrite (IH fuel2 (i + k)%nat ahi (j + k)%nat bhi) by lia.
      reflexivity.
Qed.

(** [get_matching_blocks] has all the fuel it can use. *)
Corollary get_matching_blocks_total (extra : nat) :
  matching_blocks a b (List.length a + extra) 0 (List.length a) 0 (List.length b)
  = get_matching_blocks a b.
Proof.
  unfold get_matching_blocks. apply matching_blocks_fuel; lia.
Qed.

End Bounds.
End DifflibProps.

(* ================================================================== *)
(** * The grouping search never runs out of fuel *)

Module GroupingProps.
Import Duplicates Notions.

Lemma mem_nat_In (x : nat) (l : list nat) : mem_nat x l = true <-> In x l.
Proof.
  unfold mem_nat. rewrite existsb_exists. split.
  - intros [y [Hy E]]. apply Nat.eqb_eq in E. subst. exact Hy.
  - intros Hx. exists x. split; [exact Hx | apply Nat.eqb_refl].
Qed.

Lemma mem_nat_not_In (x : nat) (l : list nat) :
  mem_nat x l = false <-> ~ In x l.
Proof.
  rewrite <- mem_nat_In. destruct (mem_nat x l); split; congruence.
Qed.

Lemma nodes_graph_add (i j x : nat) (graph : list (nat * list nat)) :
  In x (nodes (graph_add i j graph)) <-> x = i \/ In x (nodes graph).
Proof.
  unfold nodes. induction graph as [|[n s] graph IH]; cbn.
  - intuition.
  - destruct (n =? i)%nat eqn:E; cbn.
    + apply Nat.eqb_eq in E. subst. intuition.
    + rewrite IH. intuition.
Qed.

Lemma graph_get_graph_add (i j i' x : nat) (graph : list (nat * list nat)) :
  In x (graph_get (graph_add i j graph) i') ->
  (i' = i /\ x = j) \/ In x (graph_get graph i').
Proof.
  induction graph as [|[n s] graph IH]; cbn.
  - destruct (i =? i')%nat eqn:E; cbn; [|tauto].
    apply Nat.eqb_eq in E. intros [<- | []]. left. split; congruence.
  - destruct (n =? i)%nat eqn:E; cbn.
    + apply Nat.eqb_eq in E. subst n.
      destruct (i =? i')%nat eqn:E'; [|tauto].
      apply Nat.eqb_eq in E'. subst i'.
      unfold set_add_nat. destruct (mem_nat j s); [tauto|].
      rewrite in_app_iff. cbn. intuition.
    + destruct (n =? i')%nat; [tauto | exact IH].
Qed.

Lemma closed_add_edge (i j : nat) (graph : list (nat * list nat)) :
  closed graph -> closed (graph_add j i (graph_add i j graph)).
Proof.
  intros Hc i' x Hx.
  apply graph_get_graph_add in Hx.
  rewrite !nodes_graph_add.
  destruct Hx as [[_ ->] | Hx]; [tauto|].
  apply graph_get_graph_add in Hx.
  destruct Hx as [[_ ->] | Hx]; [tauto|].
  right. right. exact (Hc i' x Hx).
Qed.

Lemma build_graph_closed (duplicate_pairs : list (nat * nat)) :
  closed (build_graph duplicate_pairs).
Proof.
  unfold build_graph.
  assert (Hgen : forall graph, closed graph ->
            closed (fold_left
                      (fun graph p => graph_add (snd p) (fst p)
                                        (graph_add (fst p) (snd p) graph))
                      duplicate_pairs graph)).
  { induction duplicate_pairs as [|p ps IH]; intros graph Hc; [exact Hc|].
    cbn [fold_left]. apply IH, closed_add_edge, Hc. }
  apply Hgen. intros i x [].
Qed.

Section Search.
Variable graph : list (nat * list nat).
Hypothesis Hclosed : closed graph.

Lemma push_all (neighbors : list nat) :
  incl neighbors (nodes graph) ->
  forall visited stack,
    tidy graph visited ->
    let vs := fold_left push neighbors (visited, stack) in
    tidy graph (fst vs)
    /\ (List.length (snd vs) + List.length visited
        = List.length stack + List.length (fst vs))%nat.
Proof.
  induction neighbors as [|x xs IH]; intros Hin visited stack Htidy.
  - cbn. split; [exact Htidy | lia].
  - cbn [fold_left].
    assert (Hxs : incl xs (nodes graph))
      by (intros y Hy; apply Hin; right; exact Hy).
    destruct (mem_nat x visited) eqn:E.
    + replace (push (visited, stack) x) with (visited, stack)
        by (unfold push; cbn [fst snd]; rewrite E; reflexivity).
      apply IH; assumption.
    + replace (push (visited, stack) x) with (visited ++ [x], x :: stack)
        by (unfold push; cbn [fst snd]; rewrite E; reflexivity).
      apply mem_nat_not_In in E. destruct Htidy as [Hnd Hsub].
      destruct (IH Hxs (visited ++ [x]) (x :: stack)) as [Ht Hlen].
      * split.
        -- apply NoDup_app; [exact Hnd | repeat constructor; tauto |].
           intros y Hy [<- | []]. contradiction.
        -- intros y Hy. apply in_app_iff in Hy.
           destruct Hy as [Hy | [<- | []]]; [apply Hsub, Hy|].
           apply Hin. left. reflexivity.
      * split; [exact Ht|].
        rewrite length_app in Hlen. cbn in Hlen. cbv zeta. lia.
Qed.

Lemma tidy_length (visited : list nat) :
  tidy graph visited -> (List.length visited <= List.length graph)%nat.
Proof.
  intros [Hnd Hsub]. unfold nodes in Hsub.
  rewrite <- (length_map fst graph).
  apply NoDup_incl_length; assumption.
Qed.

Lemma dfs_step (fuel current : nat) (stack visited group : list nat) :
  dfs (S fuel) graph (current :: stack) visited group
  = dfs fuel graph
      (snd (fold_left push (graph_get graph current) (visited, stack)))
      (fst (fold_left push (graph_get graph current) (visited, stack)))
      (group ++ [current]).
Proof.
  cbn [dfs]. fold push.
  destruct (fold_left push (graph_get graph current) (visited, stack));
    reflexivity.
Qed.

(** Once the fuel covers the stack and the unvisited nodes, more fuel
    changes nothing. *)
Lemma dfs_fuel :
  forall fuel1 fuel2 stack visited group,
    tidy graph visited ->
    (List.length stack + (List.length graph - List.length visited) <= fuel1)%nat ->
    (List.length stack + (List.length graph - List.length visited) <= fuel2)%nat ->
    dfs fuel1 graph stack visited group = dfs fuel2 graph stack visited group.
Proof.
  induction fuel1 as [|fuel1 IH]; intros fuel2 stack visited group Ht H1 H2.
  - destruct stack as [|current stack]; [|cbn in H1; lia].
    destruct fuel2; reflexivity.
  - destruct stack as [|current stack].
    + destruct fuel2; reflexivity.
    + destruct fuel2 as [|fuel2]; [cbn in H2; lia|].
      rewrite !dfs_step.
      destruct (push_all (graph_get graph current)
                  (fun x Hx => Hclosed current x Hx) visited stack Ht)
        as [Ht' Hlen].
      pose proof (tidy_length _ Ht') as Hbound.
      cbn [List.length] in H1, H2.
      apply IH; [exact Ht' | lia | lia].
Qed.

Lemma dfs_tidy :
  forall fuel stack visited group,
    tidy graph visited -> tidy graph (snd (dfs fuel graph stack visited group)).
Proof.
  induction fuel as [|fuel IH]; intros stack visited group Ht.
  - destruct stack; exact Ht.
  - destruct stack as [|current stack]; [exact Ht|].
    rewrite dfs_step. apply IH.
    apply (push_all (graph_get graph current)
             (fun x Hx => Hclosed current x Hx) visited stack Ht).
Qed.

Lemma visit_fuel (extra : nat) (vg : list nat * list (list nat)) (node : nat) :
  tidy graph (fst vg) -> In node (nodes graph) ->
  visit (List.length graph + extra) graph vg node
  = visit (List.length graph) graph vg node
  /\ tidy graph (fst (visit (List.length graph) graph vg node)).
Proof.
  intros Ht Hnode. unfold visit.
  destruct (mem_nat node (fst vg)) eqn:E; [split; [reflexivity | exact Ht]|].
  apply mem_nat_not_In in E.
  assert (Ht' : tidy graph (fst vg ++ [node])).
  { destruct Ht as [Hnd Hsub]. split.
    - apply NoDup_app; [exact Hnd | repeat constructor; tauto |].
      intros y Hy [<- | []]. contradiction.
    - intros y Hy. apply in_app_iff in Hy.
      destruct Hy as [Hy | [<- | []]]; [apply Hsub, Hy | exact Hnode]. }
  pose proof (tidy_length _ Ht') as Hbound.
  rewrite length_app in Hbound. cbn in Hbound.
  rewrite (dfs_fuel (List.length graph + extra) (List.length graph)
             [node] (fst vg ++ [node]) [] Ht')
    by (rewrite length_app; cbn; lia).
  split; [reflexivity|].
  pose proof (dfs_tidy (List.length graph) [node] (fst vg ++ [node]) [] Ht')
    as Hafter.
  destruct (1 <? _)%nat; exact Hafter.
Qed.

(** The loop over the nodes never runs a search out of fuel. *)
Lemma components_fuel (extra : nat) :
  components (List.length graph + extra) graph
  = components (List.length graph) graph.
Proof.
  unfold components. f_equal.
  assert (Hgen : forall todo vg,
            incl todo (nodes graph) -> tidy graph (fst vg) ->
            fold_left (visit (List.length graph + extra) graph) todo vg
            = fold_left (visit (List.length graph) graph) todo vg).
  { induction todo as [|node todo IH]; intros vg Hsub Ht; [reflexivity|].
    cbn [fold_left].
    destruct (visit_fuel extra vg node Ht (Hsub node (or_introl eq_refl)))
      as [Hsame Hnext].
    rewrite Hsame. apply IH; [|exact Hnext].
    intros y Hy. apply Hsub. right. exact Hy. }
  apply Hgen.
  - apply incl_refl.
  - split; [constructor | intros y []].
Qed.

End Search.

(** The grouping of [_group_similar_rows] is that of a search with any
    larger supply of fuel. *)
Theorem grouping_has_enough_fuel (duplicate_pairs : list (nat * nat))
  (extra : nat) :
  components (List.length (build_graph duplicate_pairs) + extra)
    (build_graph duplicate_pairs)
  = components (List.length (build_graph duplicate_pairs))
      (build_graph duplicate_pairs).
Proof.
  apply components_fuel, build_graph_closed.
Qed.

(** ** The groups are the connected components *)

Lemma graph_get_add_same (i j : nat) (graph : list (nat * list nat)) :
  In j (graph_get (graph_add i j graph) i).
Proof.
  induction graph as [|[n s] graph IH]; cbn.
  - rewrite Nat.eqb_refl. left. reflexivity.
  - destruct (n =? i)%nat eqn:E; cbn; rewrite E.
    + unfold set_add_nat. destruct (mem_nat j s) eqn:M.
      * apply mem_nat_In, M.
      * apply in_app_iff. right. left. reflexivity.
    + exact IH.
Qed.

Lemma graph_get_add_keeps (i j i' x : nat) (graph : list (nat * list nat)) :
  In x (graph_get graph i') -> In x (graph_get (graph_add i j graph) i').
Proof.
  induction graph as [|[n s] graph IH]; cbn; [tauto|].
  destruct (n =? i)%nat eqn:E; cbn.
  - destruct (n =? i')%nat; [|tauto].
    unfold set_add_nat. destruct (mem_nat j s); [tauto|].
    intros Hx. apply in_app_iff. left. exact Hx.
  - destruct (n =? i')%nat; [tauto | exact IH].
Qed.

Lemma adj_add_edge (i j x y : nat) (graph : list (nat * list nat)) :
  adj (graph_add j i (graph_add i j graph)) x y
  <-> (x = i /\ y = j) \/ (x = j /\ y = i) \/ adj graph x y.
Proof.
  unfold adj. split.
  - intros Hxy. apply graph_get_graph_add in Hxy.
    destruct Hxy as [[-> ->] | Hxy]; [tauto|].
    apply graph_get_graph_add in Hxy.
    destruct Hxy as [[-> ->] | Hxy]; tauto.
  - intros [[-> ->] | [[-> ->] | Hxy]].
    + apply graph_get_add_keeps, graph_get_add_same.
    + apply graph_get_add_same.
    + apply graph_get_add_keeps, graph_get_add_keeps, Hxy.
Qed.

Lemma build_graph_symmetric (duplicate_pairs : list (nat * nat)) :
  symmetric (build_graph duplicate_pairs).
Proof.
  unfold build_graph.
  assert (Hgen : forall graph, symmetric graph ->
            symmetric (fold_left
                         (fun graph p => graph_add (snd p) (fst p)
                                           (graph_add (fst p) (snd p) graph))
                         duplicate_pairs graph)).
  { induction duplicate_pairs as [|p ps IH]; intros graph Hs; [exact Hs|].
    cbn [fold_left]. apply IH. intros x y Hxy.
    apply adj_add_edge in Hxy. apply adj_add_edge.
    destruct Hxy as [[-> ->] | [[-> ->] | Hxy]]; [tauto | tauto |].
    right. right. apply Hs, Hxy. }
  apply Hgen. intros x y [].
Qed.

(** The edges of the graph are the pairs, in both directions. *)
Lemma build_graph_edges (duplicate_pairs : list (nat * nat)) (x y : nat) :
  adj (build_graph duplicate_pairs) x y
  <-> In (x, y) duplicate_pairs \/ In (y, x) duplicate_pairs.
Proof.
  unfold build_graph.
  assert (Hgen : forall graph,
            adj (fold_left
                   (fun graph p => graph_add (snd p) (fst p)
                                     (graph_add (fst p) (snd p) graph))
                   duplicate_pairs graph) x y
            <-> adj graph x y
                \/ In (x, y) duplicate_pairs \/ In (y, x) duplicate_pairs).
  { induction duplicate_pairs as [|[i j] ps IH]; intros graph.
    - cbn. tauto.
    - cbn [fold_left fst snd]. rewrite IH, adj_add_edge. cbn [In].
      split.
      + intros [[[-> ->] | [[-> ->] | H]] | [H | H]]; tauto.
      + intros [H | [[E | H] | [E | H]]]; try tauto.
        * injection E as -> ->. tauto.
        * injection E as -> ->. tauto. }
  rewrite Hgen. unfold adj. cbn. tauto.
Qed.

Section Components.
Variable graph : list (nat * list nat).
Hypothesis Hclosed : closed graph.
Hypothesis Hsym : symmetric graph.

Lemma connected_trans (x y z : nat) :
  connected (adj graph) x y -> connected (adj graph) y z -> connected (adj graph) x z.
Proof.
  intros Hxy Hyz. induction Hyz as [|y u v _ IH Huv]; [exact Hxy|].
  apply connected_step with u; [apply IH, Hxy | exact Huv].
Qed.

Lemma connected_sym (x y : nat) : connected (adj graph) x y -> connected (adj graph) y x.
Proof.
  induction 1 as [|x u v _ IH Huv]; [constructor|].
  apply connected_trans with u; [|exact IH].
  apply connected_step with v; [constructor | apply Hsym, Huv].
Qed.

Lemma push_all_members (neighbors : list nat) :
  forall visited stack x,
    (In x (fst (fold_left push neighbors (visited, stack)))
     <-> In x visited \/ In x neighbors)
    /\ (In x (snd (fold_left push neighbors (visited, stack)))
        <-> In x stack \/ (In x neighbors /\ ~ In x visited)).
Proof.
  induction neighbors as [|n ns IH]; intros visited stack x.
  - cbn. tauto.
  - cbn [fold_left]. destruct (mem_nat n visited) eqn:E.
    + replace (push (visited, stack) n) with (visited, stack)
        by (unfold push; cbn [fst snd]; rewrite E; reflexivity).
      apply mem_nat_In in E. destruct (IH visited stack x) as [H1 H2].
      rewrite H1, H2. cbn [In]. split; split; try tauto.
      * intros [H | [-> | H]]; tauto.
      * intros [H | [[-> | H] Hn]]; tauto.
    + replace (push (visited, stack) n) with (visited ++ [n], n :: stack)
        by (unfold push; cbn [fst snd]; rewrite E; reflexivity).
      apply mem_nat_not_In in E.
      destruct (IH (visited ++ [n]) (n :: stack) x) as [H1 H2].
      rewrite H1, H2, in_app_iff. cbn [In]. split; split; try tauto.
      * intros [[<- | H] | [H Hn]]; [tauto | tauto |]. right. tauto.
      * intros [H | [[<- | H] Hn]]; [tauto | tauto |].
        destruct (Nat.eq_dec n x) as [-> | Hne]; [tauto|].
        right. split; [exact H | tauto].
Qed.

Lemma search_step (start current : nat) (seen stack visited group : list nat) :
  searching graph start seen (current :: stack) visited group ->
  searching graph start seen
    (snd (fold_left push (graph_get graph current) (visited, stack)))
    (fst (fold_left push (graph_get graph current) (visited, stack)))
    (group ++ [current]).
Proof.
  intros [Hsplit Hconn Hexp Hfresh Hstart].
  pose proof (push_all_members (graph_get graph current) visited stack) as Hpush.
  constructor.
  - intros x. destruct (Hpush x) as [H1 H2]. rewrite H1, H2, in_app_iff.
    specialize (Hsplit x). cbn [In] in *. split.
    + intros [Hv | Hn].
      * apply Hsplit in Hv. tauto.
      * destruct (in_dec Nat.eq_dec x visited) as [Hv | Hv].
        -- apply Hsplit in Hv. tauto.
        -- tauto.
    + intros [H | [[H | [<- | []]] | [H | [H _]]]]; try tauto;
        left; apply Hsplit; tauto.
  - intros x Hx. destruct (Hpush x) as [_ H2].
    rewrite in_app_iff, H2 in Hx. cbn [In] in Hx.
    destruct Hx as [[H | [<- | []]] | [H | [H _]]].
    + apply Hconn. tauto.
    + apply Hconn. right. left. reflexivity.
    + apply Hconn. right. right. exact H.
    + apply connected_step with current; [|exact H].
      apply Hconn. right. left. reflexivity.
  - intros x y Hx Hxy. destruct (Hpush y) as [H1 _]. apply H1.
    apply in_app_iff in Hx. destruct Hx as [Hx | [<- | []]].
    + left. exact (Hexp x y Hx Hxy).
    + right. exact Hxy.
  - intros x Hx. destruct (Hpush x) as [_ H2].
    rewrite in_app_iff, H2 in Hx. cbn [In] in Hx.
    destruct Hx as [[H | [<- | []]] | [H | [H Hn]]].
    + apply Hfresh. tauto.
    + apply Hfresh. right. left. reflexivity.
    + apply Hfresh. right. right. exact H.
    + intros Hs. apply Hn, Hsplit. tauto.
  - destruct Hstart as [H | [<- | H]].
    + left. apply in_app_iff. tauto.
    + left. apply in_app_iff. right. left. reflexivity.
    + right. destruct (Hpush start) as [_ H2]. apply H2. tauto.
Qed.

(** With fuel for the stack and the unvisited nodes, the search ends with
    an empty stack. *)
Lemma dfs_ends (start : nat) (seen : list nat) :
  forall fuel stack visited group,
    tidy graph visited ->
    (List.length stack + (List.length graph - List.length visited) <= fuel)%nat ->
    searching graph start seen stack visited group ->
    searching graph start seen []
      (snd (dfs fuel graph stack visited group))
      (fst (dfs fuel graph stack visited group)).
Proof.
  induction fuel as [|fuel IH]; intros stack visited group Ht Hfuel Hs.
  - destruct stack as [|current stack]; [exact Hs | cbn in Hfuel; lia].
  - destruct stack as [|current stack]; [exact Hs|].
    rewrite dfs_step.
    destruct (push_all graph (graph_get graph current)
                (fun x Hx => Hclosed current x Hx) visited stack Ht)
      as [Ht' Hlen].
    pose proof (tidy_length graph _ Ht') as Hbound.
    cbn [List.length] in Hfuel.
    apply IH; [exact Ht' | lia | apply search_step, Hs].
Qed.

(** What a finished search has found is the component of its start. *)
Lemma finished_search (start : nat) (seen visited group : list nat) :
  sealed graph seen ->
  searching graph start seen [] visited group ->
  (forall y, In y group <-> connected (adj graph) start y)
  /\ sealed graph visited
  /\ (forall x, In x visited <-> In x seen \/ In x group).
Proof.
  intros Hseen [Hsplit Hconn Hexp Hfresh Hstart].
  assert (Hgroup : forall x y, In x group -> adj graph x y -> In y group).
  { intros x y Hx Hxy. pose proof (Hexp x y Hx Hxy) as Hy.
    apply Hsplit in Hy. destruct Hy as [Hy | [Hy | []]]; [|exact Hy].
    exfalso. apply (Hfresh x); [tauto|].
    apply (Hseen y x Hy), Hsym, Hxy. }
  assert (Hin : In start group) by (destruct Hstart as [H | []]; exact H).
  split; [|split].
  - intros y. split.
    + intros Hy. apply Hconn. tauto.
    + intros Hc. induction Hc as [|x u v _ IH Huv]; [exact Hin|].
      apply (Hgroup u v); [apply IH; assumption | exact Huv].
  - intros x y Hx Hxy. apply Hsplit. apply Hsplit in Hx.
    destruct Hx as [Hx | [Hx | []]].
    + left. exact (Hseen x y Hx Hxy).
    + right. left. exact (Hgroup x y Hx Hxy).
  - intros x. rewrite Hsplit. cbn [In]. tauto.
Qed.

Lemma visit_swept (vg : list nat * list (list nat)) (node : nat) :
  tidy graph (fst vg) -> In node (nodes graph) ->
  swept graph (fst vg) (snd vg) ->
  swept graph (fst (visit (List.length graph) graph vg node))
    (snd (visit (List.length graph) graph vg node))
  /\ In node (fst (visit (List.length graph) graph vg node))
  /\ incl (fst vg) (fst (visit (List.length graph) graph vg node)).
Proof.
  intros Ht Hnode Hsw. unfold visit.
  destruct (mem_nat node (fst vg)) eqn:E.
  { apply mem_nat_In in E. split; [exact Hsw | split; [exact E | apply incl_refl]]. }
  apply mem_nat_not_In in E.
  assert (Ht' : tidy graph (fst vg ++ [node])).
  { destruct Ht as [Hnd Hsub]. split.
    - apply NoDup_app; [exact Hnd | repeat constructor; tauto |].
      intros y Hy [<- | []]. contradiction.
    - intros y Hy. apply in_app_iff in Hy.
      destruct Hy as [Hy | [<- | []]]; [apply Hsub, Hy | exact Hnode]. }
  pose proof (tidy_length graph _ Ht') as Hbound.
  rewrite length_app in Hbound. cbn in Hbound.
  assert (Hstart : searching graph node (fst vg) [node] (fst vg ++ [node]) []).
  { constructor.
    - intros x. rewrite in_app_iff. cbn [In]. tauto.
    - intros x [[] | [<- | []]]. constructor.
    - intros x y [].
    - intros x [[] | [<- | []]]. exact E.
    - right. left. reflexivity. }
  pose proof (dfs_ends node (fst vg) (List.length graph) [node]
                (fst vg ++ [node]) [] Ht'
                ltac:(rewrite length_app; cbn; lia) Hstart) as Hend.
  destruct Hsw as [Hsealed Hgroups Hsizes Hcovered].
  destruct (finished_search node (fst vg) _ _ Hsealed Hend)
    as [Hcomp [Hsealed' Hvis]].
  set (found := dfs (List.length graph) graph [node] (fst vg ++ [node]) []) in *.
  assert (Hnode_in : In node (fst found)) by (apply Hcomp; constructor).
  assert (Hcomponent :
            forall x, In x (fst found) ->
                      forall y, In y (fst found) <-> connected (adj graph) x y).
  { intros x Hx y. apply Hcomp in Hx. rewrite Hcomp. split.
    - intros Hy. apply connected_trans with node;
        [apply connected_sym, Hx | exact Hy].
    - intros Hy. apply connected_trans with x; assumption. }
  assert (Hincl : incl (fst vg) (snd found))
    by (intros x Hx; apply Hvis; tauto).
  assert (Hnode_vis : In node (snd found)) by (apply Hvis; tauto).
  destruct (1 <? List.length (fst found))%nat eqn:Esize; cbn [fst snd].
  - apply Nat.ltb_lt in Esize.
    split; [|split; [exact Hnode_vis | exact Hincl]].
    constructor.
    + exact Hsealed'.
    + intros group x Hg Hx. apply in_app_iff in Hg.
      destruct Hg as [Hg | [<- | []]];
        [exact (Hgroups group x Hg Hx) | exact (Hcomponent x Hx)].
    + intros group Hg. apply in_app_iff in Hg.
      destruct Hg as [Hg | [<- | []]]; [exact (Hsizes group Hg) | exact Esize].
    + intros x Hx. apply Hvis in Hx. destruct Hx as [Hx | Hx].
      * destruct (Hcovered x Hx) as [[group [Hg Hin]] | Halone]; [|tauto].
        left. exists group. split; [apply in_app_iff; tauto | exact Hin].
      * left. exists (fst found). split; [|exact Hx].
        apply in_app_iff. right. left. reflexivity.
  - apply Nat.ltb_ge in Esize.
    split; [|split; [exact Hnode_vis | exact Hincl]].
    constructor.
    + exact Hsealed'.
    + exact Hgroups.
    + exact Hsizes.
    + intros x Hx. apply Hvis in Hx. destruct Hx as [Hx | Hx].
      * exact (Hcovered x Hx).
      * right. intros y Hxy.
        assert (Hy : In y (fst found))
          by (apply (Hcomponent x Hx); apply connected_step with x;
              [constructor | exact Hxy]).
        destruct (fst found) as [|u [|v rest]]; cbn in Esize;
          [destruct Hx | | lia].
        destruct Hx as [<- | []]. destruct Hy as [<- | []]. reflexivity.
Qed.

Lemma sweep (todo : list nat) :
  forall vg,
    incl todo (nodes graph) -> tidy graph (fst vg) ->
    swept graph (fst vg) (snd vg) ->
    swept graph
      (fst (fold_left (visit (List.length graph) graph) todo vg))
      (snd (fold_left (visit (List.length graph) graph) todo vg))
    /\ incl todo (fst (fold_left (visit (List.length graph) graph) todo vg))
    /\ incl (fst vg) (fst (fold_left (visit (List.length graph) graph) todo vg)).
Proof.
  induction todo as [|node todo IH]; intros vg Hsub Ht Hsw.
  - cbn. split; [exact Hsw | split; [intros x [] | apply incl_refl]].
  - cbn [fold_left].
    assert (Hnode : In node (nodes graph)) by (apply Hsub; left; reflexivity).
    destruct (visit_swept vg node Ht Hnode Hsw) as [Hsw' [Hin Hincl]].
    destruct (visit_fuel graph Hclosed 0 vg node Ht Hnode) as [_ Ht'].
    destruct (IH (visit (List.length graph) graph vg node)
                (fun y Hy => Hsub y (or_intror Hy)) Ht' Hsw')
      as [Hfinal [Htodo Hkeep]].
    split; [exact Hfinal | split].
    + intros x [<- | Hx]; [apply Hkeep, Hin | apply Htodo, Hx].
    + intros x Hx. apply Hkeep, Hincl, Hx.
Qed.

End Components.

(** The groups of [_group_similar_rows] are the connected components with
    more than one row of the graph whose edges are the duplicate pairs:
    a group holds, with any of its rows, exactly the rows connected to it;
    it has more than one row; and two distinct rows joined by a pair are
    together in some group. *)
Theorem groups_are_components (duplicate_pairs : list (nat * nat)) :
  let graph := build_graph duplicate_pairs in
  let groups := components (List.length graph) graph in
  (forall group x, In group groups -> In x group ->
                   forall y, In y group <-> connected (adj graph) x y)
  /\ (forall group, In group groups -> (1 < List.length group)%nat)
  /\ (forall x y, adj graph x y -> x <> y ->
                  exists group, In group groups /\ In x group /\ In y group).
Proof.
  intros graph groups.
  pose proof (build_graph_closed duplicate_pairs) as Hclosed.
  pose proof (build_graph_symmetric duplicate_pairs) as Hsym.
  fold graph in Hclosed, Hsym.
  destruct (sweep graph Hclosed Hsym (nodes graph) ([], [])
              (incl_refl _)
              (conj (NoDup_nil _) (fun y (Hy : In y []) => match Hy with end)))
    as [[Hsealed Hgroups Hsizes Hcovered] [Hall _]].
  { constructor.
    - intros x y [].
    - intros group x [].
    - intros group [].
    - intros x []. }
  fold (components (List.length graph) graph) in Hgroups, Hsizes, Hcovered.
  split; [exact Hgroups | split; [exact Hsizes|]].
  intros x y Hxy Hne.
  assert (Hx : In x (nodes graph)).
  { apply Hsym in Hxy. exact (Hclosed y x Hxy). }
  destruct (Hcovered x (Hall x Hx)) as [[group [Hg Hin]] | Halone].
  - exists group. split; [exact Hg | split; [exact Hin|]].
    apply (Hgroups group x Hg Hin). apply connected_step with x;
      [constructor | exact Hxy].
  - exfalso. apply Hne. symmetry. exact (Halone y Hxy).
Qed.


Lemma connected_same_edges (edge edge' : nat -> nat -> Prop) :
  (forall x y, edge x y <-> edge' x y) ->
  forall x y, connected edge x y <-> connected edge' x y.
Proof.
  intros Hsame x y. split; induction 1 as [|x u v _ IH Huv];
    try constructor; apply connected_step with u; try exact IH;
    apply Hsame, Huv.
Qed.

Lemma map_snd_numbered {A B} (f : nat * A -> B * A) (l : list A) :
  (forall p, snd (f p) = snd p) ->
  forall start, map snd (map f (combine (seq start (List.length l)) l)) = l.
Proof.
  intros Hf. induction l as [|x l IH]; intros start; [reflexivity|].
  cbn. rewrite Hf, IH. reflexivity.
Qed.

Lemma group_lists (data : DataFrame) (duplicate_pairs : list (nat * nat)) :
  map snd (_group_similar_rows data duplicate_pairs)
  = components (List.length (build_graph duplicate_pairs))
      (build_graph duplicate_pairs).
Proof.
  unfold _group_similar_rows. cbv zeta.
  apply map_snd_numbered. intros p. reflexivity.
Qed.

(** The groups of [_group_similar_rows] are the connected components with
    more than one row of the graph of the duplicate pairs. *)
Theorem similar_rows_grouped_by_component (data : DataFrame)
  (duplicate_pairs : list (nat * nat)) :
  let groups := map snd (_group_similar_rows data duplicate_pairs) in
  (forall group x, In group groups -> In x group ->
                   forall y, In y group
                             <-> connected (linked duplicate_pairs) x y)
  /\ (forall group, In group groups -> (1 < List.length group)%nat)
  /\ (forall x y, linked duplicate_pairs x y -> x <> y ->
                  exists group, In group groups /\ In x group /\ In y group).
Proof.
  cbv zeta. rewrite group_lists.
  destruct (groups_are_components duplicate_pairs) as [Hgroups [Hsizes Hall]].
  cbv zeta in Hgroups, Hsizes, Hall.
  split; [|split; [exact Hsizes|]].
  - intros group x Hg Hx y. rewrite (Hgroups group x Hg Hx y).
    apply connected_same_edges. intros u v. apply build_graph_edges.
  - intros x y Hxy Hne. apply Hall; [|exact Hne].
    apply build_graph_edges, Hxy.
Qed.

End GroupingProps.

(* ================================================================== *)
(** * Properties of the duplicates check *)

Module DuplicatesProps.
Import Duplicates Cases Notions.

(** C3.  The rule "missing compares as 0.0" is never applied: the cells
    are turned into text before the missing-value test, so the test is
    always false.  Two NaN cells, or two [None] cells, contribute 1.0;
    a NaN against a [None] contributes the text similarity of "nan" and
    "None", 2/7; and two all-missing rows are reported as fuzzy
    duplicates under the default threshold. *)
Theorem both_missing_counts_as_similar `{Runtime} :
  (forall c1 c2,
     column_similarity c1 c2
     = if String.eqb (py_str c1) (py_str c2) then 1.0
       else Difflib.ratio (py_str c1) (py_str c2))
  /\ column_similarity NaN NaN == 1.0
  /\ column_similarity PyNone PyNone == 1.0
  /\ column_similarity NaN PyNone == 2 # 7
  /\ column_similarity PyNone NaN == 2 # 7
  /\ ~ column_similarity NaN NaN == 0.0
  /\ (exists m, _calculate_row_similarity [NaN; PyNone] [NaN; PyNone] = Some m
                /\ m == 1.0)
  /\ duplicate_pairs (_detect_fuzzy_duplicates (init None) all_missing)
     = [(0%nat, 1%nat)].
Proof.
  split; [intros c1 c2; reflexivity|].
  repeat split; try reflexivity.
  - discriminate.
  - eexists. split; reflexivity.
Qed.

Lemma fuzzy_scenario_values `{Runtime} :
  _calculate_row_similarity (iloc names 0) (iloc names 1) = Some (1900 # 2200)
  /\ ge_threshold (_calculate_row_similarity (iloc names 0) (iloc names 1))
       0.6 = true
  /\ ge_threshold (_calculate_row_similarity (iloc names 0) (iloc names 2))
       0.6 = false
  /\ ge_threshold (_calculate_row_similarity (iloc names 1) (iloc names 2))
       0.6 = false
  /\ duplicate_pairs (_detect_fuzzy_duplicates threshold_06 names)
     = [(0%nat, 1%nat)]
  /\ duplicate_groups (_detect_fuzzy_duplicates threshold_06 names)
     = [(KStr "group_0", [0%nat; 1%nat])].
Proof.
  repeat split; vm_compute; reflexivity.
Qed.

(** Row 2 is linked to no row by the single pair (0, 1). *)
Lemma bob_alone (x : nat) :
  connected (linked [(0%nat, 1%nat)]) 2 x -> x = 2%nat.
Proof.
  intros Hc. remember 2%nat as start eqn:Estart.
  induction Hc as [x | x y z _ IH Hyz]; [reflexivity|].
  specialize (IH Estart). subst.
  destruct Hyz as [[E | []] | [E | []]]; discriminate.
Qed.

(** C6.  With threshold 0.6 the rows "alice"/30 and "alicia"/30 have mean
    similarity 19/22, each of them against "bob"/40 has 1/4, so the only
    edge of the pair graph is (0, 1); the one group returned is
    group_0 = [0, 1], which is exactly the set of rows connected to row 0;
    rows 0 and 1 share it, and row 2, connected to no other row, is in no
    group. *)
Theorem alice_and_alicia_grouped `{Runtime} :
  let r := _detect_fuzzy_duplicates threshold_06 names in
  _calculate_row_similarity (iloc names 0) (iloc names 1) = Some (1900 # 2200)
  /\ ge_threshold (_calculate_row_similarity (iloc names 0) (iloc names 1))
       0.6 = true
  /\ ge_threshold (_calculate_row_similarity (iloc names 0) (iloc names 2))
       0.6 = false
  /\ ge_threshold (_calculate_row_similarity (iloc names 1) (iloc names 2))
       0.6 = false
  /\ duplicate_pairs r = [(0%nat, 1%nat)]
  /\ duplicate_groups r = [(KStr "group_0", [0%nat; 1%nat])]
  /\ (forall x, In x [0%nat; 1%nat]
                <-> connected (linked (duplicate_pairs r)) 0 x)
  /\ (forall x, connected (linked (duplicate_pairs r)) 2 x -> x = 2%nat)
  /\ same_group r 0 1 = true
  /\ grouped r 2 = false.
Proof.
  cbv zeta.
  destruct fuzzy_scenario_values as [H01 [Hge01 [Hge02 [Hge12 [Hpairs Hgroups]]]]].
  split; [exact H01|]. split; [exact Hge01|]. split; [exact Hge02|].
  split; [exact Hge12|]. split; [exact Hpairs|]. split; [exact Hgroups|].
  rewrite Hpairs.
  split; [|split; [exact bob_alone | split; vm_compute; reflexivity]].
  intros x.
  destruct (GroupingProps.similar_rows_grouped_by_component names
              [(0%nat, 1%nat)]) as [Hcomponent _].
  apply (Hcomponent [0%nat; 1%nat] 0%nat); [| left; reflexivity].
  vm_compute. left. reflexivity.
Qed.

End DuplicatesProps.

(* ================================================================== *)
(** * Properties of the outliers check *)

Module OutliersProps.
Import Outliers Cases Notions.

Lemma dropna_error (series : Series) :
  forall i e, dropna_from i series = Raise e ->
              e = TypeError "unsupported operand type(s)".
Proof.
  induction series as [|c rest IH]; intros i e; cbn [dropna_from].
  - discriminate.
  - destruct c; try apply IH.
    + intros Hr. injection Hr as <-. reflexivity.
    + destruct (dropna_from (S i) rest) eqn:E; cbn [bind].
      * discriminate.
      * intros Hr. injection Hr as <-. exact (IH _ _ E).
    + destruct (dropna_from (S i) rest) eqn:E; cbn [bind].
      * discriminate.
      * intros Hr. injection Hr as <-. exact (IH _ _ E).
Qed.

Section Method.
Variable cfg : OutliersConfig.
Variable data : DataFrame.

Lemma degenerate_column_skipped (column : string) (acc : Acc) :
  degenerate data column = true ->
  modified_zscore_column cfg data column acc = Return acc.
Proof.
  unfold degenerate, mad_is_zero, modified_zscore_column.
  destruct (df_col data column) as [series|]; [|discriminate].
  cbn [bind]. destruct (dropna series) as [clean|]; [|discriminate].
  cbn [bind]. destruct clean as [|iv clean]; [discriminate|].
  destruct (median _) as [center|]; [|discriminate].
  destruct (mad_of _ _) as [mad|]; [|discriminate].
  intros Hz. rewrite Hz. reflexivity.
Qed.

(** The scores of a column are computed only with a non-zero
    divisor. *)
Lemma scores_defined (center mad : Q) (clean_data : list (nat * Q)) :
  Qeq_bool mad 0 = false ->
  exists scores,
    mapM (fun iv => z <- py_div (0.6745 * (snd iv - center)) mad ;;
                    Return (fst iv, z)) clean_data
    = Return scores.
Proof.
  intros Hmad. induction clean_data as [|iv rest [scores IH]].
  - eexists. reflexivity.
  - cbn [mapM]. unfold py_div at 1. rewrite Hmad. cbn [bind].
    rewrite IH. cbn [bind]. eexists. reflexivity.
Qed.

Lemma column_step (column : string) (acc : Acc) :
  (exists acc', modified_zscore_column cfg data column acc = Return acc')
  \/ (resolves data column = false
      /\ exists e, modified_zscore_column cfg data column acc = Raise e
                   /\ e <> ZeroDivisionError).
Proof.
  unfold resolves, modified_zscore_column.
  destruct (df_col data column) as [series|e] eqn:Ecol.
  2:{ right. split; [reflexivity|]. exists e. split; [reflexivity|].
      unfold df_col, dict_get in Ecol.
      destruct (dict_find column (columns data)); [discriminate|].
      injection Ecol as <-. discriminate. }
  cbn [bind]. destruct (dropna series) as [clean|e] eqn:Edrop.
  2:{ right. split; [reflexivity|]. exists e. split; [reflexivity|].
      rewrite (dropna_error series 0 e Edrop). discriminate. }
  left. cbn [bind]. destruct clean as [|iv clean]; [eauto|].
  destruct (median _) as [center|]; [|eauto].
  destruct (mad_of _ _) as [mad|]; [|eauto].
  destruct (Qeq_bool mad 0) eqn:Emad; [eauto|].
  destruct (scores_defined center mad (iv :: clean) Emad) as [scores Hs].
  rewrite Hs. cbn [bind]. eauto.
Qed.

Lemma loop_skips_degenerate (numeric_columns : list string) :
  forall acc,
    for_columns (modified_zscore_column cfg data) numeric_columns acc
    = for_columns (modified_zscore_column cfg data)
        (filter (fun column => negb (degenerate data column)) numeric_columns)
        acc.
Proof.
  induction numeric_columns as [|column rest IH]; intros acc; [reflexivity|].
  cbn [filter for_columns].
  destruct (degenerate data column) eqn:E; cbn [negb].
  - rewrite (degenerate_column_skipped column acc E). cbn [bind]. exact (IH acc).
  - cbn [for_columns].
    destruct (modified_zscore_column cfg data column acc); cbn [bind];
      [apply IH | reflexivity].
Qed.

Lemma loop_all_degenerate (numeric_columns : list string) :
  forallb (degenerate data) numeric_columns = true ->
  forall acc,
    for_columns (modified_zscore_column cfg data) numeric_columns acc
    = Return acc.
Proof.
  induction numeric_columns as [|column rest IH]; intros Hall acc;
    [reflexivity|].
  cbn in Hall. apply andb_prop in Hall. destruct Hall as [Hc Hrest].
  cbn [for_columns]. rewrite (degenerate_column_skipped column acc Hc).
  cbn [bind]. apply IH, Hrest.
Qed.

Lemma loop_no_division_error (numeric_columns : list string) :
  forall acc,
    (forallb (resolves data) numeric_columns = true ->
     exists acc',
       for_columns (modified_zscore_column cfg data) numeric_columns acc
       = Return acc')
    /\ for_columns (modified_zscore_column cfg data) numeric_columns acc
       <> Raise ZeroDivisionError.
Proof.
  induction numeric_columns as [|column rest IH]; intros acc.
  - cbn. split; [intros _; eexists; reflexivity | discriminate].
  - cbn [for_columns forallb].
    destruct (column_step column acc) as [[acc' Hstep] | [Hno [e [Hstep He]]]];
      rewrite Hstep; cbn [bind].
    + destruct (IH acc') as [Hreturns Hsafe]. split; [|exact Hsafe].
      intros Hall. apply andb_prop in Hall. apply Hreturns, Hall.
    + split; [|congruence].
      rewrite Hno. discriminate.
Qed.

End Method.

(** ** Columns of identical values *)

Lemma insert_sorted_same (x : Q) (k : nat) :
  insert_sorted x (repeat x k) = x :: repeat x k.
Proof.
  destruct k as [|k]; [reflexivity|]. cbn.
  replace (Qle_bool x x) with true; [reflexivity|].
  symmetry. apply Qle_bool_iff, Qle_refl.
Qed.

Lemma sort_repeat (x : Q) (k : nat) : sort_Q (repeat x k) = repeat x k.
Proof.
  unfold sort_Q. induction k as [|k IH]; [reflexivity|].
  cbn [repeat fold_right]. rewrite IH. apply insert_sorted_same.
Qed.

Lemma nth_repeat_below {A} (x d : A) (k i : nat) :
  (i < k)%nat -> nth i (repeat x k) d = x.
Proof.
  revert i. induction k as [|k IH]; intros i Hi; [lia|].
  destruct i as [|i]; [reflexivity|]. cbn. apply IH. lia.
Qed.

Lemma median_repeat (x : Q) (n : nat) :
  exists m, median (repeat x (S n)) = Some m /\ m == x.
Proof.
  unfold median. rewrite sort_repeat, repeat_length.
  destruct (Nat.odd (S n)).
  - eexists. split; [reflexivity|].
    rewrite nth_repeat_below; [reflexivity|].
    apply Nat.div_lt; lia.
  - eexists. split; [reflexivity|].
    rewrite !nth_repeat_below.
    + field.
    + apply Nat.div_lt; lia.
    + pose proof (Nat.div_lt (S n) 2). lia.
Qed.

Lemma dropna_repeat (c : cell) (q : Q) (n : nat) :
  (c = Float q \/ exists z, c = Int z /\ q = inject_Z z) ->
  forall i, exists clean,
    dropna_from i (repeat c (S n)) = Return clean
    /\ clean <> [] /\ map snd clean = repeat q (S n).
Proof.
  intros Hc. induction n as [|n IH]; intros i.
  - destruct Hc as [-> | [z [-> ->]]]; cbn; eexists;
      (split; [reflexivity | split; [discriminate | reflexivity]]).
  - destruct (IH (S i)) as [clean [Hrun [_ Hvals]]].
    change (repeat c (S (S n))) with (c :: repeat c (S n)).
    destruct Hc as [-> | [z [-> ->]]]; cbn [dropna_from];
      rewrite Hrun; cbn [bind]; eexists;
      (split; [reflexivity | split; [discriminate|]]);
      cbn [map snd]; rewrite Hvals; reflexivity.
Qed.

(** A column of identical numbers has median absolute deviation 0. *)
Lemma identical_values_zero_mad (c : cell) (q : Q) (n : nat) :
  (c = Float q \/ exists z, c = Int z /\ q = inject_Z z) ->
  mad_is_zero (repeat c (S n)) = true.
Proof.
  intros Hc. unfold mad_is_zero, dropna.
  destruct (dropna_repeat c q n Hc 0) as [clean [Hrun [Hne Hvals]]].
  rewrite Hrun. destruct clean as [|iv clean]; [congruence|].
  rewrite Hvals.
  destruct (median_repeat q n) as [center [Hmed Hcenter]].
  rewrite Hmed. unfold mad_of. rewrite map_repeat.
  destruct (median_repeat (Qabs (q - center)) n) as [mad [Hmad Hzero]].
  rewrite Hmad. apply Qeq_bool_iff. rewrite Hzero, Hcenter.
  setoid_replace (q - q) with 0 by ring. reflexivity.
Qed.

(** ** The labels [select_dtypes] returns name columns of numbers *)

Lemma dict_find_first {V} (key : string) (v : V) (d : list (string * V)) :
  NoDup (map fst d) -> In (key, v) d -> dict_find key d = Some v.
Proof.
  induction d as [|[k w] d IH]; intros Hnd Hin; [destruct Hin|].
  cbn in *. inversion Hnd as [|? ? Hfresh Hrest]; subst.
  destruct Hin as [E | Hin].
  - injection E as -> ->. rewrite String.eqb_refl. reflexivity.
  - destruct (String.eqb k key) eqn:E.
    + apply String.eqb_eq in E. subst k. exfalso. apply Hfresh.
      apply (in_map fst) in Hin. exact Hin.
    + apply IH; assumption.
Qed.

Lemma dropna_numbers (series : Series) :
  forallb is_number series = true ->
  forall i, exists clean, dropna_from i series = Return clean.
Proof.
  induction series as [|c rest IH]; intros Hnum i.
  - eexists. reflexivity.
  - cbn in Hnum. apply andb_prop in Hnum. destruct Hnum as [Hc Hrest].
    destruct c; try discriminate; cbn [dropna_from];
      destruct (IH Hrest (S i)) as [clean Hclean]; rewrite Hclean;
      cbn [bind]; eexists; reflexivity.
Qed.

Lemma select_numeric_resolves (data : DataFrame) :
  frame_ok data -> forallb (resolves data) (select_numeric data) = true.
Proof.
  intros [_ Hnd]. apply forallb_forall. intros column Hin.
  unfold select_numeric in Hin. apply in_map_iff in Hin.
  destruct Hin as [[label series] [<- Hin]].
  apply filter_In in Hin. destruct Hin as [Hin Hnum]. cbn [fst snd] in *.
  unfold resolves, df_col, dict_get. cbn [fst].
  rewrite (@dict_find_first Series label series (columns data) Hnd Hin).
  destruct (dropna_numbers series Hnum 0) as [clean Hclean].
  unfold dropna. rewrite Hclean. reflexivity.
Qed.

(** C8.  In the modified z-score method a numeric column whose median
    absolute deviation is 0 leaves the state of the detection loop
    untouched; the method returns what it returns without those columns,
    it returns (it never divides by zero) whenever its labels name
    columns of numbers, it finds nothing when every column is of that
    kind, and a column of identical values is of that kind. *)
Theorem zero_mad_columns_are_skipped (cfg : OutliersConfig)
  (data : DataFrame) (numeric_columns : list string) :
  (forall column acc,
     degenerate data column = true ->
     modified_zscore_column cfg data column acc = Return acc)
  /\ _detect_modified_zscore_outliers cfg data numeric_columns
     = _detect_modified_zscore_outliers cfg data
         (filter (fun column => negb (degenerate data column)) numeric_columns)
  /\ _detect_modified_zscore_outliers cfg data numeric_columns
     <> Raise ZeroDivisionError
  /\ (forallb (resolves data) numeric_columns = true ->
      exists r, _detect_modified_zscore_outliers cfg data numeric_columns
                = Return r)
  /\ (forallb (degenerate data) numeric_columns = true ->
      _detect_modified_zscore_outliers cfg data numeric_columns
      = Return no_outliers)
  /\ (forall c q n,
        (c = Float q \/ exists z, c = Int z /\ q = inject_Z z) ->
        mad_is_zero (repeat c (S n)) = true).
Proof.
  unfold _detect_modified_zscore_outliers.
  destruct (loop_no_division_error cfg data numeric_columns ([], []))
    as [Hreturns Hsafe].
  repeat split.
  - intros column acc. apply degenerate_column_skipped.
  - rewrite (loop_skips_degenerate cfg data numeric_columns). reflexivity.
  - destruct (for_columns _ numeric_columns _) as [acc|e] eqn:E;
      cbn [bind]; congruence.
  - intros Hall. destruct (Hreturns Hall) as [acc Hacc].
    rewrite Hacc. cbn [bind]. eexists. reflexivity.
  - intros Hall. rewrite (loop_all_degenerate cfg data numeric_columns Hall).
    reflexivity.
  - intros c q n. apply identical_values_zero_mad.
Qed.

Lemma zero_mad_columns_are_skipped_witness :
  modified_zscore_column (init None) constant_columns "k" ([], [])
  = Return ([], [])
  /\ (exists r,
        _detect_modified_zscore_outliers (init None) constant_columns
          ["k"; "x"] = Return r)
  /\ _detect_modified_zscore_outliers (init None) constant_columns
       ["k"; "x"] = Return no_outliers
  /\ mad_is_zero (repeat (Int 7) 4) = true.
Proof.
  destruct (zero_mad_columns_are_skipped (init None) constant_columns
              ["k"; "x"])
    as [Hskip [_ [_ [Hreturns [Hnone Hsame]]]]].
  split; [apply Hskip; reflexivity|].
  split; [apply Hreturns; reflexivity|].
  split; [apply Hnone; reflexivity|].
  apply (Hsame (Int 7) (inject_Z 7) 3%nat).
  right. exists 7%Z. split; reflexivity.
Defined.

End OutliersProps.

(* ================================================================== *)
(** * Scores and statuses of the three checks *)

Module ScoreProps.
Import ScoreFacts Notions.

Lemma clamped_well_scored (r : CheckResult) (x : Q) :
  score r = py_max 0.0 (py_min 1.0 x) ->
  status r = status_of_score (score r) ->
  well_scored r.
Proof.
  intros Hs Hst. unfold well_scored. rewrite Hs.
  destruct (clamp_bounds x) as [H0 H1].
  repeat split; [exact H0 | exact H1 |].
  right. rewrite Hst, Hs. reflexivity.
Qed.

Lemma missing_values_score_clamped (a : MissingValues.Analysis) (q : Q) :
  MissingValues._calculate_quality_score a = Return q ->
  exists x, q = py_max 0.0 (py_min 1.0 x).
Proof.
  unfold MissingValues._calculate_quality_score.
  destruct (py_div _ _); cbn [bind]; [|discriminate].
  destruct (dict_get _ _); cbn [bind]; [|discriminate].
  intros Hq. injection Hq as <-. eexists. reflexivity.
Qed.

Lemma duplicates_score_clamped (a : Duplicates.Analysis) :
  exists x, Duplicates._calculate_quality_score a = py_max 0.0 (py_min 1.0 x).
Proof.
  unfold Duplicates._calculate_quality_score. eexists. reflexivity.
Qed.

Lemma outliers_score_clamped (a : Outliers.Analysis) (q : Q) :
  Outliers._calculate_quality_score a = Return q ->
  exists x, q = py_max 0.0 (py_min 1.0 x).
Proof.
  unfold Outliers._calculate_quality_score.
  destruct (Outliers.unless_key_or_type_error _ _); cbn [bind]; [|discriminate].
  intros Hq. injection Hq as <-. eexists. reflexivity.
Qed.

(** The score of the outliers check is always defined: the nested lookup
    can only fail with a [KeyError], which the scoring step ignores. *)
Lemma outliers_score_returns (a : Outliers.Analysis) :
  exists q, Outliers._calculate_quality_score a = Return q.
Proof.
  unfold Outliers._calculate_quality_score, Outliers.rows_with_multiple_outliers.
  destruct (Outliers.outlier_patterns a) as [p|]; cbn.
  - unfold dict_get. destruct (dict_find _ _); cbn; eexists; reflexivity.
  - eexists. reflexivity.
Qed.

Lemma Qle_bool_false (x y : Q) : y < x -> Qle_bool x y = false.
Proof.
  intros Hlt. destruct (Qle_bool x y) eqn:E; [|reflexivity].
  apply Qle_bool_iff in E. exfalso. exact (Qlt_not_le _ _ Hlt E).
Qed.

(** The cut points of the status ladder. *)
Lemma status_ladder (q : Q) :
  (0.9 <= q -> status_of_score q = "passed")
  /\ (0.7 <= q -> q < 0.9 -> status_of_score q = "warning")
  /\ (0.5 <= q -> q < 0.7 -> status_of_score q = "failed")
  /\ (q < 0.5 -> status_of_score q = "critical").
Proof.
  unfold status_of_score. repeat split.
  - intros H9. apply Qle_bool_iff in H9. rewrite H9. reflexivity.
  - intros H7 H9. rewrite (Qle_bool_false _ _ H9).
    apply Qle_bool_iff in H7. rewrite H7. reflexivity.
  - intros H5 H7.
    assert (H9 : q < 0.9) by (apply Qlt_trans with 0.7; [exact H7 | reflexivity]).
    rewrite (Qle_bool_false _ _ H9), (Qle_bool_false _ _ H7).
    apply Qle_bool_iff in H5. rewrite H5. reflexivity.
  - intros H5.
    assert (H7 : q < 0.7) by (apply Qlt_trans with 0.5; [exact H5 | reflexivity]).
    assert (H9 : q < 0.9) by (apply Qlt_trans with 0.7; [exact H7 | reflexivity]).
    rewrite (Qle_bool_false _ _ H9), (Qle_bool_false _ _ H7),
      (Qle_bool_false _ _ H5).
    reflexivity.
Qed.

Section Checks.
Context `{Runtime}.

Lemma missing_values_well_scored (cfg : MissingValues.MissingValuesConfig)
  (data : DataFrame) :
  well_scored (MissingValues.execute cfg data).
Proof.
  unfold MissingValues.execute, try_except.
  destruct (MissingValues.execute_body cfg data) as [r|e] eqn:E.
  - unfold MissingValues.execute_body in E.
    destruct (MissingValues.validate_config cfg); cbn [negb bind] in E;
      [|discriminate].
    destruct (MissingValues._analyze_missing_values cfg data) as [a|];
      cbn [bind] in E; [|discriminate].
    destruct (MissingValues._calculate_quality_score a) as [q|] eqn:Eq;
      cbn [bind] in E; [|discriminate].
    destruct (MissingValues._generate_details cfg a);
      cbn [bind] in E; [|discriminate].
    injection E as <-.
    destruct (missing_values_score_clamped a q Eq) as [x Hx].
    apply (clamped_well_scored _ x); [exact Hx | reflexivity].
  - unfold well_scored. cbn. repeat split; try discriminate.
    left. split; reflexivity.
Qed.

Lemma duplicates_well_scored (cfg : Duplicates.DuplicatesConfig)
  (data : DataFrame) :
  well_scored (Duplicates.execute cfg data).
Proof.
  unfold Duplicates.execute, try_except.
  destruct (Duplicates.execute_body cfg data) as [r|e] eqn:E.
  - unfold Duplicates.execute_body in E.
    destruct (Duplicates.validate_config cfg); cbn [negb bind] in E;
      [|discriminate].
    destruct (Duplicates._detect_duplicates cfg data) as [a|];
      cbn [bind] in E; [|discriminate].
    injection E as <-.
    destruct (duplicates_score_clamped a) as [x Hx].
    apply (clamped_well_scored _ x); [exact Hx | reflexivity].
  - unfold well_scored. cbn. repeat split; try discriminate.
    left. split; reflexivity.
Qed.

Lemma outliers_well_scored (cfg : Outliers.OutliersConfig)
  (data : DataFrame) :
  well_scored (Outliers.execute cfg data).
Proof.
  unfold Outliers.execute, try_except.
  destruct (Outliers.execute_body cfg data) as [r|e] eqn:E.
  - unfold Outliers.execute_body in E.
    destruct (Outliers.validate_config cfg); cbn [negb bind] in E;
      [|discriminate].
    destruct (Outliers._detect_outliers cfg data) as [a|];
      cbn [bind] in E; [|discriminate].
    destruct (Outliers._calculate_quality_score a) as [q|] eqn:Eq;
      cbn [bind] in E; [|discriminate].
    injection E as <-.
    destruct (outliers_score_clamped a q Eq) as [x Hx].
    apply (clamped_well_scored _ x); [exact Hx | reflexivity].
  - unfold well_scored. cbn. repeat split; try discriminate.
    left. split; reflexivity.
Qed.

(** Through [run]: the score stays in [0, 1] in every case, and the result
    of an enabled check is again "error" with 0.0 or a rung of the
    ladder. *)
Lemma run_well_scored {C : Type} (K : QualityCheck C) (cfg : C)
  (data : DataFrame) (log : list event) :
  (exists valid, Base.validate_config K cfg = Return valid) ->
  (forall r, Base.execute K cfg data = Return r -> well_scored r) ->
  exists r log',
    run K cfg data log = (Return r, log')
    /\ 0 <= score r /\ score r <= 1
    /\ (enabled (config K cfg) = true -> well_scored r).
Proof.
  intros [valid Hvalid] Hexec.
  assert (Herror : forall message elapsed,
            well_scored (error_result K cfg message elapsed)).
  { intros message elapsed. unfold well_scored. cbn.
    repeat split; try discriminate. left. split; reflexivity. }
  destruct (enabled (config K cfg)) eqn:Hon.
  - destruct valid.
    + rewrite (BaseProps.run_valid K cfg data log Hon Hvalid).
      eexists; eexists. split; [reflexivity|].
      destruct (Base.execute K cfg data) as [r|e] eqn:E.
      * destruct (Hexec r eq_refl) as [H0 [H1 Hst]].
        split; [exact H0|]. split; [exact H1|]. intros _.
        unfold well_scored. cbn. tauto.
      * destruct (Herror (str_exn e) (time_end - time_start)%Q) as [H0 [H1 Hst]].
        split; [exact H0|]. split; [exact H1|]. intros _. apply Herror.
    + rewrite (BaseProps.run_invalid K cfg data log Hon Hvalid).
      eexists; eexists. split; [reflexivity|].
      destruct (Herror "Invalid configuration" 0.0%Q) as [H0 [H1 Hst]].
      split; [exact H0|]. split; [exact H1|]. intros _. apply Herror.
  - rewrite (BaseProps.run_disabled K cfg data log Hon).
    eexists; eexists. split; [reflexivity|]. cbn.
    split; [discriminate|]. split; [discriminate | discriminate].
Qed.

(** C7.  For every dataset and every configuration (valid or not), the
    result of each of the three checks has its score in [0, 1], and its
    status is either "error" (with score 0.0) or the one the cut points
    give: passed from 0.9, warning from 0.7, failed from 0.5, otherwise
    critical.  This holds of the result of [execute] and, for an enabled
    check, of the result of [run]. *)
Theorem scores_bounded_and_classified :
  (forall cfg data, well_scored (MissingValues.execute cfg data))
  /\ (forall cfg data, well_scored (Duplicates.execute cfg data))
  /\ (forall cfg data, well_scored (Outliers.execute cfg data))
  /\ (forall q,
        (0.9 <= q -> status_of_score q = "passed")
        /\ (0.7 <= q -> q < 0.9 -> status_of_score q = "warning")
        /\ (0.5 <= q -> q < 0.7 -> status_of_score q = "failed")
        /\ (q < 0.5 -> status_of_score q = "critical"))
  /\ (forall cfg data log,
        exists r log',
          run MissingValues.MissingValuesCheck cfg data log = (Return r, log')
          /\ 0 <= score r /\ score r <= 1
          /\ (enabled (MissingValues.base cfg) = true -> well_scored r))
  /\ (forall cfg data log,
        exists r log',
          run Duplicates.DuplicatesCheck cfg data log = (Return r, log')
          /\ 0 <= score r /\ score r <= 1
          /\ (enabled (Duplicates.base cfg) = true -> well_scored r))
  /\ (forall cfg data log,
        exists r log',
          run Outliers.OutliersCheck cfg data log = (Return r, log')
          /\ 0 <= score r /\ score r <= 1
          /\ (enabled (Outliers.base cfg) = true -> well_scored r)).
Proof.
  split; [exact missing_values_well_scored|].
  split; [exact duplicates_well_scored|].
  split; [exact outliers_well_scored|].
  split; [exact status_ladder|].
  split; [|split].
  - intros cfg data log. apply run_well_scored.
    + eexists. reflexivity.
    + intros r Hr. injection Hr as <-. apply missing_values_well_scored.
  - intros cfg data log. apply run_well_scored.
    + eexists. reflexivity.
    + intros r Hr. injection Hr as <-. apply duplicates_well_scored.
  - intros cfg data log. apply run_well_scored.
    + eexists. reflexivity.
    + intros r Hr. injection Hr as <-. apply outliers_well_scored.
Qed.

End Checks.

Lemma scores_bounded_and_classified_witness :
  well_scored (@MissingValues.execute sample_runtime
                 (MissingValues.init None) Cases.two_by_two)
  /\ well_scored (@Duplicates.execute sample_runtime
                    (Duplicates.init None) Cases.two_by_two)
  /\ well_scored (@Outliers.execute sample_runtime
                    (Outliers.init None) Cases.two_by_two)
  /\ status_of_score 0.95 = "passed"
  /\ status_of_score 0.8 = "warning"
  /\ status_of_score 0.6 = "failed"
  /\ status_of_score 0.2 = "critical".
Proof.
  destruct (@scores_bounded_and_classified sample_runtime)
    as [Hm [Hd [Ho [Hladder _]]]].
  split; [apply Hm|]. split; [apply Hd|]. split; [apply Ho|].
  split; [apply (Hladder 0.95); discriminate|].
  split; [apply (Hladder 0.8); [discriminate | reflexivity]|].
  split; [apply (Hladder 0.6); [discriminate | reflexivity]|].
  apply (Hladder 0.2). reflexivity.
Defined.
End ScoreProps.

(* ================================================================== *)
(** * Properties of the orchestrator *)

Module EngineProps.
Import Engine Cases.

(** C4 as stated fails: asked for the missing-values check, the
    orchestrator constructs it and calls its [execute]; a spy on [run]
    sees no call. *)
Lemma orchestrator_bypasses_run :
  snd (@_execute_check sample_runtime one_cell "missing_values" None [])
  = [Constructed "MissingValuesCheck"; Called "MissingValuesCheck" "execute"]
  /\ count_calls "MissingValuesCheck" "run"
       (snd (@_execute_check sample_runtime one_cell "missing_values" None []))
     = 0%nat
  /\ count_calls "MissingValuesCheck" "run"
       (snd (@run_quality_checks sample_runtime (mkEngine []) one_cell
               (Some ["missing_values"; "duplicates"; "outliers"]) None []))
     = 0%nat.
Proof.
  repeat split; vm_compute; reflexivity.
Qed.

Lemma count_calls_app (cls method : string) (log events : list event) :
  count_calls cls method (log ++ events)
  = (count_calls cls method log + count_calls cls method events)%nat.
Proof.
  unfold count_calls. rewrite filter_app, length_app. reflexivity.
Qed.

Section Orchestration.
Context `{Runtime}.
Variable data : DataFrame.
Variable custom_rules : option (list (string * string)).

Lemma missing_values_dispatch (log : list event) :
  _execute_check data "missing_values" custom_rules log
  = (Return (Some (MissingValues.execute (MissingValues.init None) data)),
     log ++ [Constructed "MissingValuesCheck";
             Called "MissingValuesCheck" "execute"]).
Proof.
  unfold _execute_check, try_exceptM, bindM, construct, call, ret. cbn.
  rewrite <- app_assoc. reflexivity.
Qed.

Lemma duplicates_dispatch (log : list event) :
  _execute_check data "duplicates" custom_rules log
  = (Return (Some (Duplicates.execute (Duplicates.init None) data)),
     log ++ [Constructed "DuplicatesCheck";
             Called "DuplicatesCheck" "execute"]).
Proof.
  unfold _execute_check, try_exceptM, bindM, construct, call, ret. cbn.
  rewrite <- app_assoc. reflexivity.
Qed.

Lemma outliers_dispatch (log : list event) :
  _execute_check data "outliers" custom_rules log
  = (Return (Some (Outliers.execute (Outliers.init None) data)),
     log ++ [Constructed "OutliersCheck";
             Called "OutliersCheck" "execute"]).
Proof.
  unfold _execute_check, try_exceptM, bindM, construct, call, ret. cbn.
  rewrite <- app_assoc. reflexivity.
Qed.

(** Whatever the requested type, one orchestrated check returns and
    adds no call of [run] to the log. *)
Lemma check_adds_no_run (check_type : string) (log : list event) :
  exists result events,
    _execute_check data check_type custom_rules log
    = (Return result, log ++ events)
    /\ forall cls, count_calls cls "run" events = 0%nat.
Proof.
  unfold _execute_check.
  destruct (String.eqb check_type "missing_values").
  { exists (Some (MissingValues.execute (MissingValues.init None) data)),
      [Constructed "MissingValuesCheck"; Called "MissingValuesCheck" "execute"].
    split.
    - unfold try_exceptM, bindM, construct, call, ret. cbn.
      rewrite <- app_assoc. reflexivity.
    - intros cls. unfold count_calls. cbn. rewrite andb_false_r. reflexivity. }
  destruct (String.eqb check_type "duplicates").
  { exists (Some (Duplicates.execute (Duplicates.init None) data)),
      [Constructed "DuplicatesCheck"; Called "DuplicatesCheck" "execute"].
    split.
    - unfold try_exceptM, bindM, construct, call, ret. cbn.
      rewrite <- app_assoc. reflexivity.
    - intros cls. unfold count_calls. cbn. rewrite andb_false_r. reflexivity. }
  destruct (String.eqb check_type "outliers").
  { exists (Some (Outliers.execute (Outliers.init None) data)),
      [Constructed "OutliersCheck"; Called "OutliersCheck" "execute"].
    split.
    - unfold try_exceptM, bindM, construct, call, ret. cbn.
      rewrite <- app_assoc. reflexivity.
    - intros cls. unfold count_calls. cbn. rewrite andb_false_r. reflexivity. }
  destruct (String.eqb check_type "data_types").
  { exists (Some placeholder_data_types), [].
    split; [cbn; rewrite app_nil_r; reflexivity | reflexivity]. }
  exists None, []. split; [cbn; rewrite app_nil_r; reflexivity | reflexivity].
Qed.

Lemma batch_adds_no_run (check_types : list string) :
  forall results log,
  exists results' events,
    execute_all data check_types custom_rules results log
    = (Return results', log ++ events)
    /\ forall cls, count_calls cls "run" events = 0%nat.
Proof.
  induction check_types as [|check_type rest IH]; intros results log.
  - exists results, []. split; [cbn; rewrite app_nil_r; reflexivity | reflexivity].
  - destruct (check_adds_no_run check_type log) as [r [ev1 [Hstep Hno1]]].
    cbn [execute_all]. unfold bindM at 1. rewrite Hstep.
    match goal with
    | |- context [execute_all data rest custom_rules ?res (log ++ ev1)] =>
        destruct (IH res (log ++ ev1)) as [results' [ev2 [Hrest Hno2]]]
    end.
    exists results', (ev1 ++ ev2). split.
    + rewrite Hrest, app_assoc. reflexivity.
    + intros cls. rewrite count_calls_app, Hno1, Hno2. reflexivity.
Qed.

End Orchestration.

(** C4, amended.  For each of the check types missing_values, duplicates
    and outliers the orchestrator constructs the check with its default
    configuration (nothing supplied reaches it) and calls the check's
    [execute] directly; for data_types it builds a fixed result without any
    check; it never calls [run], whatever types are requested, so the
    gating and timing of [run] take no part in an orchestrated
    execution. *)
Theorem orchestrator_calls_execute `{Runtime} (self : DataQualityEngine)
  (data : DataFrame) (check_types : option (list string))
  (custom_rules : option (list (string * string))) (log : list event) :
  _execute_check data "missing_values" custom_rules log
  = (Return (Some (MissingValues.execute (MissingValues.init None) data)),
     log ++ [Constructed "MissingValuesCheck";
             Called "MissingValuesCheck" "execute"])
  /\ _execute_check data "duplicates" custom_rules log
     = (Return (Some (Duplicates.execute (Duplicates.init None) data)),
        log ++ [Constructed "DuplicatesCheck";
                Called "DuplicatesCheck" "execute"])
  /\ _execute_check data "outliers" custom_rules log
     = (Return (Some (Outliers.execute (Outliers.init None) data)),
        log ++ [Constructed "OutliersCheck";
                Called "OutliersCheck" "execute"])
  /\ _execute_check data "data_types" custom_rules log
     = (Return (Some placeholder_data_types), log)
  /\ (exists out log',
        run_quality_checks self data check_types custom_rules log
        = (Return out, log')
        /\ forall cls,
             count_calls cls "run" log' = count_calls cls "run" log).
Proof.
  split; [apply missing_values_dispatch|].
  split; [apply duplicates_dispatch|].
  split; [apply outliers_dispatch|].
  split; [reflexivity|].
  unfold run_quality_checks.
  destruct (df_empty data).
  - eexists; eexists. split; [reflexivity | reflexivity].
  - match goal with
    | |- context [execute_all data ?req custom_rules []] =>
        destruct (batch_adds_no_run data custom_rules req [] log)
          as [results [events [Hrun Hno]]]
    end.
    unfold bindM. rewrite Hrun. cbn.
    eexists; eexists. split; [reflexivity|].
    intros cls. rewrite count_calls_app, Hno. lia.
Qed.

End EngineProps.

(* ================================================================== *)
(** * The cut points in binary64 *)

Module Binary64Props.
Import Binary64.

Local Open Scope float_scope.

Lemma float_ltb_leb (a b : float) :
  PrimFloat.ltb a b = true -> PrimFloat.leb a b = true.
Proof.
  rewrite ltb_spec, leb_spec. unfold SFltb, SFleb.
  destruct (SFcompare (Prim2SF a) (Prim2SF b)) as [[| |]|]; congruence.
Qed.

(** The clamp [max(0.0, min(1.0, x))] that ends the three scoring functions
    lands in [0, 1] for every binary64 [x], NaN and the infinities
    included. *)
Lemma clamp_in_unit_interval (x : float) :
  PrimFloat.leb 0.0 (py_max 0.0 (py_min 1.0 x)) = true
  /\ PrimFloat.leb (py_max 0.0 (py_min 1.0 x)) 1.0 = true.
Proof.
  unfold py_min. destruct (PrimFloat.ltb x 1.0) eqn:E1.
  - unfold py_max. destruct (PrimFloat.ltb 0.0 x) eqn:E0.
    + split; apply float_ltb_leb; assumption.
    + split; vm_compute; reflexivity.
  - split; vm_compute; reflexivity.
Qed.

(** The score of a complete dataset is the float 0.9 itself, so the test
    [quality_score >= 0.9] of the status ladder succeeds. *)
Lemma complete_score_is_nine_tenths :
  PrimFloat.eqb complete_score 0.9 = true
  /\ PrimFloat.leb 0.9 complete_score = true.
Proof. split; vm_compute; reflexivity. Qed.

(** 3 of 10 and 9 of 10 cells are the floats 0.3 and 0.9. *)
Lemma fractions_of_ten :
  PrimFloat.eqb (3 / 10) 0.3 = true /\ PrimFloat.eqb (9 / 10) 0.9 = true.
Proof. split; vm_compute; reflexivity. Qed.

(** The similarities of the fuzzy scenario fall on the same side of 0.6
    as their exact values. *)
Lemma fuzzy_scenario_sides :
  PrimFloat.leb 0.6 alice_alicia = true
  /\ PrimFloat.leb 0.6 against_bob = false.
Proof. split; vm_compute; reflexivity. Qed.

End Binary64Props.

(* ================================================================== *)
(** * When the checks report an error *)

Module ErrorProps.
Import ScoreFacts Notions CheckNotions.

Lemma graded_not_error (s : string) : graded s -> s <> "error".
Proof.
  intros [<- | [<- | [<- | [<- | []]]]]; discriminate.
Qed.

Lemma graded_ladder (q : Q) : graded (status_of_score q).
Proof.
  unfold graded, status_of_score.
  destruct (Qle_bool 0.9 q); [cbn; tauto|].
  destruct (Qle_bool 0.7 q); [cbn; tauto|].
  destruct (Qle_bool 0.5 q); cbn; tauto.
Qed.

Lemma dict_set_keys {V W} (key : string) (v : V) (w : W)
  (d : list (string * V)) (d' : list (string * W)) :
  map fst d = map fst d' ->
  map fst (dict_set key v d) = map fst (dict_set key w d').
Proof.
  revert d'. induction d as [|[k x] d IH]; intros [|[k' x'] d'] Hkeys;
    try discriminate; [reflexivity|].
  cbn in Hkeys. injection Hkeys as <- Hrest. cbn.
  destruct (String.eqb k key); cbn; [rewrite Hrest; reflexivity|].
  rewrite (IH d' Hrest). reflexivity.
Qed.

Lemma dict_find_key {V} (key : string) (d : list (string * V)) :
  In key (map fst d) -> exists v, dict_find key d = Some v.
Proof.
  induction d as [|[k x] d IH]; cbn; [tauto|].
  intros [<- | Hin].
  - rewrite String.eqb_refl. eauto.
  - destruct (String.eqb k key); [eauto | exact (IH Hin)].
Qed.

Section MissingValues.
Import MissingValues.
Context `{Runtime}.
Variable cfg : MissingValuesConfig.

Lemma analyze_columns_keys (data : DataFrame) :
  forall cols counts pcts n counts' pcts' n',
    map fst counts = map fst pcts ->
    analyze_columns cfg data cols counts pcts n = Return (counts', pcts', n') ->
    map fst counts' = map fst pcts'.
Proof.
  induction cols as [|[column series] cols IH];
    intros counts pcts n counts' pcts' n' Hkeys Hrun.
  - cbn in Hrun. injection Hrun as <- <- _. exact Hkeys.
  - cbn [analyze_columns] in Hrun.
    destruct (py_div _ _) as [pct|]; cbn [bind] in Hrun; [|discriminate].
    apply (IH _ _ _ _ _ _ (dict_set_keys column _ _ _ _ Hkeys) Hrun).
Qed.

Lemma analysis_keys (data : DataFrame) (a : Analysis) :
  _analyze_missing_values cfg data = Return a ->
  map fst (missing_counts a) = map fst (missing_percentages a).
Proof.
  unfold _analyze_missing_values.
  destruct (analyze_columns cfg data (columns data) [] [] 0)
    as [[[counts pcts] n]|] eqn:Eloop; cbn [bind]; [|discriminate].
  pose proof (analyze_columns_keys data (columns data) [] [] 0%nat counts pcts n
                eq_refl Eloop) as Hkeys.
  destruct (py_div _ _); cbn [bind]; [|discriminate].
  destruct (suggest_imputation cfg).
  - destruct (_generate_imputation_recommendations cfg _); cbn [bind];
      [|discriminate].
    intros Ha. injection Ha as <-. exact Hkeys.
  - intros Ha. injection Ha as <-. exact Hkeys.
Qed.

Lemma details_return (a : Analysis) :
  map fst (missing_counts a) = map fst (missing_percentages a) ->
  exists d, _generate_details cfg a = Return d.
Proof.
  intros Hkeys. unfold _generate_details.
  assert (Hrows : forall l,
            incl (map fst l) (map fst (missing_percentages a)) ->
            exists rows,
              mapM (fun cc : string * nat =>
                      pct <- dict_get (fst cc) (missing_percentages a) ;;
                      Return (fst cc,
                              DDict [("missing_count", DInt (Z.of_nat (snd cc)));
                                     ("missing_percentage",
                                      DStr (format_percent 2 pct));
                                     ("status", DStr (column_status cfg pct))]))
                l = Return rows).
  { induction l as [|cc l IH]; intros Hsub; [eexists; reflexivity|].
    cbn [mapM]. unfold dict_get at 1.
    destruct (dict_find_key (fst cc) (missing_percentages a)) as [pct Hpct].
    { apply Hsub. left. reflexivity. }
    rewrite Hpct. cbn [bind].
    destruct IH as [rows Hrest].
    { intros k Hk. apply Hsub. right. exact Hk. }
    rewrite Hrest. cbn [bind]. eexists. reflexivity. }
  destruct (Hrows (filter (fun cc => (0 <? snd cc)%nat) (missing_counts a)))
    as [rows Hr].
  { rewrite <- Hkeys. intros k Hk. apply in_map_iff in Hk.
    destruct Hk as [cc [<- Hcc]]. apply filter_In in Hcc.
    apply in_map. tauto. }
  rewrite Hr. cbn [bind]. eexists. reflexivity.
Qed.

(** With a valid configuration and pattern analysis on, the check
    succeeds on every non-empty dataset. *)
Lemma missing_values_succeeds (data : DataFrame) :
  validate_config cfg = true ->
  analyze_patterns cfg = true ->
  df_empty data = false ->
  exists a q d,
    _analyze_missing_values cfg data = Return a
    /\ _calculate_quality_score a = Return q
    /\ execute cfg data
    = {| r_check_name := "Missing Values Analysis";
         r_check_type := "missing_values";
         status := status_of_score q;
         score := q;
         details := d;
         execution_time := (time_end - time_start)%Q;
         timestamp := isoformat_now;
         affected_rows := Some (nrows data);
         affected_columns := Some (map fst (columns data));
         recommendations := None |}.
Proof.
  intros Hvalid Hon Hdata.
  destruct (MissingValuesProps.analysis_returns cfg data Hdata Hon)
    as [a [Hrun [Hrows [Hcols [_ [_ [_ Hpatterns]]]]]]].
  assert (Hncols : List.length (columns data) <> 0%nat).
  { unfold df_empty in Hdata. apply orb_false_elim in Hdata.
    destruct Hdata as [_ Hc]. apply Nat.eqb_neq in Hc. exact Hc. }
  assert (Hscore : exists q, _calculate_quality_score a = Return q).
  { unfold _calculate_quality_score, dict_get.
    rewrite Hcols, Hpatterns, MissingValuesProps.systematic_key.
    rewrite (py_div_Qnat _ Hncols). cbn [bind]. eexists. reflexivity. }
  destruct Hscore as [q Hq].
  destruct (details_return a (analysis_keys data a Hrun)) as [d Hd].
  exists a, q, d. split; [exact Hrun|]. split; [exact Hq|].
  unfold execute, execute_body.
  rewrite Hvalid. cbn [negb bind]. rewrite Hrun. cbn [bind].
  rewrite Hq. cbn [bind]. rewrite Hd. cbn [bind try_except].
  rewrite Hrows. reflexivity.
Qed.

Lemma missing_values_empty (data : DataFrame) :
  validate_config cfg = true ->
  df_empty data = true ->
  execute cfg data = failure ZeroDivisionError.
Proof.
  intros Hvalid Hdata. unfold execute, execute_body.
  rewrite Hvalid. cbn [negb bind]. unfold _analyze_missing_values.
  destruct (Nat.eq_dec (nrows data) 0) as [Hrows | Hrows].
  - destruct (columns data) as [|[column series] cols] eqn:Hcols.
    + cbn. rewrite Hrows. reflexivity.
    + rewrite (MissingValuesProps.analyze_columns_no_rows cfg data Hrows).
      reflexivity.
  - destruct (MissingValuesProps.analyze_columns_returns cfg data Hrows
                (columns data) [] [] 0%nat) as [pcts' Hloop].
    rewrite Hloop. cbn [bind].
    unfold df_empty in Hdata. apply orb_true_iff in Hdata.
    destruct Hdata as [Hz | Hz]; apply Nat.eqb_eq in Hz; [contradiction|].
    rewrite Hz, Nat.mul_0_r. reflexivity.
Qed.

Lemma missing_values_invalid (data : DataFrame) :
  validate_config cfg = false ->
  execute cfg data = failure (ValueError "Invalid configuration").
Proof.
  intros Hbad. unfold execute, execute_body. rewrite Hbad. reflexivity.
Qed.

End MissingValues.

(** X1.  On a well-formed dataset the missing-values check reports
    "error" exactly when its configuration is invalid, when the pattern
    analysis is switched off, or when the dataset has no rows or no
    columns.  An invalid configuration is reported as "Invalid
    configuration" and an empty dataset as "division by zero"; every other
    result has a status of the ladder and carries the number of rows and
    the names of all columns. *)
Theorem missing_values_error_cases `{Runtime}
  (cfg : MissingValues.MissingValuesConfig) (data : DataFrame) :
  frame_ok data ->
  (status (MissingValues.execute cfg data) = "error"
   <-> MissingValues.validate_config cfg = false
       \/ MissingValues.analyze_patterns cfg = false
       \/ df_empty data = true)
  /\ (MissingValues.validate_config cfg = false ->
      details (MissingValues.execute cfg data)
      = [("error", DStr "Invalid configuration")])
  /\ (MissingValues.validate_config cfg = true -> df_empty data = true ->
      details (MissingValues.execute cfg data)
      = [("error", DStr "division by zero")])
  /\ (status (MissingValues.execute cfg data) <> "error" ->
      graded (status (MissingValues.execute cfg data))
      /\ affected_rows (MissingValues.execute cfg data) = Some (nrows data)
      /\ affected_columns (MissingValues.execute cfg data)
         = Some (map fst (columns data))).
Proof.
  intros _.
  destruct (MissingValues.validate_config cfg) eqn:Hvalid.
  2:{ rewrite (missing_values_invalid cfg data Hvalid). cbn.
      split; [tauto|]. split; [reflexivity|].
      split; [discriminate | congruence]. }
  destruct (df_empty data) eqn:Hdata.
  { rewrite (missing_values_empty cfg data Hvalid Hdata). cbn.
    split; [tauto|]. split; [discriminate|].
    split; [reflexivity | congruence]. }
  destruct (MissingValues.analyze_patterns cfg) eqn:Hon.
  - destruct (missing_values_succeeds cfg data Hvalid Hon Hdata)
      as [a [q [d [_ [_ Hrun]]]]].
    rewrite Hrun. cbn.
    pose proof (graded_not_error _ (graded_ladder q)) as Hne.
    split; [split; [contradiction | intros [E | [E | E]]; discriminate]|].
    split; [discriminate|]. split; [discriminate|].
    intros _. split; [apply graded_ladder | split; reflexivity].
  - destruct (MissingValuesProps.patterns_off_execute cfg data Hon)
      as [Hstatus _].
    rewrite Hstatus.
    split; [tauto|]. split; [discriminate|].
    split; [discriminate | congruence].
Qed.


Lemma missing_values_error_cases_witness :
  status (@MissingValues.execute sample_runtime (MissingValues.init None)
            (mkFrame 3 []))
  = "error"
  /\ details (@MissingValues.execute sample_runtime (MissingValues.init None)
                (mkFrame 3 []))
     = [("error", DStr "division by zero")]
  /\ graded (status (@MissingValues.execute sample_runtime
                       (MissingValues.init None) Cases.two_by_two)).
Proof.
  assert (Hok : frame_ok (mkFrame 3 [])) by (split; constructor).
  destruct (@missing_values_error_cases sample_runtime (MissingValues.init None)
              (mkFrame 3 []) Hok) as [Herror [_ [Hzero _]]].
  destruct (@missing_values_error_cases sample_runtime (MissingValues.init None)
              Cases.two_by_two MissingValuesProps.two_by_two_ok)
    as [_ [_ [_ Hgood]]].
  split; [apply Herror; right; right; reflexivity|].
  split; [apply Hzero; reflexivity|].
  apply Hgood. discriminate.
Defined.

Section Duplicates.
Import Duplicates.
Context `{Runtime}.
Variable cfg : DuplicatesConfig.

Lemma duplicates_invalid (data : DataFrame) :
  validate_config cfg = false ->
  execute cfg data = failure (ValueError "Invalid configuration").
Proof.
  intros Hbad. unfold execute, execute_body. rewrite Hbad. reflexivity.
Qed.

Lemma duplicates_no_rows (data : DataFrame) :
  validate_config cfg = true ->
  nrows data = 0%nat ->
  execute cfg data = failure ZeroDivisionError.
Proof.
  intros Hvalid Hrows. unfold execute, execute_body.
  rewrite Hvalid. cbn [negb bind]. unfold _detect_duplicates.
  rewrite Hrows, py_div_zero. reflexivity.
Qed.

(** What the recommendations step does with the analysis it is given. *)
Lemma recommendations_outcome (a : Analysis) :
  match exact_duplicates a, fuzzy_duplicates a, business_key_duplicates a,
        duplicate_patterns a with
  | Some _, Some _, Some _, Some _ =>
      exists recs, _generate_deduplication_recommendations a = Return recs
  | Some _, Some _, Some _, None =>
      _generate_deduplication_recommendations a
      = Raise (KeyError "systematic_duplicates")
  | _, _, _, _ =>
      _generate_deduplication_recommendations a = Raise (KeyError "total_groups")
  end.
Proof.
  unfold _generate_deduplication_recommendations.
  destruct (exact_duplicates a); cbn [total_groups_item bind]; [|reflexivity].
  destruct (fuzzy_duplicates a); cbn [total_groups_item bind]; [|reflexivity].
  destruct (business_key_duplicates a); cbn [total_groups_item bind];
    [|reflexivity].
  destruct (duplicate_patterns a); cbn [bind]; [|reflexivity].
  eexists. reflexivity.
Qed.

(** The result of [execute] with a valid configuration is read off the
    analysis, and an analysis that fails is reported. *)
Lemma duplicates_ran (data : DataFrame) :
  validate_config cfg = true ->
  execute cfg data
  = match _detect_duplicates cfg data with
    | Return a =>
        {| r_check_name := "Duplicate Detection Analysis";
           r_check_type := "duplicates";
           status := status_of_score (_calculate_quality_score a);
           score := _calculate_quality_score a;
           details := _generate_details a;
           execution_time := (time_end - time_start)%Q;
           timestamp := isoformat_now;
           affected_rows := Some (total_duplicate_rows a);
           affected_columns := Some (map fst (columns data));
           recommendations := None |}
    | Raise e => failure e
    end.
Proof.
  intros Hvalid. unfold execute, execute_body.
  rewrite Hvalid. cbn [negb bind].
  destruct (_detect_duplicates cfg data); reflexivity.
Qed.

(** Recommendations without all four results: the analysis fails, in the
    recommendations at the latest. *)
Lemma unsupplied_raises (data : DataFrame) :
  suggest_deduplication cfg = true ->
  recommendations_supplied cfg = false ->
  exists e, _detect_duplicates cfg data = Raise e.
Proof.
  intros Hsuggest Hsupplied. unfold _detect_duplicates.
  destruct (py_div _ _) as [pct|e]; cbn [bind]; [|eexists; reflexivity].
  match goal with
  | |- exists e, bind ?m _ = _ =>
      destruct m as [patterns|e] eqn:Hpatterns; cbn [bind];
      [|eexists; reflexivity]
  end.
  rewrite Hsuggest.
  match goal with
  | |- context [_generate_deduplication_recommendations ?a] =>
      pose proof (recommendations_outcome a) as Hrecs
  end.
  cbn [exact_duplicates fuzzy_duplicates business_key_duplicates
       duplicate_patterns] in Hrecs.
  unfold recommendations_supplied in Hsupplied.
  destruct (exact_matching cfg), (fuzzy_matching cfg),
    (business_key_matching cfg);
    try (rewrite Hrecs; cbn [bind]; eexists; reflexivity).
  destruct (analyze_duplicate_patterns cfg); [discriminate Hsupplied|].
  injection Hpatterns as <-.
  rewrite Hrecs. cbn [bind]. eexists. reflexivity.
Qed.

(** A lookup of the collected rows that fails is what the check
    reports. *)
Lemma failed_lookup (data : DataFrame) (e : exn) :
  validate_config cfg = true ->
  nrows data <> 0%nat ->
  analyze_duplicate_patterns cfg = true ->
  collected_rows cfg data <> [] ->
  df_loc data (collected_rows cfg data) = Raise e ->
  execute cfg data = failure e.
Proof.
  intros Hvalid Hrows Hon Hsome Hloc.
  rewrite (duplicates_ran data Hvalid). unfold _detect_duplicates.
  rewrite (py_div_Qnat _ Hrows). cbn [bind]. rewrite Hon.
  fold (collected_rows cfg data).
  unfold _analyze_duplicate_patterns.
  destruct (collected_rows cfg data) as [|row rows] eqn:Erows;
    [contradiction|].
  rewrite Hloc. reflexivity.
Qed.

End Duplicates.

(** X2.  On a well-formed dataset with at least one column the
    duplicates check always reports "error" with score 0.0 in three
    situations: its configuration is invalid ("Invalid configuration");
    the dataset has no rows ("division by zero"); or recommendations are
    asked for while one of the exact, fuzzy or business-key methods or the
    pattern analysis is switched off, because the recommendations then
    look up a result that was never produced.  A result that is not an
    error has a status of the ladder and names all columns. *)
Theorem duplicates_error_cases `{Runtime} (cfg : Duplicates.DuplicatesConfig)
  (data : DataFrame) :
  frame_ok data ->
  columns data <> [] ->
  (Duplicates.validate_config cfg = false ->
   status (Duplicates.execute cfg data) = "error"
   /\ score (Duplicates.execute cfg data) == 0
   /\ details (Duplicates.execute cfg data)
      = [("error", DStr "Invalid configuration")])
  /\ (Duplicates.validate_config cfg = true -> nrows data = 0%nat ->
      status (Duplicates.execute cfg data) = "error"
      /\ score (Duplicates.execute cfg data) == 0
      /\ details (Duplicates.execute cfg data)
         = [("error", DStr "division by zero")])
  /\ (Duplicates.suggest_deduplication cfg = true ->
      recommendations_supplied cfg = false ->
      status (Duplicates.execute cfg data) = "error"
      /\ score (Duplicates.execute cfg data) == 0)
  /\ (status (Duplicates.execute cfg data) <> "error" ->
      graded (status (Duplicates.execute cfg data))
      /\ affected_columns (Duplicates.execute cfg data)
         = Some (map fst (columns data))).
Proof.
  intros _ _.
  destruct (Duplicates.validate_config cfg) eqn:Hvalid.
  2:{ rewrite (duplicates_invalid cfg data Hvalid). cbn.
      split; [intros _; repeat split; reflexivity|].
      split; [discriminate|].
      split; [intros _ _; split; reflexivity | congruence]. }
  destruct (Nat.eq_dec (nrows data) 0) as [Hrows | Hrows].
  { rewrite (duplicates_no_rows cfg data Hvalid Hrows). cbn.
    split; [discriminate|].
    split; [intros _ _; repeat split; reflexivity|].
    split; [intros _ _; split; reflexivity | congruence]. }
  rewrite (duplicates_ran cfg data Hvalid).
  destruct (Duplicates._detect_duplicates cfg data) as [a|e] eqn:Hrun.
  - cbn. split; [discriminate|]. split; [contradiction|]. split.
    + intros Hsuggest Hsupplied.
      destruct (unsupplied_raises cfg data Hsuggest Hsupplied) as [e He].
      rewrite He in Hrun. discriminate Hrun.
    + intros _. split; [apply graded_ladder | reflexivity].
  - cbn. split; [discriminate|]. split; [contradiction|].
    split; [intros _ _; split; reflexivity | congruence].
Qed.

Lemma duplicates_error_cases_witness :
  status (@Duplicates.execute sample_runtime exact_off Cases.two_by_two)
  = "error"
  /\ score (@Duplicates.execute sample_runtime exact_off Cases.two_by_two) == 0
  /\ graded (status (@Duplicates.execute sample_runtime (Duplicates.init None)
                       Cases.two_by_two)).
Proof.
  destruct (@duplicates_error_cases sample_runtime exact_off Cases.two_by_two
              MissingValuesProps.two_by_two_ok ltac:(discriminate))
    as [_ [_ [Herror _]]].
  destruct (@duplicates_error_cases sample_runtime (Duplicates.init None)
              Cases.two_by_two MissingValuesProps.two_by_two_ok
              ltac:(discriminate))
    as [_ [_ [_ Hgood]]].
  destruct (Herror eq_refl eq_refl) as [Hstatus Hscore].
  split; [exact Hstatus|]. split; [exact Hscore|].
  apply Hgood. discriminate.
Defined.

Section Outliers.
Import Outliers.
Context `{Runtime}.
Variable cfg : OutliersConfig.

Lemma for_columns_return (step : string -> Acc -> outcome Acc)
  (numeric_columns : list string) :
  (forall column acc, In column numeric_columns ->
                      exists acc', step column acc = Return acc') ->
  forall acc, exists acc', for_columns step numeric_columns acc = Return acc'.
Proof.
  induction numeric_columns as [|column rest IH]; intros Hstep acc.
  - eexists. reflexivity.
  - cbn [for_columns].
    destruct (Hstep column acc (or_introl eq_refl)) as [acc1 H1].
    rewrite H1. cbn [bind]. apply IH.
    intros c a Hc. apply Hstep. right. exact Hc.
Qed.

Lemma resolves_inv (data : DataFrame) (column : string) :
  resolves data column = true ->
  exists series clean,
    df_col data column = Return series /\ dropna series = Return clean.
Proof.
  unfold resolves. destruct (df_col data column) as [series|]; [|discriminate].
  destruct (dropna series) as [clean|] eqn:Eclean; [|discriminate].
  intros _. exists series, clean. split; [reflexivity | exact Eclean].
Qed.

Lemma zscore_column_returns (data : DataFrame) (column : string) (acc : Acc) :
  resolves data column = true ->
  exists acc', zscore_column cfg data column acc = Return acc'.
Proof.
  intros Hres. destruct (resolves_inv data column Hres)
    as [series [clean [Hcol Hclean]]].
  unfold zscore_column. rewrite Hcol. cbn [bind]. rewrite Hclean. cbn [bind].
  destruct clean; eexists; reflexivity.
Qed.

Lemma iqr_column_returns (data : DataFrame) (column : string) (acc : Acc) :
  resolves data column = true ->
  exists acc', iqr_column cfg data column acc = Return acc'.
Proof.
  intros Hres. destruct (resolves_inv data column Hres)
    as [series [clean [Hcol Hclean]]].
  unfold iqr_column. rewrite Hcol. cbn [bind]. rewrite Hclean. cbn [bind].
  destruct clean; [eexists; reflexivity|].
  destruct (quantile _ 0.25); [|eexists; reflexivity].
  destruct (quantile _ 0.75); eexists; reflexivity.
Qed.

Lemma methods_return (data : DataFrame) (numeric_columns : list string) :
  forallb (resolves data) numeric_columns = true ->
  (exists r, _detect_zscore_outliers cfg data numeric_columns = Return r)
  /\ (exists r, _detect_iqr_outliers cfg data numeric_columns = Return r)
  /\ (exists r, _detect_modified_zscore_outliers cfg data numeric_columns
                = Return r).
Proof.
  intros Hall. pose proof Hall as Hres. rewrite forallb_forall in Hres.
  split; [|split].
  - unfold _detect_zscore_outliers.
    destruct (for_columns_return (zscore_column cfg data) numeric_columns
                (fun column acc Hin =>
                   zscore_column_returns data column acc (Hres column Hin))
                ([], [])) as [acc Hacc].
    rewrite Hacc. cbn [bind]. eexists. reflexivity.
  - unfold _detect_iqr_outliers.
    destruct (for_columns_return (iqr_column cfg data) numeric_columns
                (fun column acc Hin =>
                   iqr_column_returns data column acc (Hres column Hin))
                ([], [])) as [acc Hacc].
    rewrite Hacc. cbn [bind]. eexists. reflexivity.
  - unfold _detect_modified_zscore_outliers.
    destruct (proj1 (OutliersProps.loop_no_division_error cfg data
                       numeric_columns ([], [])) Hall) as [acc Hacc].
    rewrite Hacc. cbn [bind]. eexists. reflexivity.
Qed.

Lemma numbers_selected (series : Series) (rows : list nat) :
  forallb is_number series = true ->
  forallb is_number (map (fun i => nth i series NaN) rows) = true.
Proof.
  intros Hnum. apply forallb_forall. intros c Hc.
  apply in_map_iff in Hc. destruct Hc as [i [<- _]].
  destruct (Nat.lt_ge_cases i (List.length series)) as [Hi | Hi].
  - rewrite forallb_forall in Hnum. apply Hnum, nth_In, Hi.
  - rewrite nth_overflow by exact Hi. reflexivity.
Qed.

Lemma patterns_return (data : DataFrame) (rows : list nat) :
  frame_ok data ->
  exists p, _analyze_outlier_patterns data rows (select_numeric data) = Return p
            /\ (outlier_clusters p = []
                \/ dict_find "rows_with_multiple_outliers" (outlier_clusters p)
                   = Some 0%nat).
Proof.
  intros [_ Hnd]. unfold _analyze_outlier_patterns.
  destruct rows as [|row rows]; [eexists; split; [reflexivity | left; reflexivity]|].
  set (picked := row :: rows).
  match goal with
  | |- exists p, bind (?loop _ _) _ = _ /\ _ =>
      assert (Hloop : forall cols acc,
                incl cols (select_numeric data) ->
                exists distribution, loop cols acc = Return distribution)
  end.
  { induction cols as [|column rest IH]; intros acc Hsub;
      [eexists; reflexivity|].
    assert (Hrest : incl rest (select_numeric data))
      by (intros c Hc; apply Hsub; right; exact Hc).
    assert (Hin : In column (select_numeric data))
      by (apply Hsub; left; reflexivity).
    unfold select_numeric in Hin. apply in_map_iff in Hin.
    destruct Hin as [[label series] [Hlabel Hin]]. cbn [fst] in Hlabel.
    subst label. apply filter_In in Hin. destruct Hin as [Hin Hnum].
    cbn [snd] in Hnum.
    cbv beta iota.
    rewrite (@OutliersProps.dict_find_first Series column series
               (columns data) Hnd Hin).
    destruct (OutliersProps.dropna_numbers _ (numbers_selected series picked Hnum) 0)
      as [clean Hclean].
    unfold dropna. rewrite Hclean. cbn [bind].
    destruct (map snd clean); apply IH; exact Hrest. }
  destruct (Hloop (select_numeric data) [] (incl_refl _)) as [distribution Hd].
  rewrite Hd. cbn [bind]. eexists. split; [reflexivity|].
  right. reflexivity.
Qed.

Lemma treatment_returns (a : Analysis) :
  exists recs, _generate_treatment_recommendations a = Return recs.
Proof.
  unfold _generate_treatment_recommendations, rows_with_multiple_outliers.
  destruct (outlier_patterns a) as [p|]; cbn.
  - unfold dict_get. destruct (dict_find _ _); cbn; eexists; reflexivity.
  - eexists. reflexivity.
Qed.

Lemma clusters_shape (data : DataFrame) (rows : list nat)
  (numeric_columns : list string) (p : Patterns) :
  _analyze_outlier_patterns data rows numeric_columns = Return p ->
  outlier_clusters p = []
  \/ dict_find "rows_with_multiple_outliers" (outlier_clusters p) = Some 0%nat.
Proof.
  unfold _analyze_outlier_patterns. destruct rows as [|row rows].
  - intros Hp. injection Hp as <-. left. reflexivity.
  - match goal with
    | |- bind ?m _ = _ -> _ => destruct m; cbn [bind]; [|discriminate]
    end.
    intros Hp. injection Hp as <-. right. reflexivity.
Qed.

Lemma no_clusters_shape (a : Analysis) :
  match outlier_patterns a with
  | None => True
  | Some p =>
      outlier_clusters p = []
      \/ dict_find "rows_with_multiple_outliers" (outlier_clusters p) = Some 0%nat
  end ->
  no_clusters a.
Proof.
  unfold no_clusters, rows_with_multiple_outliers.
  destruct (outlier_patterns a) as [p|]; [|intros _; right; eauto].
  unfold dict_get. intros [-> | ->]; [right; cbn; eauto | left; reflexivity].
Qed.

Lemma advice_kept_out (b : bool) (l extra : list string) :
  ~ In pattern_advice l -> ~ In pattern_advice extra ->
  ~ In pattern_advice (if b then l ++ extra else l).
Proof.
  intros Hl Hextra. destruct b; [|exact Hl].
  rewrite in_app_iff. tauto.
Qed.

Lemma treatment_without_pattern_advice (a : Analysis) (recs : list string) :
  no_clusters a ->
  _generate_treatment_recommendations a = Return recs ->
  ~ In pattern_advice recs.
Proof.
  intros Hno. unfold _generate_treatment_recommendations.
  assert (Hskip : forall base : list string,
            unless_key_or_type_error
              (n <- rows_with_multiple_outliers a ;;
               Return (if (0 <? n)%nat
                       then base ++ [pattern_advice]
                       else base)) base = Return base).
  { intros base. destruct Hno as [-> | [key ->]]; reflexivity. }
  unfold pattern_advice in Hskip. rewrite Hskip. cbn [bind].
  intros Hr. injection Hr as <-.
  repeat (apply advice_kept_out;
          [|unfold pattern_advice; cbn; intuition discriminate]).
  unfold pattern_advice.
  destruct (Qlt_bool 0.1 (outlier_percentage a));
    [|destruct (Qlt_bool 0.05 (outlier_percentage a))];
    cbn; intuition discriminate.
Qed.

Lemma detected_shape (data : DataFrame) (a : Analysis) :
  _detect_outliers cfg data = Return a ->
  no_clusters a /\ ~ In pattern_advice (a_recommendations a).
Proof.
  unfold _detect_outliers.
  destruct (select_numeric data) as [|column columns'] eqn:Hnum.
  - intros Ha. injection Ha as <-. cbn. split; [|tauto].
    right. exists "outlier_clusters". reflexivity.
  - cbv zeta.
    repeat match goal with
           | |- bind ?m _ = _ -> _ =>
               destruct m as [?|] eqn:?; cbn [bind]; [|discriminate]
           end.
    match goal with
    | Hp : (if analyze_outlier_patterns cfg then _ else _) = Return ?p |- _ =>
        assert (Hshape : match p with
                         | None => True
                         | Some p =>
                             outlier_clusters p = []
                             \/ dict_find "rows_with_multiple_outliers"
                                  (outlier_clusters p) = Some 0%nat
                         end)
    end.
    { destruct (analyze_outlier_patterns cfg).
      - match goal with
        | Hp : bind ?m _ = Return _ |- _ =>
            destruct m as [p|] eqn:Ep; cbn [bind] in Hp; [|discriminate];
            injection Hp as <-; exact (clusters_shape _ _ _ _ Ep)
        end.
      - match goal with
        | Hp : Return None = Return _ |- _ => injection Hp as <-; exact I
        end. }
    destruct (suggest_treatment cfg).
    + match goal with
      | |- bind ?m _ = _ -> _ =>
          destruct m as [recs|] eqn:Erecs; cbn [bind]; [|discriminate]
      end.
      intros Ha. injection Ha as <-.
      split; [apply no_clusters_shape; exact Hshape|].
      cbn [a_recommendations].
      refine (treatment_without_pattern_advice _ recs _ Erecs).
      apply no_clusters_shape. exact Hshape.
    + intros Ha. injection Ha as <-.
      split; [apply no_clusters_shape; exact Hshape | cbn; tauto].
Qed.

Lemma detect_outliers_returns (data : DataFrame) :
  frame_ok data ->
  nrows data <> 0%nat ->
  not_sampled cfg data = true ->
  exists a, _detect_outliers cfg data = Return a
            /\ numeric_columns a = select_numeric data.
Proof.
  intros Hok Hrows Hns. unfold _detect_outliers.
  destruct (select_numeric data) as [|column columns'] eqn:Hnum.
  { eexists. split; reflexivity. }
  rewrite <- Hnum. cbv zeta.
  unfold not_sampled in Hns. apply negb_true_iff in Hns. rewrite Hns.
  cbv beta iota.
  destruct (methods_return data (select_numeric data)
              (OutliersProps.select_numeric_resolves data Hok))
    as [[rz Hz] [[ri Hi] [rm Hm]]].
  rewrite Hz, Hi, Hm.
  destruct (zscore_method cfg), (iqr_method cfg), (modified_zscore cfg);
    cbn [bind]; rewrite (py_div_Qnat _ Hrows); cbn [bind];
    (destruct (analyze_outlier_patterns cfg);
     [match goal with
      | |- context [_analyze_outlier_patterns data ?rows (select_numeric data)] =>
          destruct (patterns_return data rows Hok) as [p [Hp _]]; rewrite Hp
      end|]);
    cbn [bind];
    (destruct (suggest_treatment cfg);
     [match goal with
      | |- context [_generate_treatment_recommendations ?a] =>
          destruct (treatment_returns a) as [recs Hr]; rewrite Hr
      end|]);
    cbn [bind]; eexists; split; reflexivity.
Qed.

Lemma outliers_invalid (data : DataFrame) :
  validate_config cfg = false ->
  execute cfg data = failure (ValueError "Invalid configuration").
Proof.
  intros Hbad. unfold execute, execute_body. rewrite Hbad. reflexivity.
Qed.

Lemma outliers_succeeds (data : DataFrame) :
  validate_config cfg = true ->
  frame_ok data ->
  nrows data <> 0%nat ->
  not_sampled cfg data = true ->
  exists a q,
    _detect_outliers cfg data = Return a
    /\ _calculate_quality_score a = Return q
    /\ execute cfg data
       = {| r_check_name := "Outlier Detection Analysis";
            r_check_type := "outliers";
            status := status_of_score q;
            score := q;
            details := _generate_details a;
            execution_time := (time_end - time_start)%Q;
            timestamp := isoformat_now;
            affected_rows := Some (total_outlier_rows a);
            affected_columns := Some (select_numeric data);
            recommendations := None |}.
Proof.
  intros Hvalid Hok Hrows Hns.
  destruct (detect_outliers_returns data Hok Hrows Hns) as [a [Ha Hcols]].
  destruct (ScoreProps.outliers_score_returns a) as [q Hq].
  exists a, q. split; [exact Ha|]. split; [exact Hq|].
  unfold execute, execute_body. rewrite Hvalid. cbn [negb bind].
  rewrite Ha. cbn [bind]. rewrite Hq. cbn [bind try_except].
  rewrite Hcols. reflexivity.
Qed.

End Outliers.


(** X3.  On a well-formed dataset with rows that is analysed whole (no
    sampling), the outliers check reports "error" exactly when its
    configuration is invalid, with the message "Invalid configuration";
    otherwise its status is one of the ladder and it names the numeric
    columns.  Without any numeric column it scores 1.0, passes and
    reports 0 affected rows. *)
Theorem outliers_error_only_when_invalid `{Runtime}
  (cfg : Outliers.OutliersConfig) (data : DataFrame) :
  frame_ok data ->
  nrows data <> 0%nat ->
  not_sampled cfg data = true ->
  (status (Outliers.execute cfg data) = "error"
   <-> Outliers.validate_config cfg = false)
  /\ (Outliers.validate_config cfg = false ->
      details (Outliers.execute cfg data)
      = [("error", DStr "Invalid configuration")])
  /\ (Outliers.validate_config cfg = true ->
      graded (status (Outliers.execute cfg data))
      /\ affected_columns (Outliers.execute cfg data)
         = Some (Outliers.select_numeric data))
  /\ (Outliers.validate_config cfg = true ->
      Outliers.select_numeric data = [] ->
      score (Outliers.execute cfg data) == 1
      /\ status (Outliers.execute cfg data) = "passed"
      /\ affected_rows (Outliers.execute cfg data) = Some 0%nat).
Proof.
  intros Hok Hrows Hns.
  destruct (Outliers.validate_config cfg) eqn:Hvalid.
  2:{ rewrite (outliers_invalid cfg data Hvalid). cbn.
      split; [tauto|]. split; [reflexivity|].
      split; discriminate. }
  destruct (outliers_succeeds cfg data Hvalid Hok Hrows Hns)
    as [a [q [Ha [Hq Hrun]]]].
  rewrite Hrun. cbn [status details affected_columns score affected_rows].
  pose proof (graded_not_error _ (graded_ladder q)) as Hne.
  split; [split; [contradiction | discriminate]|].
  split; [discriminate|].
  split; [intros _; split; [apply graded_ladder | reflexivity]|].
  intros _ Hnone.
  unfold Outliers._detect_outliers in Ha. rewrite Hnone in Ha.
  injection Ha as <-. cbn in Hq. injection Hq as <-.
  repeat split; reflexivity.
Qed.

Lemma outliers_error_only_when_invalid_witness :
  graded (status (@Outliers.execute sample_runtime (Outliers.init None)
                    with_far_value))
  /\ affected_columns (@Outliers.execute sample_runtime (Outliers.init None)
                         with_far_value) = Some ["x"]
  /\ score (@Outliers.execute sample_runtime (Outliers.init None) two_texts)
     == 1
  /\ status (@Outliers.execute sample_runtime (Outliers.init None) two_texts)
     = "passed".
Proof.
  assert (Hfar : frame_ok with_far_value).
  { split; repeat constructor. cbn. tauto. }
  assert (Htexts : frame_ok two_texts).
  { split; repeat constructor. cbn. tauto. }
  destruct (@outliers_error_only_when_invalid sample_runtime
              (Outliers.init None) with_far_value Hfar
              ltac:(discriminate) eq_refl) as [_ [_ [Hgraded _]]].
  destruct (@outliers_error_only_when_invalid sample_runtime
              (Outliers.init None) two_texts Htexts
              ltac:(discriminate) eq_refl) as [_ [_ [_ Hnone]]].
  destruct (Hgraded eq_refl) as [Hg Hc].
  destruct (Hnone eq_refl eq_refl) as [Hs [Hp _]].
  repeat split; assumption.
Defined.

(** X4.  Whatever the outlier analysis finds, the count of rows with
    several outliers is 0 or absent: the 0.1 penalty of the quality score
    is never subtracted, so the score is the clamped base score less the
    share and method penalties only, and the PATTERN recommendation is
    never given. *)
Theorem pattern_penalty_never_applies `{Runtime}
  (cfg : Outliers.OutliersConfig) (data : DataFrame) (a : Outliers.Analysis) :
  Outliers._detect_outliers cfg data = Return a ->
  no_clusters a
  /\ Outliers._calculate_quality_score a
     = Return
         (py_max 0.0
            (py_min 1.0
               (if (0 <? Outliers.methods_with_outliers a)%nat
                then 1.0 - Outliers.outlier_percentage a * 0.4
                     - py_min 0.2
                         (Qnat (Outliers.methods_with_outliers a) * 0.05)
                else 1.0 - Outliers.outlier_percentage a * 0.4)))
  /\ ~ In pattern_advice (Outliers.a_recommendations a).
Proof.
  intros Ha. destruct (detected_shape cfg data a Ha) as [Hno Hrecs].
  split; [exact Hno|]. split; [|exact Hrecs].
  unfold Outliers._calculate_quality_score.
  destruct Hno as [-> | [key ->]]; reflexivity.
Qed.

Lemma pattern_penalty_never_applies_witness :
  (exists q, Outliers._calculate_quality_score far_value_analysis = Return q
             /\ q == 5 # 6)
  /\ Outliers.total_outlier_rows far_value_analysis = 1%nat
  /\ ~ In pattern_advice (Outliers.a_recommendations far_value_analysis).
Proof.
  destruct (@pattern_penalty_never_applies sample_runtime (Outliers.init None)
              with_far_value far_value_analysis eq_refl)
    as [_ [Hscore Hrecs]].
  split; [|split; [reflexivity | exact Hrecs]].
  eexists. split; [exact Hscore|]. vm_compute. reflexivity.
Defined.

End ErrorProps.

(* ================================================================== *)
(** * Properties of the engine object *)

Module EngineObjectProps.
Import Engine EngineObject EngineNotions CheckNotions ScoreFacts Notions.

Lemma with_same_orchestration (self : Engine) :
  with_orchestration self (orchestration self) = self.
Proof. destruct self. reflexivity. Qed.

Section Types.
Context `{Runtime}.

Lemma missing_values_type (cfg : MissingValues.MissingValuesConfig)
  (data : DataFrame) :
  r_check_type (MissingValues.execute cfg data) = "missing_values".
Proof.
  unfold MissingValues.execute, MissingValues.execute_body, try_except.
  destruct (negb _); cbn [bind]; [reflexivity|].
  destruct (MissingValues._analyze_missing_values cfg data) as [a|];
    cbn [bind]; [|reflexivity].
  destruct (MissingValues._calculate_quality_score a); cbn [bind];
    [|reflexivity].
  destruct (MissingValues._generate_details cfg a); reflexivity.
Qed.

Lemma duplicates_type (cfg : Duplicates.DuplicatesConfig) (data : DataFrame) :
  r_check_type (Duplicates.execute cfg data) = "duplicates".
Proof.
  unfold Duplicates.execute, Duplicates.execute_body, try_except.
  destruct (negb _); cbn [bind]; [reflexivity|].
  destruct (Duplicates._detect_duplicates cfg data); reflexivity.
Qed.

Lemma outliers_type (cfg : Outliers.OutliersConfig) (data : DataFrame) :
  r_check_type (Outliers.execute cfg data) = "outliers".
Proof.
  unfold Outliers.execute, Outliers.execute_body, try_except.
  destruct (negb _); cbn [bind]; [reflexivity|].
  destruct (Outliers._detect_outliers cfg data) as [a|]; cbn [bind];
    [|reflexivity].
  destruct (Outliers._calculate_quality_score a); reflexivity.
Qed.

Variable data : DataFrame.
Variable custom_rules : option (list (string * string)).

(** One orchestrated check: a recognised type gives a well-scored result
    tagged with that type, any other type gives nothing. *)
Lemma check_result (check_type : string) (log : list event) :
  exists result log',
    _execute_check data check_type custom_rules log = (Return result, log')
    /\ match result with
       | Some r => known check_type = true /\ r_check_type r = check_type
                   /\ well_scored r
       | None => known check_type = false
       end.
Proof.
  unfold _execute_check, known, basic_checks. cbn [existsb].
  destruct (String.eqb check_type "missing_values") eqn:E1.
  { apply String.eqb_eq in E1. subst.
    eexists; eexists. split; [reflexivity|]. cbn.
    split; [reflexivity|]. split; [apply missing_values_type|].
    apply ScoreProps.missing_values_well_scored. }
  destruct (String.eqb check_type "duplicates") eqn:E2.
  { apply String.eqb_eq in E2. subst.
    eexists; eexists. split; [reflexivity|]. cbn.
    split; [reflexivity|]. split; [apply duplicates_type|].
    apply ScoreProps.duplicates_well_scored. }
  destruct (String.eqb check_type "outliers") eqn:E3.
  { apply String.eqb_eq in E3. subst.
    eexists; eexists. split; [reflexivity|]. cbn.
    split; [reflexivity|]. split; [apply outliers_type|].
    apply ScoreProps.outliers_well_scored. }
  destruct (String.eqb check_type "data_types") eqn:E4.
  { apply String.eqb_eq in E4. subst.
    eexists; eexists. split; [reflexivity|]. cbn.
    split; [reflexivity|]. split; [reflexivity|].
    unfold well_scored. cbn. repeat split; try discriminate.
    right. reflexivity. }
  eexists; eexists. split; [reflexivity|]. cbn. reflexivity.
Qed.

Lemma batch_results (check_types : list string) :
  forall acc log,
  exists out log',
    execute_all data check_types custom_rules acc log
    = (Return (acc ++ out), log')
    /\ map r_check_type out = filter known check_types
    /\ Forall well_scored out.
Proof.
  induction check_types as [|check_type rest IH]; intros acc log.
  - exists [], log. rewrite app_nil_r. repeat split; constructor.
  - destruct (check_result check_type log) as [result [log1 [Hstep Hres]]].
    cbn [execute_all]. unfold bindM at 1. rewrite Hstep.
    destruct result as [r|].
    + destruct Hres as [Hknown [Htype Hscored]].
      destruct (IH (acc ++ [r]) log1) as [out [log' [Hrest [Htypes Hall]]]].
      exists (r :: out), log'. split.
      * rewrite Hrest, <- app_assoc. reflexivity.
      * cbn [map filter]. rewrite Hknown, Htype, Htypes.
        split; [reflexivity | constructor; assumption].
    + destruct (IH acc log1) as [out [log' [Hrest [Htypes Hall]]]].
      exists out, log'. split; [exact Hrest|].
      cbn [filter]. rewrite Hres. split; assumption.
Qed.

End Types.

Lemma run_on_empty `{Runtime} (self : Engine) (data : DataFrame)
  (check_types : option (list string))
  (custom_rules : option (list (string * string))) (log : list event) :
  df_empty data = true ->
  run_quality_checks self data check_types custom_rules log
  = (Return ([], self), log).
Proof.
  intros Hempty.
  unfold run_quality_checks, Engine.run_quality_checks, bindM.
  rewrite Hempty. cbn. rewrite with_same_orchestration. reflexivity.
Qed.

Lemma run_on_data `{Runtime} (self : Engine) (data : DataFrame)
  (check_types : option (list string))
  (custom_rules : option (list (string * string))) (log : list event) :
  df_empty data = false ->
  exists out log',
    run_quality_checks self data check_types custom_rules log
    = (Return (out, with_orchestration self
                      {| results := results_of self ++ out |}), log')
    /\ map r_check_type out = filter known (requested check_types)
    /\ Forall well_scored out.
Proof.
  intros Hdata.
  unfold run_quality_checks, Engine.run_quality_checks, bindM.
  rewrite Hdata. fold (requested check_types).
  destruct (batch_results data custom_rules (requested check_types) [] log)
    as [out [log' [Hrun [Htypes Hall]]]].
  unfold bindM. rewrite Hrun. cbn.
  exists out, log'. split; [reflexivity|]. split; assumption.
Qed.

(** X5.  [run_quality_checks] on an empty dataset returns no result and
    leaves the engine as it is.  On any other dataset it returns one
    result for every requested type that the orchestrator knows, in the
    order requested and with that type, drops the unknown types, and
    appends what it returns to the results the engine keeps. *)
Theorem one_result_per_known_type `{Runtime} (self : Engine)
  (data : DataFrame) (check_types : option (list string))
  (custom_rules : option (list (string * string))) (log : list event) :
  (df_empty data = true ->
   run_quality_checks self data check_types custom_rules log
   = (Return ([], self), log))
  /\ (df_empty data = false ->
      exists out log',
        run_quality_checks self data check_types custom_rules log
        = (Return (out, with_orchestration self
                          {| results := results_of self ++ out |}), log')
        /\ map r_check_type out = filter known (requested check_types)
        /\ (List.length out <= List.length (requested check_types))%nat).
Proof.
  split.
  - apply run_on_empty.
  - intros Hdata.
    destruct (run_on_data self data check_types custom_rules log Hdata)
      as [out [log' [Hrun [Htypes _]]]].
    exists out, log'. split; [exact Hrun|]. split; [exact Htypes|].
    rewrite <- (length_map r_check_type), Htypes. apply filter_length_le.
Qed.

Lemma one_result_per_known_type_witness :
  @run_quality_checks sample_runtime (init None true 4) (mkFrame 0 [])
    (Some ["duplicates"]) None []
  = (Return ([], init None true 4), [])
  /\ exists out log',
       @run_quality_checks sample_runtime (init None true 4) Cases.two_by_two
         (Some ["duplicates"; "profiling"; "data_types"]) None []
       = (Return (out, with_orchestration (init None true 4)
                         {| results := [] ++ out |}), log')
       /\ map r_check_type out = ["duplicates"; "data_types"]
       /\ (List.length out <= 3)%nat.
Proof.
  split.
  - apply (proj1 (@one_result_per_known_type sample_runtime (init None true 4)
                    (mkFrame 0 []) (Some ["duplicates"]) None [])).
    reflexivity.
  - apply (proj2 (@one_result_per_known_type sample_runtime (init None true 4)
                    Cases.two_by_two
                    (Some ["duplicates"; "profiling"; "data_types"]) None [])).
    reflexivity.
Defined.

(** ** What holds in every state the engine can reach *)

Lemma close_nothing `{Runtime} (log : list event) :
  close_all [] log = (Return tt, log).
Proof. reflexivity. Qed.

Lemma reachable_invariant `{Runtime} (self : Engine) :
  reachable self ->
  connectors self = [] /\ Forall well_scored (results_of self).
Proof.
  induction 1 as [path monitoring workers
                 | self source_type params name _ IH
                 | self self' data check_types custom_rules out log log' _ IH Hrun
                 | self self' log log' _ IH Hrun].
  - split; [reflexivity | constructor].
  - exact IH.
  - destruct IH as [Hreg Hres].
    destruct (df_empty data) eqn:Hdata.
    + rewrite (run_on_empty self data check_types custom_rules log Hdata)
        in Hrun.
      injection Hrun as _ <- _. split; assumption.
    + destruct (run_on_data self data check_types custom_rules log Hdata)
        as [out' [log1 [Hbatch [_ Hall]]]].
      rewrite Hbatch in Hrun.
      injection Hrun as _ <- _. split; [exact Hreg|].
      unfold results_of. cbn. apply Forall_app. split; assumption.
  - destruct IH as [Hreg Hres].
    unfold cleanup, bindM in Hrun. rewrite Hreg in Hrun. cbn in Hrun.
    injection Hrun as <- _. split; [exact Hreg | constructor].
Qed.

(** X6.  No method of the engine registers a connector: in every state
    the engine can reach the registry is empty, so [load_data] raises
    "Unknown data source" for every identifier, [connect_data_source]
    without a name always answers "<type>_0", and loading from the
    identifier it has just returned fails. *)
Theorem registry_stays_empty `{Runtime} (self : Engine) :
  reachable self ->
  connectors self = []
  /\ (forall source_id query filters,
        load_data self source_id query filters
        = Raise (ValueError ("Unknown data source: " ++ source_id)%string))
  /\ (forall source_type connection_params,
        connect_data_source self source_type connection_params None
        = ((source_type ++ "_0")%string, self))
  /\ (forall source_type connection_params source_id query filters,
        source_id = fst (connect_data_source self source_type
                           connection_params None) ->
        load_data (snd (connect_data_source self source_type
                          connection_params None)) source_id query filters
        = Raise (ValueError ("Unknown data source: " ++ source_type ++ "_0")%string)).
Proof.
  intros Hreach. destruct (reachable_invariant self Hreach) as [Hreg _].
  split; [exact Hreg|].
  assert (Hload : forall source_id query filters,
            load_data self source_id query filters
            = Raise (ValueError ("Unknown data source: " ++ source_id)%string)).
  { intros source_id query filters. unfold load_data. rewrite Hreg.
    reflexivity. }
  assert (Hconnect : forall source_type connection_params,
            connect_data_source self source_type connection_params None
            = ((source_type ++ "_0")%string, self)).
  { intros source_type connection_params. unfold connect_data_source.
    rewrite Hreg. reflexivity. }
  split; [exact Hload|]. split; [exact Hconnect|].
  intros source_type connection_params source_id query filters ->.
  rewrite Hconnect. cbn [fst snd]. apply Hload.
Qed.


Lemma registry_stays_empty_witness :
  @load_data (snd (connect_data_source (init (Some "dq.yaml") true 4) "csv"
                     [("path", "sales.csv")] None))
     "csv_0" None None
  = Raise (ValueError "Unknown data source: csv_0")
  /\ connect_data_source (init (Some "dq.yaml") true 4) "csv"
       [("path", "other.csv")] None
     = ("csv_0", init (Some "dq.yaml") true 4).
Proof.
  destruct (@registry_stays_empty sample_runtime (init (Some "dq.yaml") true 4)
              (reach_init (Some "dq.yaml") true 4))
    as [_ [_ [Hconnect Hload]]].
  split.
  - apply (Hload "csv" [("path", "sales.csv")] "csv_0" None None).
    reflexivity.
  - apply Hconnect.
Defined.

(** ** The summary *)

Lemma well_scored_status (r : CheckResult) :
  well_scored r -> status r = "error" \/ graded (status r).
Proof.
  intros [_ [_ [[He _] | Hs]]]; [left; exact He|].
  right. rewrite Hs. apply ErrorProps.graded_ladder.
Qed.

Lemma statuses_partition (rs : list CheckResult) :
  Forall well_scored rs ->
  (List.length rs
   = count_status "passed" rs + count_status "failed" rs
     + count_status "warning" rs + count_status "critical" rs
     + count_status "error" rs)%nat.
Proof.
  unfold count_status, count_true.
  induction 1 as [|r rs Hr _ IH]; [reflexivity|].
  cbn [List.length filter].
  destruct (well_scored_status r Hr) as [E | [E | [E | [E | [E | []]]]]];
    [rewrite E | rewrite <- E ..]; cbn; lia.
Qed.


(** X7.  Every result the engine keeps has status "error" or one of
    "passed", "warning", "failed", "critical", and the five counts add up
    to the number of results.  The summary reports the total with the
    passed, failed and warning counts only, so the results it leaves
    uncounted are the critical ones and the errors. *)
Theorem summary_leaves_out_critical_and_error `{Runtime} (self : Engine) :
  reachable self ->
  let rs := results_of self in
  (forall r, In r rs -> status r = "error" \/ graded (status r))
  /\ (List.length rs
      = count_status "passed" rs + count_status "failed" rs
        + count_status "warning" rs + count_status "critical" rs
        + count_status "error" rs)%nat
  /\ (rs <> [] ->
      dict_find "total_checks" (get_summary self)
      = Some (DInt (Z.of_nat (List.length rs)))
      /\ dict_find "passed" (get_summary self)
         = Some (DInt (Z.of_nat (count_status "passed" rs)))
      /\ dict_find "failed" (get_summary self)
         = Some (DInt (Z.of_nat (count_status "failed" rs)))
      /\ dict_find "warnings" (get_summary self)
         = Some (DInt (Z.of_nat (count_status "warning" rs)))).
Proof.
  intros Hreach. cbv zeta.
  destruct (reachable_invariant self Hreach) as [_ Hall].
  split; [|split].
  - intros r Hr. apply well_scored_status.
    rewrite Forall_forall in Hall. exact (Hall r Hr).
  - apply statuses_partition, Hall.
  - intros Hsome. unfold get_summary.
    destruct (results_of self) as [|r rs]; [congruence|].
    repeat split; reflexivity.
Qed.

Lemma py_sum_bounds (xs : list Q) :
  Forall (fun x => 0 <= x /\ x <= 1) xs ->
  forall acc,
    acc <= fold_left Qplus xs acc
    /\ fold_left Qplus xs acc <= acc + Qnat (List.length xs).
Proof.
  induction 1 as [|x xs [H0 H1] _ IH]; intros acc.
  - cbn. split; [apply Qle_refl|].
    setoid_replace (acc + Qnat 0) with acc by (unfold Qnat; cbn; ring).
    apply Qle_refl.
  - cbn [fold_left List.length]. destruct (IH (acc + x)) as [Hlo Hhi].
    split.
    + apply Qle_trans with (acc + x); [|exact Hlo].
      rewrite <- (Qplus_0_r acc) at 1. apply Qplus_le_r. exact H0.
    + apply Qle_trans with (acc + x + Qnat (List.length xs)); [exact Hhi|].
      setoid_replace (acc + Qnat (S (List.length xs)))
        with (acc + 1 + Qnat (List.length xs)).
      * apply Qplus_le_l. apply Qplus_le_r. exact H1.
      * unfold Qnat. rewrite Nat2Z.inj_succ. unfold Z.succ.
        rewrite inject_Z_plus. ring.
Qed.

Lemma Qnat_positive (n : nat) : 0 < Qnat (S n).
Proof. unfold Qnat, Qlt. cbn. lia. Qed.

(** X8.  In every state the engine can reach, the overall quality score
    lies between 0 and 1; it is 0 when there are no results. *)
Theorem overall_score_in_unit_interval `{Runtime} (self : Engine) :
  reachable self ->
  0 <= get_quality_score self /\ get_quality_score self <= 1
  /\ (results_of self = [] -> get_quality_score self == 0).
Proof.
  intros Hreach.
  destruct (reachable_invariant self Hreach) as [_ Hall].
  unfold get_quality_score, py_sum.
  destruct (results_of self) as [|r rs] eqn:Ers.
  - split; [discriminate|]. split; [discriminate|]. intros _. reflexivity.
  - assert (Hscores : Forall (fun x => 0 <= x /\ x <= 1) (map score (r :: rs))).
    { apply Forall_map. apply (Forall_impl _ (P := well_scored)); [|exact Hall].
      intros r' [H0 [H1 _]]. split; assumption. }
    destruct (py_sum_bounds _ Hscores 0) as [Hlo Hhi].
    rewrite Qplus_0_l in Hhi.
    rewrite length_map in *. cbn [List.length] in *.
    pose proof (Qnat_positive (List.length rs)) as Hpos.
    split; [|split; [|discriminate]].
    + apply Qle_shift_div_l; [exact Hpos|]. rewrite Qmult_0_l. exact Hlo.
    + apply Qle_shift_div_r; [exact Hpos|]. rewrite Qmult_1_l. exact Hhi.
Qed.


Lemma checked_reachable : @reachable sample_runtime checked.
Proof.
  eapply (@reach_checks sample_runtime fresh checked blanks None None
            (results_of checked) [] _ (reach_init None true 4)).
  vm_compute. reflexivity.
Qed.

Lemma summary_leaves_out_critical_and_error_witness :
  List.length (results_of checked) = 4%nat
  /\ (4 = count_status "passed" (results_of checked)
          + count_status "failed" (results_of checked)
          + count_status "warning" (results_of checked)
          + count_status "critical" (results_of checked)
          + count_status "error" (results_of checked))%nat
  /\ dict_find "passed" (get_summary checked) = Some (DInt 2)
  /\ dict_find "failed" (get_summary checked) = Some (DInt 0)
  /\ dict_find "warnings" (get_summary checked) = Some (DInt 0)
  /\ count_status "critical" (results_of checked) = 2%nat.
Proof.
  destruct (@summary_leaves_out_critical_and_error sample_runtime checked
              checked_reachable) as [_ [Hsum Hkeys]].
  destruct (Hkeys ltac:(discriminate)) as [_ [Hp [Hf Hw]]].
  split; [reflexivity|]. split; [exact Hsum|].
  split; [exact Hp|]. split; [exact Hf|]. split; [exact Hw|].
  vm_compute. reflexivity.
Defined.

Lemma overall_score_in_unit_interval_witness :
  0 <= @get_quality_score checked /\ @get_quality_score checked <= 1.
Proof.
  destruct (@overall_score_in_unit_interval sample_runtime checked
              checked_reachable) as [H0 [H1 _]].
  split; assumption.
Defined.

(** X9.  [cleanup] on a reachable engine closes nothing (there is no
    connector), cannot fail, and clears the results: afterwards the
    summary is the single message "No quality checks have been run", so
    looking up any of the six summary keys raises [KeyError], the overall
    score is 0 and [generate_report] returns the empty path. *)
Theorem cleanup_resets_the_engine `{Runtime} (self : Engine)
  (log : list event) :
  reachable self ->
  exists self',
    cleanup self log = (Return self', log)
    /\ results_of self' = []
    /\ get_summary self' = [("message", DStr "No quality checks have been run")]
    /\ (forall key, In key summary_keys ->
                    dict_get key (get_summary self') = Raise (KeyError key))
    /\ get_quality_score self' == 0
    /\ (forall report_type output_path include_charts,
          generate_report self' report_type output_path include_charts = "").
Proof.
  intros Hreach. destruct (reachable_invariant self Hreach) as [Hreg _].
  exists (with_orchestration self {| results := [] |}). split.
  - unfold cleanup, bindM. rewrite Hreg. reflexivity.
  - split; [reflexivity|]. split; [reflexivity|].
    split; [|split; [reflexivity | reflexivity]].
    intros key Hkey. cbn in Hkey.
    repeat (destruct Hkey as [<- | Hkey]; [reflexivity|]). destruct Hkey.
Qed.

Lemma cleanup_resets_the_engine_witness :
  exists self',
    @cleanup checked [] = (Return self', [])
    /\ results_of self' = []
    /\ dict_get "total_checks" (get_summary self')
       = Raise (KeyError "total_checks")
    /\ generate_report self' "html" (Some "report.html") true = "".
Proof.
  destruct (@cleanup_resets_the_engine sample_runtime checked []
              checked_reachable)
    as [self' [Hrun [Hres [_ [Hkeys [_ Hreport]]]]]].
  exists self'. split; [exact Hrun|]. split; [exact Hres|].
  split; [apply Hkeys; left; reflexivity | apply Hreport].
Defined.

(** X10.  A first [run_quality_checks] on an empty dataset, or with
    unknown check types only, succeeds with no result; the summary of the
    engine is then the message "No quality checks have been run", and a
    caller that reads "total_checks" or any other tally from it gets a
    [KeyError]. *)
Theorem nothing_checked_leaves_no_tallies `{Runtime} (self : Engine)
  (data : DataFrame) (check_types : option (list string))
  (custom_rules : option (list (string * string))) (log : list event) :
  results_of self = [] ->
  df_empty data = true \/ filter known (requested check_types) = [] ->
  exists self' log',
    run_quality_checks self data check_types custom_rules log
    = (Return ([], self'), log')
    /\ results_of self' = []
    /\ get_summary self' = [("message", DStr "No quality checks have been run")]
    /\ (forall key, In key summary_keys ->
                    dict_get key (get_summary self') = Raise (KeyError key)).
Proof.
  intros Hfresh Hnothing.
  assert (Hkeys : forall self' : Engine,
            results_of self' = [] ->
            get_summary self' = [("message", DStr "No quality checks have been run")]
            /\ (forall key, In key summary_keys ->
                            dict_get key (get_summary self') = Raise (KeyError key))).
  { intros self' Hres. unfold get_summary. rewrite Hres.
    split; [reflexivity|]. intros key Hkey. cbn in Hkey.
    repeat (destruct Hkey as [<- | Hkey]; [reflexivity|]). destruct Hkey. }
  destruct (df_empty data) eqn:Hdata.
  - exists self, log. split.
    + apply run_on_empty, Hdata.
    + split; [exact Hfresh | apply Hkeys, Hfresh].
  - destruct Hnothing as [Hempty | Hunknown]; [discriminate|].
    destruct (run_on_data self data check_types custom_rules log Hdata)
      as [out [log' [Hrun [Htypes _]]]].
    rewrite Hunknown in Htypes. apply map_eq_nil in Htypes. subst out.
    eexists; exists log'. split; [exact Hrun|].
    assert (Hres : results_of (with_orchestration self
                                 {| results := results_of self ++ [] |}) = []).
    { unfold results_of at 1. cbn. rewrite Hfresh. reflexivity. }
    split; [exact Hres | apply Hkeys, Hres].
Qed.

Lemma nothing_checked_leaves_no_tallies_witness :
  exists self' log',
    @run_quality_checks sample_runtime fresh Cases.two_by_two
      (Some ["completeness"; " duplicates"]) None []
    = (Return ([], self'), log')
    /\ results_of self' = []
    /\ get_summary self' = [("message", DStr "No quality checks have been run")]
    /\ (forall key, In key summary_keys ->
                    dict_get key (get_summary self') = Raise (KeyError key)).
Proof.
  apply (@nothing_checked_leaves_no_tallies sample_runtime fresh
           Cases.two_by_two (Some ["completeness"; " duplicates"]) None []).
  - reflexivity.
  - right. reflexivity.
Defined.

End EngineObjectProps.

(* ================================================================== *)
(** * The orchestrator with the default checks *)

Module OrchestrationProps.
Import Engine EngineObject EngineNotions CheckNotions ErrorProps.

(** X11.  With no check types given, the orchestrator runs the four
    basic checks on a well-formed, non-empty dataset of at most 100000
    rows and returns four results, typed missing_values, data_types,
    duplicates and outliers in this order.  The missing-values and the
    outliers results are never errors (each status is one of "passed",
    "warning", "failed", "critical") and the data-types result is
    "passed"; the duplicates result is an error or has a status of the
    ladder. *)
Theorem default_checks_besides_duplicates_never_error `{Runtime}
  (self : Engine.DataQualityEngine) (data : DataFrame)
  (custom_rules : option (list (string * string))) (log : list event) :
  df_empty data = false ->
  frame_ok data ->
  (Z.of_nat (nrows data) <= 100000)%Z ->
  exists m t d o log',
    Engine.run_quality_checks self data None custom_rules log
    = (Return ([m; t; d; o], {| results := results self ++ [m; t; d; o] |}),
       log')
    /\ map r_check_type [m; t; d; o]
       = ["missing_values"; "data_types"; "duplicates"; "outliers"]
    /\ graded (status m)
    /\ status t = "passed"
    /\ graded (status o)
    /\ (status d = "error" \/ graded (status d)).
Proof.
  intros Hdata Hok Hsize.
  assert (Hrows : nrows data <> 0%nat).
  { unfold df_empty in Hdata. apply orb_false_elim in Hdata.
    destruct Hdata as [Hr _]. apply Nat.eqb_neq in Hr. exact Hr. }
  destruct (missing_values_succeeds (MissingValues.init None) data
              eq_refl eq_refl Hdata) as [am [qm [dm [_ [_ Hm]]]]].
  assert (Hd : status (Duplicates.execute (Duplicates.init None) data)
               = "error"
               \/ graded (status (Duplicates.execute (Duplicates.init None)
                                    data))).
  { destruct (ScoreProps.duplicates_well_scored (Duplicates.init None) data)
      as [_ [_ [[He _] | Hs]]]; [left; exact He|].
    right. rewrite Hs. apply graded_ladder. }
  assert (Hns : not_sampled (Outliers.init None) data = true).
  { unfold not_sampled. cbn [Outliers.init Outliers.default_config
                               Outliers.with_base Outliers.max_rows_for_ml
                               Outliers.use_sampling].
    rewrite andb_true_r. apply negb_true_iff, Z.ltb_ge. exact Hsize. }
  destruct (outliers_succeeds (Outliers.init None) data eq_refl Hok Hrows Hns)
    as [ao [qo [_ [_ Ho]]]].
  unfold Engine.run_quality_checks. rewrite Hdata.
  cbn [basic_checks execute_all]. unfold bindM.
  rewrite EngineProps.missing_values_dispatch.
  replace (_execute_check data "data_types" custom_rules)
    with (fun log0 : list event =>
            (Return (Some placeholder_data_types), log0))
    by reflexivity.
  cbv beta iota.
  rewrite EngineProps.duplicates_dispatch.
  rewrite EngineProps.outliers_dispatch.
  cbn [app ret]. do 5 eexists. split; [reflexivity|].
  split.
  { cbn [map]. rewrite Hm, Ho. cbn [r_check_type].
    rewrite (EngineObjectProps.duplicates_type (Duplicates.init None) data).
    reflexivity. }
  rewrite Hm, Ho. cbn [status].
  split; [apply graded_ladder|]. split; [reflexivity|].
  split; [apply graded_ladder | exact Hd].
Qed.

Lemma default_checks_besides_duplicates_never_error_witness :
  exists m t d o log',
    @Engine.run_quality_checks sample_runtime (mkEngine []) Cases.two_by_two
      None None []
    = (Return ([m; t; d; o], {| results := [] ++ [m; t; d; o] |}), log')
    /\ map r_check_type [m; t; d; o]
       = ["missing_values"; "data_types"; "duplicates"; "outliers"]
    /\ graded (status m)
    /\ status t = "passed"
    /\ graded (status o)
    /\ (status d = "error" \/ graded (status d)).
Proof.
  apply (@default_checks_besides_duplicates_never_error sample_runtime
           (mkEngine []) Cases.two_by_two None []).
  - reflexivity.
  - exact MissingValuesProps.two_by_two_ok.
  - vm_compute. discriminate.
Defined.

End OrchestrationProps.

(* ================================================================== *)
(** * [run] and [execute] of the three checks *)

Module WrapperProps.
Import CheckNotions.

Lemma same_verdict_stamp `{Runtime} (r : CheckResult) :
  same_verdict (stamp r) r.
Proof. unfold same_verdict. cbn. tauto. Qed.

(** X12.  For each of the three checks, enabled and with any
    configuration, the lifecycle entry point [run] returns the verdict of
    [execute]: the same name, type, status, score, details, affected rows
    and columns and recommendations; only the timing may differ. *)
Theorem run_agrees_with_execute `{Runtime} (data : DataFrame)
  (log : list event) :
  (forall c,
     enabled (MissingValues.base (MissingValues.init c)) = true ->
     exists r log',
       run MissingValues.MissingValuesCheck (MissingValues.init c) data log
       = (Return r, log')
       /\ same_verdict r (MissingValues.execute (MissingValues.init c) data))
  /\ (forall c,
        enabled (Duplicates.base (Duplicates.init c)) = true ->
        exists r log',
          run Duplicates.DuplicatesCheck (Duplicates.init c) data log
          = (Return r, log')
          /\ same_verdict r (Duplicates.execute (Duplicates.init c) data))
  /\ (forall c,
        enabled (Outliers.base (Outliers.init c)) = true ->
        exists r log',
          run Outliers.OutliersCheck (Outliers.init c) data log
          = (Return r, log')
          /\ same_verdict r (Outliers.execute (Outliers.init c) data)).
Proof.
  split; [|split]; intros c Hon.
  - destruct (MissingValues.validate_config (MissingValues.init c)) eqn:Hvalid.
    + rewrite (BaseProps.run_valid MissingValues.MissingValuesCheck _ data log
                 Hon (f_equal Return Hvalid)).
      eexists; eexists. split; [reflexivity | apply same_verdict_stamp].
    + rewrite (BaseProps.run_invalid MissingValues.MissingValuesCheck _ data log
                 Hon (f_equal Return Hvalid)).
      eexists; eexists. split; [reflexivity|].
      rewrite (ErrorProps.missing_values_invalid _ data Hvalid).
      unfold same_verdict. cbn. tauto.
  - destruct (Duplicates.validate_config (Duplicates.init c)) eqn:Hvalid.
    + rewrite (BaseProps.run_valid Duplicates.DuplicatesCheck _ data log
                 Hon (f_equal Return Hvalid)).
      eexists; eexists. split; [reflexivity | apply same_verdict_stamp].
    + rewrite (BaseProps.run_invalid Duplicates.DuplicatesCheck _ data log
                 Hon (f_equal Return Hvalid)).
      eexists; eexists. split; [reflexivity|].
      rewrite (ErrorProps.duplicates_invalid _ data Hvalid).
      unfold same_verdict. cbn. tauto.
  - destruct (Outliers.validate_config (Outliers.init c)) eqn:Hvalid.
    + rewrite (BaseProps.run_valid Outliers.OutliersCheck _ data log
                 Hon (f_equal Return Hvalid)).
      eexists; eexists. split; [reflexivity | apply same_verdict_stamp].
    + rewrite (BaseProps.run_invalid Outliers.OutliersCheck _ data log
                 Hon (f_equal Return Hvalid)).
      eexists; eexists. split; [reflexivity|].
      rewrite (ErrorProps.outliers_invalid _ data Hvalid).
      unfold same_verdict. cbn. tauto.
Qed.

Lemma run_agrees_with_execute_witness :
  exists r log',
    @run sample_runtime _ (@MissingValues.MissingValuesCheck sample_runtime)
      (MissingValues.init None) Cases.two_by_two []
    = (Return r, log')
    /\ same_verdict r
         (@MissingValues.execute sample_runtime (MissingValues.init None)
            Cases.two_by_two).
Proof.
  apply (proj1 (@run_agrees_with_execute sample_runtime Cases.two_by_two [])
           None).
  reflexivity.
Defined.

End WrapperProps.

(* ================================================================== *)
(** * Row patterns of the missing-values check *)

Module PatternProps.
Import MissingValues ScoreFacts Notions CheckNotions PatternNotions.

Section Counting.
Context {A : Type} (eqb : A -> A -> bool).
Hypothesis eqb_eq : forall x y, eqb x y = true <-> x = y.

Lemma tally_sum (x : A) (acc : list (A * nat)) :
  list_sum (map snd (tally eqb x acc)) = S (list_sum (map snd acc)).
Proof.
  induction acc as [|[y n] acc IH]; [reflexivity|].
  cbn [tally]. destruct (eqb y x); [cbn; reflexivity|].
  change (list_sum (map snd ((y, n) :: tally eqb x acc)))
    with (n + list_sum (map snd (tally eqb x acc)))%nat.
  change (list_sum (map snd ((y, n) :: acc)))
    with (n + list_sum (map snd acc))%nat.
  rewrite IH. lia.
Qed.

Lemma tally_keys (x k : A) (acc : list (A * nat)) :
  In k (map fst (tally eqb x acc)) <-> k = x \/ In k (map fst acc).
Proof.
  induction acc as [|[y n] acc IH]; cbn.
  - intuition.
  - destruct (eqb y x) eqn:E; cbn.
    + apply eqb_eq in E. subst y. intuition.
    + rewrite IH. intuition.
Qed.

Lemma tally_distinct (x : A) (acc : list (A * nat)) :
  NoDup (map fst acc) -> NoDup (map fst (tally eqb x acc)).
Proof.
  induction acc as [|[y n] acc IH]; intros Hnd; cbn.
  - repeat constructor. intros [].
  - inversion Hnd as [|? ? Hfresh Hrest]; subst.
    destruct (eqb y x) eqn:E; cbn.
    + constructor; assumption.
    + constructor; [|exact (IH Hrest)].
      rewrite tally_keys. intros [-> | Hin]; [|contradiction].
      assert (Hxx : eqb x x = true) by (apply eqb_eq; reflexivity).
      congruence.
Qed.

Lemma tallies (l : list A) :
  forall acc,
    let t := fold_left (fun acc x => tally eqb x acc) l acc in
    list_sum (map snd t) = (List.length l + list_sum (map snd acc))%nat
    /\ (forall k, In k (map fst t) -> In k l \/ In k (map fst acc))
    /\ (NoDup (map fst acc) -> NoDup (map fst t)).
Proof.
  induction l as [|x l IH]; intros acc; cbv zeta;
    cbn [fold_left List.length In].
  - intuition.
  - destruct (IH (tally eqb x acc)) as [Hsum [Hkeys Hnd]].
    cbv zeta in Hsum, Hkeys, Hnd. rewrite tally_sum in Hsum.
    split; [lia|]. split.
    + intros k Hk. destruct (Hkeys k Hk) as [Hin | Hin]; [tauto|].
      apply tally_keys in Hin. intuition.
    + intros Hacc. apply Hnd, tally_distinct, Hacc.
Qed.

Lemma insert_desc_members (e e' : A * nat) (l : list (A * nat)) :
  In e' (insert_desc e l) <-> e' = e \/ In e' l.
Proof.
  induction l as [|h t IH]; cbn [insert_desc In].
  - intuition.
  - destruct (snd h <? snd e)%nat; cbn [In]; [intuition|].
    rewrite IH. intuition.
Qed.

Lemma sorted_members (t : list (A * nat)) :
  forall acc e,
    In e (fold_left (fun acc e => insert_desc e acc) t acc)
    <-> In e t \/ In e acc.
Proof.
  induction t as [|h t IH]; intros acc e; cbn [fold_left].
  - cbn. tauto.
  - rewrite IH, insert_desc_members. cbn. intuition.
Qed.

(** The entries of [value_counts] are those of the tally. *)
Lemma value_counts_members (l : list A) (e : A * nat) :
  In e (value_counts eqb l)
  <-> In e (fold_left (fun acc x => tally eqb x acc) l []).
Proof.
  unfold value_counts. rewrite sorted_members. cbn. tauto.
Qed.

End Counting.

(** Some entry is at least the average. *)
Lemma largest_entry {A} (t : list (A * nat)) :
  t <> [] ->
  exists e, In e t
            /\ (list_sum (map snd t) <= List.length t * snd e)%nat.
Proof.
  induction t as [|[k n] t IH]; [congruence|]. intros _.
  destruct t as [|e' t'].
  - exists (k, n). split; [left; reflexivity | cbn; lia].
  - destruct IH as [e [Hin Hle]]; [discriminate|].
    set (rest := e' :: t') in *.
    change (list_sum (map snd ((k, n) :: rest)))
      with (n + list_sum (map snd rest))%nat.
    change (List.length ((k, n) :: rest)) with (S (List.length rest)).
    destruct (Nat.le_ge_cases n (snd e)) as [Hn | Hn].
    + exists e. split; [right; exact Hin|].
      rewrite Nat.mul_succ_l. lia.
    + exists (k, n). split; [left; reflexivity|].
      cbn [snd]. rewrite Nat.mul_succ_l.
      assert (List.length rest * snd e <= List.length rest * n)%nat
        by (apply Nat.mul_le_mono_l; exact Hn).
      lia.
Qed.

Lemma all_patterns_complete (c : nat) (p : list bool) :
  List.length p = c -> In p (all_patterns c).
Proof.
  revert p. induction c as [|c IH]; intros p Hp.
  - destruct p; [left; reflexivity | discriminate].
  - destruct p as [|b p]; [discriminate|].
    cbn in Hp. injection Hp as Hp. cbn [all_patterns].
    apply in_app_iff. destruct b; [left | right];
      apply in_map, IH, Hp.
Qed.

Lemma all_patterns_length (c : nat) :
  List.length (all_patterns c) = (2 ^ c)%nat.
Proof.
  induction c as [|c IH]; [reflexivity|].
  cbn [all_patterns]. rewrite length_app, !length_map, IH. cbn. lia.
Qed.

Lemma pattern_eqb_eq (p q : list bool) : pattern_eqb p q = true <-> p = q.
Proof.
  unfold pattern_eqb. destruct (list_eq_dec Bool.bool_dec p q);
    split; congruence.
Qed.

Lemma row_pattern_width (data : DataFrame) (p : list bool) :
  In p (row_patterns data) -> List.length p = List.length (columns data).
Proof.
  unfold row_patterns, iloc. intros Hp. apply in_map_iff in Hp.
  destruct Hp as [i [<- _]]. rewrite !length_map. reflexivity.
Qed.

Lemma tenth_exceeded (n k : nat) :
  (n < 10 * k)%nat -> Qlt_bool (Qnat n * 0.1) (Qnat k) = true.
Proof.
  intros Hlt. apply Qlt_bool_true.
  unfold Qlt, Qnat. cbn [Qnum Qden Qmult inject_Z]. lia.
Qed.

Lemma systematic_found (data : DataFrame) (pcs : list (list bool * nat)) :
  (exists pc, In pc pcs
              /\ Qlt_bool (Qnat (nrows data) * 0.1) (Qnat (snd pc)) = true) ->
  systematic_entries data pcs <> [].
Proof.
  unfold systematic_entries.
  assert (Hgen : forall acc,
            acc <> []
            \/ (exists pc, In pc pcs
                  /\ Qlt_bool (Qnat (nrows data) * 0.1) (Qnat (snd pc)) = true) ->
            fold_left
              (fun acc pc =>
                 if Qlt_bool (Qnat (nrows data) * 0.1) (Qnat (snd pc))
                 then acc ++ [{| pattern := fst pc; count := snd pc;
                                 percentage := Qnat (snd pc) / Qnat (nrows data) |}]
                 else acc) pcs acc <> []).
  { induction pcs as [|pc pcs IH]; intros acc Hcase; cbn [fold_left].
    - destruct Hcase as [Hacc | [pc [[] _]]]. exact Hacc.
    - apply IH. destruct Hcase as [Hacc | [pc' [[<- | Hin] Hbig]]].
      + left. destruct (Qlt_bool _ _); [|exact Hacc].
        intros Hnil. apply app_eq_nil in Hnil. tauto.
      + left. rewrite Hbig. intros Hnil. apply app_eq_nil in Hnil.
        destruct Hnil as [_ Hnil]. discriminate.
      + right. exists pc'. tauto. }
  intros Hex. apply Hgen. right. exact Hex.
Qed.

(** With fewer than ten rows, or with at most three columns, some row
    pattern covers more than a tenth of the rows. *)
Lemma some_pattern_is_systematic (data : DataFrame) :
  nrows data <> 0%nat ->
  (nrows data < 10)%nat \/ (List.length (columns data) <= 3)%nat ->
  systematic_patterns data <> [].
Proof.
  intros Hrows Hsmall. unfold systematic_patterns.
  apply systematic_found.
  destruct (tallies pattern_eqb pattern_eqb_eq (row_patterns data) [])
    as [Hsum [Hkeys Hnd]].
  cbv zeta in Hsum, Hkeys, Hnd. cbn [map list_sum] in Hsum.
  rewrite Nat.add_0_r in Hsum.
  assert (Hlen : List.length (row_patterns data) = nrows data).
  { unfold row_patterns. rewrite length_map, length_seq. reflexivity. }
  rewrite Hlen in Hsum.
  set (t := fold_left (fun acc x => tally pattern_eqb x acc)
              (row_patterns data) []) in *.
  assert (Hne : t <> []).
  { intros Hnil. rewrite Hnil in Hsum. cbn in Hsum. congruence. }
  destruct (largest_entry t Hne) as [e [Hin Hle]].
  exists e. split; [apply value_counts_members; exact Hin|].
  apply tenth_exceeded. rewrite Hsum in Hle.
  assert (Hpos : (0 < snd e)%nat).
  { destruct (snd e); [|lia]. rewrite Nat.mul_0_r in Hle. lia. }
  destruct Hsmall as [Hfew | Hnarrow]; [lia|].
  assert (Hwide : (List.length t <= 8)%nat).
  { rewrite <- (length_map fst t).
    apply Nat.le_trans with (List.length (all_patterns (List.length (columns data)))).
    - apply NoDup_incl_length; [apply Hnd; constructor|].
      intros p Hp. apply all_patterns_complete.
      destruct (Hkeys p Hp) as [Hrow | []].
      apply row_pattern_width, Hrow.
    - rewrite all_patterns_length.
      apply Nat.le_trans with (2 ^ 3)%nat; [|cbn; lia].
      apply Nat.pow_le_mono_r; lia. }
  assert (List.length t * snd e <= 8 * snd e)%nat
    by (apply Nat.mul_le_mono_r; exact Hwide).
  lia.
Qed.


Lemma py_min_le_r (a b : Q) : py_min a b <= b.
Proof.
  unfold py_min. destruct (Qlt_bool b a) eqn:E; [apply Qle_refl|].
  apply Qlt_bool_false in E. exact E.
Qed.

Lemma clamp_below (x bound : Q) :
  x <= bound -> 0 <= bound -> py_max 0.0 (py_min 1.0 x) <= bound.
Proof.
  intros Hx Hb. unfold py_max.
  destruct (Qlt_bool 0.0 (py_min 1.0 x)).
  - apply Qle_trans with x; [apply py_min_le_r | exact Hx].
  - apply Qle_trans with 0; [discriminate | exact Hb].
Qed.

Lemma fraction_nonnegative (a b : nat) : 0 <= Qnat a / Qnat b.
Proof.
  unfold Qdiv. apply Qmult_le_0_compat.
  - unfold Qnat, Qle. cbn. lia.
  - apply Qinv_le_0_compat. unfold Qnat, Qle. cbn. lia.
Qed.

Lemma penalised_score (o r : Q) :
  0 <= o -> 0 <= r -> 1.0 - o * 0.5 - r * 0.2 - 0.1 <= 0.9.
Proof.
  intros Ho Hr. apply Qle_minus_iff.
  setoid_replace (0.9 + - (1.0 - o * 0.5 - r * 0.2 - 0.1))
    with (o * 0.5 + r * 0.2) by ring.
  apply Qle_trans with (0 + 0); [discriminate|].
  apply Qplus_le_compat; apply Qmult_le_0_compat;
    try assumption; discriminate.
Qed.

(** X13.  On a well-formed, non-empty dataset with fewer than 10 rows or
    with at most 3 columns some row pattern covers more than a tenth of
    the rows, so the missing-values check (valid configuration, patterns
    analysed) always finds a systematic pattern and never scores above
    0.9. *)
Theorem few_patterns_cost_a_tenth `{Runtime} (cfg : MissingValuesConfig)
  (data : DataFrame) :
  frame_ok data ->
  df_empty data = false ->
  validate_config cfg = true ->
  analyze_patterns cfg = true ->
  (nrows data < 10)%nat \/ (List.length (columns data) <= 3)%nat ->
  systematic_patterns data <> []
  /\ score (execute cfg data) <= 0.9
  /\ graded (status (execute cfg data)).
Proof.
  intros _ Hdata Hvalid Hon Hsmall.
  assert (Hrows : nrows data <> 0%nat).
  { unfold df_empty in Hdata. apply orb_false_elim in Hdata.
    destruct Hdata as [Hr _]. apply Nat.eqb_neq in Hr. exact Hr. }
  assert (Hncols : List.length (columns data) <> 0%nat).
  { unfold df_empty in Hdata. apply orb_false_elim in Hdata.
    destruct Hdata as [_ Hc]. apply Nat.eqb_neq in Hc. exact Hc. }
  pose proof (some_pattern_is_systematic data Hrows Hsmall) as Hsys.
  split; [exact Hsys|].
  destruct (ErrorProps.missing_values_succeeds cfg data Hvalid Hon Hdata)
    as [a [q [d [Ha [Hq Hrun]]]]].
  rewrite Hrun. cbn [score status].
  split; [|apply ErrorProps.graded_ladder].
  destruct (MissingValuesProps.analysis_returns cfg data Hdata Hon)
    as [a' [Ha' [_ [Hcols [_ [Hwith [Hoverall Hpatterns]]]]]]].
  rewrite Ha in Ha'. injection Ha' as <-.
  unfold _calculate_quality_score, dict_get in Hq.
  rewrite Hcols, Hpatterns, MissingValuesProps.systematic_key in Hq.
  rewrite (py_div_Qnat _ Hncols) in Hq. cbn [bind] in Hq.
  fold (systematic_patterns data) in Hq.
  destruct (systematic_patterns data) as [|e es]; [congruence|].
  cbn [truthy] in Hq. injection Hq as <-.
  apply clamp_below; [|discriminate].
  apply penalised_score.
  - rewrite Hoverall. apply fraction_nonnegative.
  - apply fraction_nonnegative.
Qed.

Lemma few_patterns_cost_a_tenth_witness :
  systematic_patterns with_gap <> []
  /\ score (@execute sample_runtime (init None) with_gap) <= 0.9
  /\ graded (status (@execute sample_runtime (init None) with_gap)).
Proof.
  apply (@few_patterns_cost_a_tenth sample_runtime (init None) with_gap);
    try reflexivity.
  - split; repeat constructor; cbn; intuition discriminate.
  - left. cbn. lia.
Defined.


(** ** Cells counted more than once *)

Lemma fold_add {A} (f : A -> nat) (l : list A) (init : nat) :
  fold_left (fun acc x => acc + f x)%nat l init
  = (init + list_sum (map f l))%nat.
Proof.
  revert init. induction l as [|x l IH]; intros init.
  - cbn. lia.
  - cbn [fold_left map]. rewrite IH.
    change (list_sum (f x :: map f l)) with (f x + list_sum (map f l))%nat.
    lia.
Qed.

Lemma count_true_cons {A} (p : A -> bool) (x : A) (l : list A) :
  count_true p (x :: l)
  = ((if p x then 1 else 0) + count_true p l)%nat.
Proof.
  unfold count_true. cbn [filter]. destruct (p x); reflexivity.
Qed.

Lemma count_true_one {A} (p : A -> bool) (x : A) :
  count_true p [x] = if p x then 1%nat else 0%nat.
Proof. unfold count_true. cbn [filter]. destruct (p x); reflexivity. Qed.

Lemma list_sum_cons (x : nat) (l : list nat) :
  list_sum (x :: l) = (x + list_sum l)%nat.
Proof. reflexivity. Qed.

Section Weights.
Context `{Runtime}.
Variable cfg : MissingValuesConfig.

Lemma count_by_method (series : Series) :
  _count_missing_values cfg series
  = ((if detect_na_values cfg then count_true pd_isna series else 0)
     + (if detect_empty_strings cfg
        then count_true (cell_eq_str "") series else 0)
     + (if detect_whitespace cfg then count_true blank series else 0)
     + list_sum (map (fun na_value => count_true (cell_eq_str na_value) series)
                   (detect_custom_na cfg)))%nat.
Proof.
  unfold _count_missing_values. fold blank.
  destruct (detect_custom_na cfg) as [|na custom].
  - cbn [map list_sum fold_right].
    destruct (detect_na_values cfg), (detect_empty_strings cfg),
      (detect_whitespace cfg); lia.
  - rewrite fold_add.
    destruct (detect_na_values cfg), (detect_empty_strings cfg),
      (detect_whitespace cfg); lia.
Qed.

(** The count of a column is the sum of the counts of its cells. *)
Lemma count_cell_by_cell (series : Series) :
  _count_missing_values cfg series
  = list_sum (map (cell_weight cfg) series).
Proof.
  induction series as [|c series IH].
  - rewrite count_by_method. unfold count_true. cbn [filter List.length].
    destruct (detect_na_values cfg), (detect_empty_strings cfg),
      (detect_whitespace cfg); cbn [Nat.add];
      induction (detect_custom_na cfg) as [|na l IHl]; cbn; auto.
  - cbn [map]. rewrite list_sum_cons, <- IH.
    unfold cell_weight. rewrite !count_by_method.
    assert (Hcustom : forall l,
              list_sum (map (fun na => count_true (cell_eq_str na) (c :: series)) l)
              = (list_sum (map (fun na => count_true (cell_eq_str na) [c]) l)
                 + list_sum (map (fun na => count_true (cell_eq_str na) series) l))%nat).
    { induction l as [|na l IHl]; [reflexivity|].
      cbn [map]. rewrite !list_sum_cons, IHl.
      rewrite (count_true_cons _ c series), count_true_one. lia. }
    rewrite Hcustom, !(count_true_cons _ c series), !count_true_one.
    destruct (detect_na_values cfg), (detect_empty_strings cfg),
      (detect_whitespace cfg); lia.
Qed.

End Weights.


Lemma default_weight_unfolded `{Runtime} (c : cell) :
  cell_weight (init None) c
  = ((if pd_isna c then 1 else 0)
     + (if cell_eq_str "" c then 1 else 0)
     + (if blank c then 1 else 0)
     + ((if cell_eq_str "N/A" c then 1 else 0)
        + ((if cell_eq_str "NULL" c then 1 else 0)
           + ((if cell_eq_str "null" c then 1 else 0)
              + ((if cell_eq_str "None" c then 1 else 0)
                 + ((if cell_eq_str "none" c then 1 else 0)
                    + ((if cell_eq_str "" c then 1 else 0) + 0)))))))%nat.
Proof.
  unfold cell_weight. rewrite count_by_method.
  cbn [init default_config with_base detect_na_values detect_empty_strings
       detect_whitespace detect_custom_na map].
  rewrite !list_sum_cons, !count_true_one. reflexivity.
Qed.

Lemma default_weight_bound `{Runtime} (c : cell) :
  (cell_weight (init None) c <= 3)%nat
  /\ (cell_weight (init None) c = 3%nat <-> c = Str "").
Proof.
  assert (Hsmall : forall c',
            c' <> Str "" -> (cell_weight (init None) c' <= 2)%nat ->
            (cell_weight (init None) c' <= 3)%nat
            /\ (cell_weight (init None) c' = 3%nat <-> c' = Str "")).
  { intros c' Hne Hle. split; [lia|]. split; [lia | contradiction]. }
  destruct c as [| |s|z|q].
  - apply Hsmall; [discriminate|]. vm_compute. lia.
  - apply Hsmall; [discriminate|]. vm_compute. lia.
  - destruct (String.eqb_spec s "") as [-> | H0].
    { split; [vm_compute; lia|]. split; [reflexivity | vm_compute; reflexivity]. }
    apply Hsmall; [congruence|].
    destruct (String.eqb_spec s "N/A") as [-> | H1]; [vm_compute; lia|].
    destruct (String.eqb_spec s "NULL") as [-> | H2]; [vm_compute; lia|].
    destruct (String.eqb_spec s "null") as [-> | H3]; [vm_compute; lia|].
    destruct (String.eqb_spec s "None") as [-> | H4]; [vm_compute; lia|].
    destruct (String.eqb_spec s "none") as [-> | H5]; [vm_compute; lia|].
    rewrite default_weight_unfolded. cbn [pd_isna cell_eq_str].
    apply String.eqb_neq in H0, H1, H2, H3, H4, H5.
    rewrite H0, H1, H2, H3, H4, H5.
    destruct (blank (Str s)); lia.
  - apply Hsmall; [discriminate|].
    rewrite default_weight_unfolded. cbn [pd_isna cell_eq_str].
    destruct (blank (Int z)); lia.
  - apply Hsmall; [discriminate|].
    rewrite default_weight_unfolded. cbn [pd_isna cell_eq_str].
    destruct (blank (Float q)); lia.
Qed.

(** X14.  [_count_missing_values] adds up a count per cell.  Under the
    default configuration a cell is counted at most three times, and
    three times exactly when it is the empty string; NaN and None are
    counted once.  So a column reports at most three times its length,
    and a column of empty strings reports exactly that. *)
Theorem cells_counted_up_to_thrice `{Runtime} (cfg : MissingValuesConfig)
  (series : Series) :
  _count_missing_values cfg series = list_sum (map (cell_weight cfg) series)
  /\ (forall c,
        (cell_weight (init None) c <= 3)%nat
        /\ (cell_weight (init None) c = 3%nat <-> c = Str ""))
  /\ cell_weight (init None) NaN = 1%nat
  /\ cell_weight (init None) PyNone = 1%nat
  /\ (_count_missing_values (init None) series <= 3 * List.length series)%nat
  /\ _count_missing_values (init None) (repeat (Str "") (List.length series))
     = (3 * List.length series)%nat.
Proof.
  split; [apply count_cell_by_cell|].
  split; [apply default_weight_bound|].
  split; [vm_compute; reflexivity|]. split; [vm_compute; reflexivity|].
  split.
  - rewrite count_cell_by_cell.
    induction series as [|c series IH]; [cbn; lia|].
    cbn [map List.length]. rewrite list_sum_cons.
    destruct (default_weight_bound c) as [Hc _]. lia.
  - rewrite count_cell_by_cell.
    induction (List.length series) as [|n IH]; [reflexivity|].
    cbn [repeat map]. rewrite list_sum_cons, IH.
    replace (cell_weight (init None) (Str "")) with 3%nat
      by (vm_compute; reflexivity).
    lia.
Qed.

End PatternProps.

(* ================================================================== *)
(** * The result of the fuzzy method *)

Module FuzzyProps.
Import Duplicates Notions FuzzyNotions GroupingProps.

Lemma set_add_members (x y : nat) (l : list nat) :
  In y (set_add_nat x l) <-> y = x \/ In y l.
Proof.
  unfold set_add_nat. destruct (mem_nat x l) eqn:E.
  - apply mem_nat_In in E. split; [tauto | intros [-> | H]; assumption].
  - rewrite in_app_iff. cbn. intuition.
Qed.

Lemma set_add_distinct (x : nat) (l : list nat) :
  NoDup l -> NoDup (set_add_nat x l).
Proof.
  intros Hnd. unfold set_add_nat. destruct (mem_nat x l) eqn:E; [exact Hnd|].
  apply mem_nat_not_In in E.
  apply NoDup_app; [exact Hnd | repeat constructor; tauto |].
  intros y Hy [<- | []]. contradiction.
Qed.

Lemma set_update_members (new : list nat) :
  forall l y, In y (set_update_nat l new) <-> In y l \/ In y new.
Proof.
  unfold set_update_nat. induction new as [|x new IH]; intros l y;
    cbn [fold_left].
  - cbn. tauto.
  - rewrite IH, set_add_members. cbn. intuition.
Qed.

Lemma set_update_distinct (new : list nat) :
  forall l, NoDup l -> NoDup (set_update_nat l new).
Proof.
  unfold set_update_nat. induction new as [|x new IH]; intros l Hnd;
    cbn [fold_left]; [exact Hnd|].
  apply IH, set_add_distinct, Hnd.
Qed.

Section Pairs.
Context `{Runtime}.
Variable cfg : DuplicatesConfig.
Variable sample : DataFrame.

Lemma inner_loop (i : nat) (js : list nat) :
  forall acc,
    fst (fold_left (compare_rows cfg sample i) js acc)
    = fst acc ++ map (pair i) (filter (similar cfg sample i) js).
Proof.
  induction js as [|j js IH]; intros acc; cbn [fold_left filter map].
  - rewrite app_nil_r. reflexivity.
  - rewrite IH. unfold compare_rows. fold (similar cfg sample i j).
    destruct (similar cfg sample i j); cbn [fst map].
    + rewrite <- app_assoc. reflexivity.
    + reflexivity.
Qed.

Lemma outer_loop (n : nat) (rows : list nat) :
  forall acc,
    fst (fold_left
           (fun acc i =>
              fold_left (compare_rows cfg sample i) (seq (i + 1) (n - (i + 1))) acc)
           rows acc)
    = fst acc
      ++ flat_map
           (fun i => map (pair i)
                       (filter (similar cfg sample i)
                          (seq (i + 1) (n - (i + 1)))))
           rows.
Proof.
  induction rows as [|i rows IH]; intros acc; cbn [fold_left flat_map].
  - rewrite app_nil_r. reflexivity.
  - rewrite IH, inner_loop, <- app_assoc. reflexivity.
Qed.

End Pairs.


Section Result.
Context `{Runtime}.
Variable cfg : DuplicatesConfig.
Variable data : DataFrame.

Lemma fuzzy_result :
  let sample := fuzzy_sample cfg data in
  let pairs :=
    flat_map
      (fun i => map (pair i)
                  (filter (similar cfg sample i)
                     (seq (i + 1) (nrows sample - (i + 1)))))
      (seq 0 (nrows sample)) in
  duplicate_pairs (_detect_fuzzy_duplicates cfg data) = pairs
  /\ duplicate_rows (_detect_fuzzy_duplicates cfg data)
     = set_update_nat [] (flat_map (fun p => [fst p; snd p]) pairs)
  /\ duplicate_groups (_detect_fuzzy_duplicates cfg data)
     = _group_similar_rows sample pairs
  /\ total_groups (_detect_fuzzy_duplicates cfg data)
     = List.length (_group_similar_rows sample pairs).
Proof.
  cbv zeta. unfold _detect_fuzzy_duplicates. fold (fuzzy_sample cfg data).
  set (sample := fuzzy_sample cfg data).
  pose proof (outer_loop cfg sample (nrows sample) (seq 0 (nrows sample))
                ([], [])) as Hloop.
  cbn [fst app] in Hloop.
  match goal with
  | |- context [let '(_, _) := ?loop in _] =>
      assert (Hsame : loop
                      = fold_left
                          (fun acc i =>
                             fold_left (compare_rows cfg sample i)
                               (seq (i + 1) (nrows sample - (i + 1))) acc)
                          (seq 0 (nrows sample)) ([], []))
        by reflexivity;
      rewrite Hsame
  end.
  destruct (fold_left _ (seq 0 (nrows sample)) ([], [])) as [pairs scores].
  cbn [fst] in Hloop. subst pairs. cbn. repeat split; reflexivity.
Qed.

End Result.


(** ** The rows of the groups *)

Section Members.
Variable graph : list (nat * list nat).
Hypothesis Hclosed : closed graph.
Hypothesis Hsym : symmetric graph.

Lemma visit_keeps_groups_visited (vg : list nat * list (list nat))
  (node : nat) :
  tidy graph (fst vg) -> In node (nodes graph) ->
  swept graph (fst vg) (snd vg) ->
  (forall group, In group (snd vg) -> incl group (fst vg)) ->
  forall group,
    In group (snd (visit (List.length graph) graph vg node)) ->
    incl group (fst (visit (List.length graph) graph vg node)).
Proof.
  intros Ht Hnode Hsw Hinv.
  destruct (visit_swept graph Hclosed Hsym vg node Ht Hnode Hsw)
    as [_ [_ Hkeep]].
  revert Hkeep. unfold visit.
  destruct (mem_nat node (fst vg)) eqn:E; [intros _; exact Hinv|].
  apply mem_nat_not_In in E.
  assert (Ht' : tidy graph (fst vg ++ [node])).
  { destruct Ht as [Hnd Hsub]. split.
    - apply NoDup_app; [exact Hnd | repeat constructor; tauto |].
      intros y Hy [<- | []]. contradiction.
    - intros y Hy. apply in_app_iff in Hy.
      destruct Hy as [Hy | [<- | []]]; [apply Hsub, Hy | exact Hnode]. }
  pose proof (tidy_length graph _ Ht') as Hbound.
  rewrite length_app in Hbound. cbn in Hbound.
  assert (Hstart : searching graph node (fst vg) [node] (fst vg ++ [node]) []).
  { constructor.
    - intros x. rewrite in_app_iff. cbn [In]. tauto.
    - intros x [[] | [<- | []]]. constructor.
    - intros x y [].
    - intros x [[] | [<- | []]]. exact E.
    - right. left. reflexivity. }
  pose proof (dfs_ends graph Hclosed node (fst vg) (List.length graph) [node]
                (fst vg ++ [node]) [] Ht'
                ltac:(rewrite length_app; cbn; lia) Hstart) as Hend.
  destruct Hsw as [Hsealed _ _ _].
  destruct (finished_search graph Hsym node (fst vg) _ _ Hsealed Hend)
    as [_ [_ Hvis]].
  set (found := dfs (List.length graph) graph [node] (fst vg ++ [node]) []) in *.
  destruct (1 <? List.length (fst found))%nat; cbn [fst snd];
    intros Hkeep group Hg.
  - apply in_app_iff in Hg. destruct Hg as [Hg | [<- | []]].
    + intros x Hx. apply Hkeep, (Hinv group Hg), Hx.
    + intros x Hx. apply Hvis. right. exact Hx.
  - intros x Hx. apply Hkeep, (Hinv group Hg), Hx.
Qed.

Lemma groups_are_nodes :
  forall group,
    In group (components (List.length graph) graph) ->
    incl group (nodes graph).
Proof.
  unfold components.
  assert (Hgen : forall todo vg,
            incl todo (nodes graph) -> tidy graph (fst vg) ->
            swept graph (fst vg) (snd vg) ->
            (forall group, In group (snd vg) -> incl group (fst vg)) ->
            let final := fold_left (visit (List.length graph) graph) todo vg in
            tidy graph (fst final)
            /\ (forall group, In group (snd final) -> incl group (fst final))).
  { induction todo as [|node todo IH]; intros vg Hsub Ht Hsw Hinv; cbv zeta.
    - cbn. split; assumption.
    - cbn [fold_left].
      assert (Hnode : In node (nodes graph)) by (apply Hsub; left; reflexivity).
      destruct (visit_swept graph Hclosed Hsym vg node Ht Hnode Hsw)
        as [Hsw' _].
      destruct (visit_fuel graph Hclosed 0 vg node Ht Hnode) as [_ Ht'].
      apply IH; [|exact Ht' | exact Hsw' |].
      + intros y Hy. apply Hsub. right. exact Hy.
      + apply visit_keeps_groups_visited; assumption. }
  destruct (Hgen (nodes graph) ([], []) (incl_refl _)) as [[_ Hsub] Hinv].
  - split; [constructor | intros y []].
  - constructor.
    + intros x y [].
    + intros group x [].
    + intros group [].
    + intros x [].
  - intros group [].
  - intros group Hg x Hx. apply Hsub, (Hinv group Hg), Hx.
Qed.

End Members.

Lemma nodes_are_linked (duplicate_pairs : list (nat * nat)) (x : nat) :
  In x (nodes (build_graph duplicate_pairs)) ->
  exists y, linked duplicate_pairs x y.
Proof.
  unfold build_graph.
  assert (Hgen : forall graph,
            In x (nodes (fold_left
                           (fun graph p => graph_add (snd p) (fst p)
                                             (graph_add (fst p) (snd p) graph))
                           duplicate_pairs graph)) ->
            In x (nodes graph) \/ exists y, linked duplicate_pairs x y).
  { induction duplicate_pairs as [|[i j] ps IH]; intros graph Hx.
    - left. exact Hx.
    - cbn [fold_left fst snd] in Hx. apply IH in Hx.
      destruct Hx as [Hx | [y Hy]].
      + apply nodes_graph_add in Hx. destruct Hx as [-> | Hx].
        * right. exists i. right. left. reflexivity.
        * apply nodes_graph_add in Hx. destruct Hx as [-> | Hx]; [|tauto].
          right. exists j. left. left. reflexivity.
      + right. exists y. destruct Hy as [Hy | Hy]; [left | right];
          right; exact Hy. }
  intros Hx. destruct (Hgen [] Hx) as [[] | Hy]. exact Hy.
Qed.


Lemma numbered_keys {A} (l : list A) :
  forall start,
    map fst (map (fun ig : nat * A => (group_key (fst ig), snd ig))
               (combine (seq start (List.length l)) l))
    = map group_key (seq start (List.length l)).
Proof.
  induction l as [|x l IH]; intros start; [reflexivity|].
  cbn. rewrite IH. reflexivity.
Qed.

Lemma rows_of_pairs (pairs : list (nat * nat)) (x : nat) :
  In x (flat_map (fun p : nat * nat => [fst p; snd p]) pairs)
  <-> exists y, linked pairs x y.
Proof.
  rewrite in_flat_map. unfold linked. split.
  - intros [[i j] [Hp [<- | [<- | []]]]]; cbn [fst snd].
    + exists j. left. exact Hp.
    + exists i. right. exact Hp.
  - intros [y [Hp | Hp]].
    + exists (x, y). split; [exact Hp | left; reflexivity].
    + exists (y, x). split; [exact Hp | right; left; reflexivity].
Qed.

Lemma fuzzy_pairs_members `{Runtime} (cfg : DuplicatesConfig)
  (data : DataFrame) (i j : nat) :
  In (i, j) (duplicate_pairs (_detect_fuzzy_duplicates cfg data))
  <-> (i < j < nrows (fuzzy_sample cfg data))%nat
      /\ similar cfg (fuzzy_sample cfg data) i j = true.
Proof.
  destruct (fuzzy_result cfg data) as [Hpairs _].
  cbv zeta in Hpairs. rewrite Hpairs, in_flat_map. split.
  - intros [i' [Hi Hin]]. apply in_map_iff in Hin.
    destruct Hin as [j' [E Hj]]. injection E as -> ->.
    apply filter_In in Hj. destruct Hj as [Hj Hsim].
    apply in_seq in Hi, Hj. split; [lia | exact Hsim].
  - intros [Hij Hsim]. exists i. split; [apply in_seq; lia|].
    apply in_map, filter_In. split; [apply in_seq; lia | exact Hsim].
Qed.

(** X15.  The fuzzy method reports the pair (i, j) exactly for the rows
    i < j of the compared data whose similarity reaches the threshold.
    Its duplicate rows are, without repetition, the rows of some pair;
    they are exactly the rows that belong to a group; two groups that
    share a row have the same rows; every group has at least two rows;
    and the groups are counted by [total_groups] and named group_0,
    group_1, ... in order. *)
Theorem fuzzy_groups_cover_the_duplicate_rows `{Runtime}
  (cfg : DuplicatesConfig) (data : DataFrame) :
  let r := _detect_fuzzy_duplicates cfg data in
  let sample := fuzzy_sample cfg data in
  let groups := map snd (duplicate_groups r) in
  (forall i j,
     In (i, j) (duplicate_pairs r)
     <-> (i < j < nrows sample)%nat /\ similar cfg sample i j = true)
  /\ NoDup (duplicate_rows r)
  /\ (forall x, In x (duplicate_rows r)
                <-> exists y, linked (duplicate_pairs r) x y)
  /\ (forall x, In x (duplicate_rows r)
                <-> exists group, In group groups /\ In x group)
  /\ (forall g1 g2 x,
        In g1 groups -> In g2 groups -> In x g1 -> In x g2 ->
        forall y, In y g1 <-> In y g2)
  /\ (forall group, In group groups -> (1 < List.length group)%nat)
  /\ total_groups r = List.length groups
  /\ map fst (duplicate_groups r) = map group_key (seq 0 (total_groups r)).
Proof.
  cbv zeta.
  destruct (fuzzy_result cfg data) as [Hpairs [Hrows [Hgroups Htotal]]].
  cbv zeta in Hpairs, Hrows, Hgroups, Htotal.
  set (sample := fuzzy_sample cfg data) in *.
  rewrite Hrows, Hgroups, Htotal, Hpairs.
  set (pairs := flat_map _ (seq 0 (nrows sample))).
  assert (Hmem : forall i j,
            In (i, j) pairs
            <-> (i < j < nrows sample)%nat /\ similar cfg sample i j = true).
  { intros i j. pose proof (fuzzy_pairs_members cfg data i j) as Hij.
    rewrite Hpairs in Hij. exact Hij. }
  assert (Hrowsmem : forall x,
            In x (set_update_nat []
                    (flat_map (fun p : nat * nat => [fst p; snd p]) pairs))
            <-> exists y, linked pairs x y).
  { intros x. rewrite set_update_members, rows_of_pairs. cbn. tauto. }
  destruct (similar_rows_grouped_by_component sample pairs)
    as [Hcomponent [Hsizes Hshared]].
  cbv zeta in Hcomponent, Hsizes, Hshared.
  split; [exact Hmem|].
  split; [apply set_update_distinct; constructor|].
  split; [exact Hrowsmem|].
  split; [|split; [|split; [exact Hsizes|split]]].
  - intros x. rewrite Hrowsmem. split.
    + intros [y Hxy].
      assert (Hne : x <> y).
      { destruct Hxy as [Hp | Hp]; apply Hmem in Hp; lia. }
      destruct (Hshared x y Hxy Hne) as [group [Hg [Hx _]]].
      exists group. split; assumption.
    + intros [group [Hg Hx]]. apply nodes_are_linked.
      rewrite group_lists in Hg.
      apply (groups_are_nodes _ (build_graph_closed pairs)
               (build_graph_symmetric pairs) group Hg x Hx).
  - intros g1 g2 x Hg1 Hg2 Hx1 Hx2 y.
    rewrite (Hcomponent g1 x Hg1 Hx1 y), (Hcomponent g2 x Hg2 Hx2 y).
    tauto.
  - rewrite length_map. reflexivity.
  - unfold _group_similar_rows. cbv zeta.
    rewrite length_map, length_combine, length_seq, Nat.min_id.
    apply numbered_keys.
Qed.

End FuzzyProps.

(* ================================================================== *)
(** * Similarities lie between 0 and 1 *)

Module SimilarityProps.
Import Difflib Duplicates Notions FuzzyNotions ScoreFacts FuzzyProps.

Section Blocks.
Variables a b : list ascii.

Lemma runs_inside_nil (blo : nat) : runs_inside blo [].
Proof. intros j. cbn. lia. Qed.

Lemma runs_inside_cons (blo j k : nat) (j2len : list (nat * nat)) :
  (k <= j + 1 - blo)%nat -> runs_inside blo j2len ->
  runs_inside blo ((j, k) :: j2len).
Proof.
  intros Hk Hrest j'. cbn. destruct (j =? j')%nat eqn:E; [|apply Hrest].
  apply Nat.eqb_eq in E. subst. exact Hk.
Qed.

Lemma scan_row_inside (i blo bhi : nat) (js : list nat)
  (j2len : list (nat * nat)) :
  runs_inside blo j2len ->
  forall newj2len best,
    runs_inside blo newj2len ->
    within_b blo bhi best ->
    runs_inside blo (fst (scan_row i blo bhi js j2len newj2len best))
    /\ within_b blo bhi (snd (scan_row i blo bhi js j2len newj2len best)).
Proof.
  intros Hold. induction js as [|j js IH]; intros newj2len best Hnew Hbest.
  - cbn. split; assumption.
  - cbn [scan_row].
    destruct (j <? blo)%nat eqn:Elo; [apply IH; assumption|].
    destruct (bhi <=? j)%nat eqn:Ehi; [cbn; split; assumption|].
    apply Nat.ltb_ge in Elo. apply Nat.leb_gt in Ehi.
    destruct best as [[besti bestj] bestsize].
    set (k := (match j with O => 0 | S j1 => j2len_get j2len j1 end + 1)%nat).
    assert (Hk : (k <= j + 1 - blo)%nat).
    { subst k. destruct j as [|j1]; [lia|]. specialize (Hold j1). lia. }
    apply IH.
    + apply runs_inside_cons; assumption.
    + destruct (bestsize <? k)%nat; [|exact Hbest].
      unfold within_b. cbn. lia.
Qed.

Lemma scan_rows_inside (blo bhi : nat) (rows : list nat) :
  forall j2len best,
    runs_inside blo j2len ->
    within_b blo bhi best ->
    within_b blo bhi (scan_rows a b blo bhi rows j2len best).
Proof.
  induction rows as [|i rows IH]; intros j2len best Hold Hbest.
  - exact Hbest.
  - cbn [scan_rows].
    destruct (scan_row_inside i blo bhi (b2j b (char_at a i)) j2len Hold
                [] best (runs_inside_nil _) Hbest) as [Hnew Hafter].
    destruct (scan_row i blo bhi (b2j b (char_at a i)) j2len [] best)
      as [newj2len best1].
    apply IH; assumption.
Qed.

Lemma extend_left_inside (alo blo : nat) :
  forall besti bestj bestsize,
    (blo <= bestj)%nat ->
    let r := extend_left a b alo blo besti bestj bestsize in
    (blo <= snd (fst r))%nat
    /\ (snd (fst r) + snd r = bestj + bestsize)%nat.
Proof.
  induction besti as [|i1 IH]; intros bestj bestsize Hblo.
  - cbn. lia.
  - cbn [extend_left].
    destruct ((alo <? S i1)%nat && (blo <? bestj)%nat
              && ascii_eqb (char_at a i1) (char_at b (bestj - 1))) eqn:E.
    + apply andb_prop in E. destruct E as [E _].
      apply andb_prop in E. destruct E as [_ E].
      apply Nat.ltb_lt in E.
      destruct (IH (bestj - 1)%nat (S bestsize)) as [H1 H2]; [lia|].
      split; [exact H1 | lia].
    + cbn. lia.
Qed.

Lemma extend_right_inside (ahi bhi besti bestj : nat) :
  forall gap bestsize,
    (bestj + bestsize <= bhi)%nat ->
    (bestj + extend_right a b gap ahi bhi besti bestj bestsize <= bhi)%nat.
Proof.
  induction gap as [|gap IH]; intros bestsize Hin; cbn [extend_right].
  - exact Hin.
  - destruct ((besti + bestsize <? ahi)%nat && (bestj + bestsize <? bhi)%nat
              && ascii_eqb (char_at a (besti + bestsize))
                   (char_at b (bestj + bestsize))) eqn:E; [|exact Hin].
    apply andb_prop in E. destruct E as [E _].
    apply andb_prop in E. destruct E as [_ E].
    apply Nat.ltb_lt in E. apply IH. lia.
Qed.

(** The block found lies inside both ranges it was asked about. *)
Lemma find_longest_match_inside (alo ahi blo bhi : nat) :
  (alo <= ahi)%nat -> (blo <= bhi)%nat ->
  within alo ahi (find_longest_match a b alo ahi blo bhi)
  /\ within_b blo bhi (find_longest_match a b alo ahi blo bhi).
Proof.
  intros Ha Hb.
  split; [apply DifflibProps.find_longest_match_bounds; exact Ha|].
  unfold find_longest_match.
  assert (Hstart : within_b blo bhi (alo, blo, 0%nat))
    by (unfold within_b; cbn; lia).
  pose proof (scan_rows_inside blo bhi (seq alo (ahi - alo)) [] _
                (runs_inside_nil _) Hstart) as Hscan.
  destruct (scan_rows a b blo bhi (seq alo (ahi - alo)) [] (alo, blo, 0%nat))
    as [[besti bestj] bestsize].
  unfold within_b in Hscan. cbn [fst snd] in Hscan.
  destruct Hscan as [Hlo Hhi].
  pose proof (extend_left_inside alo blo besti bestj bestsize Hlo) as Hleft.
  cbv zeta in Hleft.
  destruct (extend_left a b alo blo besti bestj bestsize)
    as [[besti1 bestj1] bestsize1].
  cbn [fst snd] in Hleft. destruct Hleft as [Hlo1 Hsum].
  unfold within_b. cbn [fst snd]. split; [exact Hlo1|].
  apply extend_right_inside. lia.
Qed.

Lemma matched_app (l1 l2 : list (nat * nat * nat)) :
  matched (l1 ++ l2) = (matched l1 + matched l2)%nat.
Proof.
  unfold matched. rewrite map_app.
  induction (map (fun t : nat * nat * nat => snd t) l1) as [|x l IH];
    [reflexivity|].
  cbn [app]. change (list_sum (x :: ?r)) with (x + list_sum r)%nat.
  rewrite IH. lia.
Qed.

(** The blocks of a range match no more characters than either side
    has. *)
Lemma matching_blocks_fit :
  forall fuel alo ahi blo bhi,
    (alo <= ahi)%nat -> (blo <= bhi)%nat ->
    (matched (matching_blocks a b fuel alo ahi blo bhi) <= ahi - alo)%nat
    /\ (matched (matching_blocks a b fuel alo ahi blo bhi) <= bhi - blo)%nat.
Proof.
  induction fuel as [|fuel IH]; intros alo ahi blo bhi Ha Hb.
  - cbn. lia.
  - cbn [matching_blocks].
    destruct (find_longest_match_inside alo ahi blo bhi Ha Hb) as [Hwa Hwb].
    destruct (find_longest_match a b alo ahi blo bhi) as [[i j] k].
    unfold within in Hwa. unfold within_b in Hwb. cbn [fst snd] in Hwa, Hwb.
    destruct (k =? 0)%nat; [cbn; lia|].
    change (matched ((i, j, k) :: ?rest)) with (k + matched rest)%nat.
    rewrite matched_app.
    assert (Hleft :
              (matched (if (alo <? i)%nat && (blo <? j)%nat
                        then matching_blocks a b fuel alo i blo j else [])
               <= i - alo)%nat
              /\ (matched (if (alo <? i)%nat && (blo <? j)%nat
                           then matching_blocks a b fuel alo i blo j else [])
                  <= j - blo)%nat).
    { destruct ((alo <? i)%nat && (blo <? j)%nat); [apply IH; lia | cbn; lia]. }
    assert (Hright :
              (matched (if (i + k <? ahi)%nat && (j + k <? bhi)%nat
                        then matching_blocks a b fuel (i + k) ahi (j + k) bhi
                        else [])
               <= ahi - (i + k))%nat
              /\ (matched (if (i + k <? ahi)%nat && (j + k <? bhi)%nat
                           then matching_blocks a b fuel (i + k) ahi (j + k) bhi
                           else [])
                  <= bhi - (j + k))%nat).
    { destruct ((i + k <? ahi)%nat && (j + k <? bhi)%nat);
        [apply IH; lia | cbn; lia]. }
    lia.
Qed.

Lemma matcher_ratio_bounds :
  0 <= matcher_ratio a b /\ matcher_ratio a b <= 1.
Proof.
  unfold matcher_ratio. fold (matched (get_matching_blocks a b)).
  destruct (List.length a + List.length b =? 0)%nat eqn:E;
    [split; discriminate|].
  apply Nat.eqb_neq in E.
  destruct (matching_blocks_fit (List.length a) 0 (List.length a) 0
              (List.length b) (Nat.le_0_l _) (Nat.le_0_l _)) as [Hma Hmb].
  fold (get_matching_blocks a b) in Hma, Hmb.
  set (m := matched (get_matching_blocks a b)) in *.
  set (n := (List.length a + List.length b)%nat) in *.
  assert (Hpos : 0 < Qnat n) by (unfold Qnat, Qlt; cbn; lia).
  assert (Htwo : (2.0 * Qnat m == Qnat (2 * m))%Q).
  { unfold Qnat, Qeq. cbn [Qnum Qden Qmult inject_Z].
    change (Z.pos (10 * 1)) with 10%Z. lia. }
  split.
  - apply Qle_shift_div_l; [exact Hpos|]. rewrite Qmult_0_l, Htwo.
    unfold Qnat, Qle. cbn [Qnum Qden inject_Z]. lia.
  - apply Qle_shift_div_r; [exact Hpos|]. rewrite Qmult_1_l, Htwo.
    unfold Qnat, Qle. cbn [Qnum Qden inject_Z]. lia.
Qed.

End Blocks.

Lemma column_similarity_bounds `{Runtime} (c1 c2 : cell) :
  0 <= column_similarity c1 c2 /\ column_similarity c1 c2 <= 1.
Proof.
  unfold column_similarity. cbn [pd_isna orb].
  destruct (py_eq (Str (py_str c1)) (Str (py_str c2)));
    [split; discriminate|].
  apply matcher_ratio_bounds.
Qed.

Lemma column_similarity_alike `{Runtime} (c1 c2 : cell) :
  py_str c1 = py_str c2 -> column_similarity c1 c2 = 1.0.
Proof.
  intros E. unfold column_similarity. cbn [pd_isna orb py_eq].
  rewrite E, String.eqb_refl. reflexivity.
Qed.

Lemma fold_plus_bounds (l : list Q) :
  Forall (fun x => 0 <= x /\ x <= 1) l ->
  forall acc,
    acc <= fold_left Qplus l acc
    /\ fold_left Qplus l acc <= acc + Qnat (List.length l).
Proof.
  induction 1 as [|x l [Hx0 Hx1] _ IH]; intros acc; cbn [fold_left List.length].
  - split; [apply Qle_refl|]. unfold Qnat, Qle. cbn. lia.
  - destruct (IH (acc + x)) as [Hlo Hhi]. split.
    + apply Qle_trans with (acc + x); [|exact Hlo].
      rewrite <- (Qplus_0_r acc) at 1.
      apply Qplus_le_compat; [apply Qle_refl | exact Hx0].
    + apply Qle_trans with (acc + x + Qnat (List.length l)); [exact Hhi|].
      assert (E : Qnat (S (List.length l)) == 1 + Qnat (List.length l)).
      { unfold Qnat, Qeq. cbn [Qnum Qden Qplus inject_Z]. lia. }
      rewrite E, Qplus_assoc.
      apply Qplus_le_compat; [|apply Qle_refl].
      apply Qplus_le_compat; [apply Qle_refl | exact Hx1].
Qed.

Lemma fold_plus_ones (l : list Q) :
  Forall (fun x => x = 1.0) l ->
  forall acc, fold_left Qplus l acc == acc + Qnat (List.length l).
Proof.
  induction 1 as [|x l Hx _ IH]; intros acc; cbn [fold_left List.length].
  - unfold Qnat, Qeq. cbn. lia.
  - rewrite IH, Hx.
    unfold Qnat, Qeq. cbn [Qnum Qden Qplus inject_Z]. lia.
Qed.

Lemma np_mean_bounds (l : list Q) :
  Forall (fun x => 0 <= x /\ x <= 1) l ->
  match np_mean l with
  | None => l = []
  | Some s => l <> [] /\ 0 <= s /\ s <= 1
  end.
Proof.
  intros Hl. destruct l as [|x l]; [reflexivity|].
  unfold np_mean. split; [discriminate|].
  destruct (fold_plus_bounds (x :: l) Hl 0) as [Hlo Hhi].
  set (total := fold_left Qplus (x :: l) 0) in *.
  assert (Hpos : 0 < Qnat (List.length (x :: l)))
    by (unfold Qnat, Qlt; cbn; lia).
  split.
  - apply Qle_shift_div_l; [exact Hpos|]. rewrite Qmult_0_l. exact Hlo.
  - apply Qle_shift_div_r; [exact Hpos|]. rewrite Qmult_1_l.
    rewrite Qplus_0_l in Hhi. exact Hhi.
Qed.

Lemma np_mean_ones (l : list Q) :
  l <> [] -> Forall (fun x => x = 1.0) l ->
  exists s, np_mean l = Some s /\ s == 1.
Proof.
  intros Hne Hl. destruct l as [|x l]; [contradiction|].
  unfold np_mean. eexists. split; [reflexivity|].
  rewrite (fold_plus_ones (x :: l) Hl 0), Qplus_0_l.
  unfold Qdiv. apply Qmult_inv_r. unfold Qnat, Qeq. cbn. lia.
Qed.

Lemma row_similarities_bounded `{Runtime} (row1 row2 : list cell) :
  Forall (fun x => 0 <= x /\ x <= 1)
    (map (fun cc => column_similarity (fst cc) (snd cc)) (combine row1 row2)).
Proof.
  apply Forall_map, Forall_forall. intros cc _.
  apply column_similarity_bounds.
Qed.

Lemma row_similarities_alike `{Runtime} :
  forall row1 row2 : list cell,
    map py_str row1 = map py_str row2 ->
    Forall (fun x => x = 1.0)
      (map (fun cc => column_similarity (fst cc) (snd cc))
         (combine row1 row2)).
Proof.
  induction row1 as [|c1 row1 IH]; intros [|c2 row2] E;
    try discriminate E; cbn [combine map]; constructor;
    cbn [map] in E; injection E as E1 E2.
  - apply column_similarity_alike. exact E1.
  - apply IH. exact E2.
Qed.

Lemma row_similarity_alike `{Runtime} (sample : DataFrame) (i j : nat) :
  columns sample <> [] -> printed_alike sample i j ->
  exists s,
    _calculate_row_similarity (iloc sample i) (iloc sample j) = Some s
    /\ s == 1.
Proof.
  intros Hcols Halike. unfold _calculate_row_similarity.
  apply np_mean_ones; [|apply row_similarities_alike; exact Halike].
  unfold iloc. destruct (columns sample); [contradiction | discriminate].
Qed.

(** X16.  The similarity of two rows of a dataset is undefined (NaN)
    when the dataset has no column; otherwise it is a number between 0
    and 1, and it is 1 when the two rows print the same in every
    column. *)
Theorem row_similarity_in_unit_interval `{Runtime} (sample : DataFrame)
  (i j : nat) :
  (i < nrows sample)%nat -> (j < nrows sample)%nat ->
  let similarity :=
    _calculate_row_similarity (iloc sample i) (iloc sample j) in
  (columns sample = [] -> similarity = None)
  /\ (columns sample <> [] ->
      exists s, similarity = Some s /\ 0 <= s /\ s <= 1
                /\ (printed_alike sample i j -> s == 1)).
Proof.
  intros _ _. cbv zeta. split.
  - intros E. unfold iloc. rewrite E. reflexivity.
  - intros Hcols.
    pose proof (np_mean_bounds _
                  (row_similarities_bounded (iloc sample i) (iloc sample j)))
      as Hmean.
    fold (_calculate_row_similarity (iloc sample i) (iloc sample j)) in Hmean.
    destruct (_calculate_row_similarity (iloc sample i) (iloc sample j))
      as [s|] eqn:Es.
    + exists s. destruct Hmean as [_ [Hlo Hhi]].
      repeat split; try assumption.
      intros Halike.
      destruct (row_similarity_alike sample i j Hcols Halike) as [s' [E1 E2]].
      rewrite Es in E1. injection E1 as <-. exact E2.
    + exfalso. unfold iloc in Hmean.
      destruct (columns sample); [contradiction | discriminate].
Qed.

Lemma row_similarity_in_unit_interval_witness :
  (0 < nrows near_rows)%nat /\ (1 < nrows near_rows)%nat
  /\ exists s,
       @_calculate_row_similarity sample_runtime
         (iloc near_rows 0) (iloc near_rows 1) = Some s
       /\ 0 <= s /\ s <= 1.
Proof.
  assert (H0 : (0 < nrows near_rows)%nat) by (cbn; lia).
  assert (H1 : (1 < nrows near_rows)%nat) by (cbn; lia).
  split; [exact H0|]. split; [exact H1|].
  destruct (proj2 (@row_similarity_in_unit_interval sample_runtime
                     near_rows 0 1 H0 H1))
    as [s [Es [Hlo [Hhi _]]]]; [discriminate|].
  exists s. split; [exact Es|]. split; assumption.
Defined.

(** X17.  With a threshold of at most 1, two rows of the compared data
    that print the same in every column are always reported by the fuzzy
    method: as a pair, and each among the duplicate rows. *)
Theorem rows_printed_alike_are_fuzzy_duplicates `{Runtime}
  (cfg : DuplicatesConfig) (data : DataFrame) (i j : nat) :
  fuzzy_threshold cfg <= 1 ->
  columns (fuzzy_sample cfg data) <> [] ->
  (i < j < nrows (fuzzy_sample cfg data))%nat ->
  printed_alike (fuzzy_sample cfg data) i j ->
  let r := _detect_fuzzy_duplicates cfg data in
  In (i, j) (duplicate_pairs r)
  /\ In i (duplicate_rows r) /\ In j (duplicate_rows r).
Proof.
  intros Hthreshold Hcols Hij Halike. cbv zeta.
  assert (Hpair : In (i, j) (duplicate_pairs (_detect_fuzzy_duplicates cfg data))).
  { apply fuzzy_pairs_members. split; [exact Hij|].
    unfold similar.
    destruct (row_similarity_alike _ i j Hcols Halike) as [s [Es Hs]].
    rewrite Es. cbn [ge_threshold]. apply Qle_bool_iff.
    rewrite Hs. exact Hthreshold. }
  split; [exact Hpair|].
  destruct (fuzzy_result cfg data) as [Hpairs [Hrows _]].
  cbv zeta in Hpairs, Hrows. rewrite Hrows, <- Hpairs.
  split; apply set_update_members; right; apply in_flat_map;
    exists (i, j); (split; [exact Hpair|]); cbn; tauto.
Qed.

Lemma rows_printed_alike_are_fuzzy_duplicates_witness :
  In (0, 1)%nat
    (duplicate_pairs
       (@_detect_fuzzy_duplicates sample_runtime Duplicates.default_config
          alike_rows)).
Proof.
  apply (@rows_printed_alike_are_fuzzy_duplicates sample_runtime
           Duplicates.default_config alike_rows 0 1).
  - vm_compute. discriminate.
  - vm_compute. discriminate.
  - vm_compute. lia.
  - vm_compute. reflexivity.
Defined.

End SimilarityProps.

(* ================================================================== *)
(** * What the statistical outlier methods report *)

Module DetectionProps.
Import Outliers Notions CheckNotions DetectionNotions FuzzyProps.

Lemma dict_set_entries {V} (key : string) (v : V) (d : list (string * V))
  (kv : string * V) :
  In kv (dict_set key v d) -> kv = (key, v) \/ In kv d.
Proof.
  induction d as [|[k w] d IH]; cbn [dict_set].
  - intros [<- | []]. left. reflexivity.
  - destruct (String.eqb k key) eqn:E.
    + apply String.eqb_eq in E. subst k.
      intros [<- | Hin]; [left; reflexivity | right; right; exact Hin].
    + intros [<- | Hin]; [right; left; reflexivity|].
      destruct (IH Hin) as [-> | Hd]; [left; reflexivity | right; right; exact Hd].
Qed.

Lemma dict_get_entry {V} (key : string) (d : list (string * V)) (v : V) :
  dict_get key d = Return v -> In (key, v) d.
Proof.
  unfold dict_get. induction d as [|[k w] d IH]; cbn [dict_find].
  - discriminate.
  - destruct (String.eqb k key) eqn:E.
    + apply String.eqb_eq in E. subst k. intros Hv. injection Hv as <-.
      left. reflexivity.
    + intros Hv. right. apply IH, Hv.
Qed.

Lemma dropna_positions (series : Series) :
  forall i clean,
    dropna_from i series = Return clean ->
    Forall (fun iv => (fst iv < i + List.length series)%nat) clean.
Proof.
  induction series as [|c series IH]; intros i clean; cbn [dropna_from].
  - intros E. injection E as <-. constructor.
  - assert (Hrest : forall rest,
              dropna_from (S i) series = Return rest ->
              Forall (fun iv => (fst iv < i + List.length (c :: series))%nat)
                rest).
    { intros rest Erest. apply IH in Erest.
      eapply Forall_impl; [|exact Erest]. cbn. intros iv Hiv. lia. }
    destruct c; try (intros E; apply Hrest, E); try discriminate;
      destruct (dropna_from (S i) series) as [rest|]; cbn [bind];
      try discriminate; intros E; injection E as <-;
      (constructor; [cbn; lia | apply Hrest; reflexivity]).
Qed.

Lemma mapM_positions {A B} (f : nat * A -> outcome (nat * B)) :
  (forall x y, f x = Return y -> fst y = fst x) ->
  forall l l', mapM f l = Return l' -> map fst l' = map fst l.
Proof.
  intros Hf. induction l as [|x l IH]; intros l'; cbn [mapM].
  - intros E. injection E as <-. reflexivity.
  - destruct (f x) as [y|] eqn:Ey; cbn [bind]; [|discriminate].
    destruct (mapM f l) as [ys|]; cbn [bind]; [|discriminate].
    intros E. injection E as <-. cbn [map].
    rewrite (Hf x y Ey), (IH ys eq_refl). reflexivity.
Qed.

Lemma returned {A} (P : A -> Prop) (x y : A) :
  P x -> Return x = Return y -> P y.
Proof. intros Hx E. injection E as <-. exact Hx. Qed.

Section Methods.
Context `{Runtime}.
Variable cfg : OutliersConfig.
Variable data : DataFrame.
Variable numeric_columns : list string.
Hypothesis Hok : frame_ok data.

Lemma clean_rows (column : string) (series : Series)
  (clean : list (nat * Q)) :
  df_col data column = Return series -> dropna series = Return clean ->
  Forall (fun iv => (fst iv < nrows data)%nat) clean.
Proof.
  intros Hcol Hclean. apply dict_get_entry in Hcol.
  destruct Hok as [Hlen _]. rewrite Forall_forall in Hlen.
  specialize (Hlen _ Hcol). cbn [snd] in Hlen.
  apply dropna_positions in Hclean. rewrite Hlen in Hclean. exact Hclean.
Qed.

Lemma flag_keeps (column : string) (flagged : list (nat * Q))
  (evidence : Evidence) (acc : Acc) :
  In column numeric_columns ->
  Forall (fun iv => (fst iv < nrows data)%nat) flagged ->
  kept data numeric_columns acc -> kept data numeric_columns (flag column flagged evidence acc).
Proof.
  intros Hcol Hflagged [Hnd [Hrows Hentries]]. unfold flag.
  destruct flagged as [|iv flagged']; [repeat split; assumption|].
  set (flagged := iv :: flagged') in *.
  unfold kept, well_reported. cbn [fst snd].
  split; [apply set_update_distinct, Hnd|]. split.
  - apply Forall_forall. intros i Hi. apply set_update_members in Hi.
    destruct Hi as [Hi | Hi].
    + rewrite Forall_forall in Hrows. apply Hrows, Hi.
    + apply in_map_iff in Hi. destruct Hi as [iv' [<- Hiv]].
      rewrite Forall_forall in Hflagged. apply Hflagged, Hiv.
  - apply Forall_forall. intros kv Hkv. apply dict_set_entries in Hkv.
    destruct Hkv as [-> | Hkv].
    + cbn [fst snd co_indices co_count].
      split; [exact Hcol|]. split; [discriminate|].
      split; [reflexivity|].
      intros i Hi. apply set_update_members. right. exact Hi.
    + rewrite Forall_forall in Hentries.
      destruct (Hentries kv Hkv) as [H1 [H2 [H3 H4]]].
      repeat split; try assumption.
      intros i Hi. apply set_update_members. left. apply H4, Hi.
Qed.

Lemma for_columns_keeps (step : string -> Acc -> outcome Acc) :
  (forall column acc acc',
     In column numeric_columns -> kept data numeric_columns acc ->
     step column acc = Return acc' -> kept data numeric_columns acc') ->
  forall cols acc acc',
    incl cols numeric_columns -> kept data numeric_columns acc ->
    for_columns step cols acc = Return acc' -> kept data numeric_columns acc'.
Proof.
  intros Hstep. induction cols as [|column cols IH];
    intros acc acc' Hincl Hacc; cbn [for_columns].
  - intros E. injection E as <-. exact Hacc.
  - destruct (step column acc) as [acc1|] eqn:E1; cbn [bind]; [|discriminate].
    apply IH.
    + intros c Hc. apply Hincl. right. exact Hc.
    + apply (Hstep column acc acc1); [apply Hincl; left; reflexivity | | ];
        assumption.
Qed.

Lemma zscore_column_keeps (column : string) (acc acc' : Acc) :
  In column numeric_columns -> kept data numeric_columns acc ->
  zscore_column cfg data column acc = Return acc' -> kept data numeric_columns acc'.
Proof.
  intros Hcol Hacc. unfold zscore_column.
  destruct (df_col data column) as [series|] eqn:Eseries; cbn [bind];
    [|discriminate].
  destruct (dropna series) as [clean|] eqn:Eclean; cbn [bind];
    [|discriminate].
  pose proof (clean_rows column series clean Eseries Eclean) as Hclean.
  assert (Hflagged :
            forall (scores : list (option Q))
                   (test : nat * Q * option Q -> bool),
              Forall (fun iv => (fst iv < nrows data)%nat)
                (map fst (filter test (combine clean scores)))).
  { intros scores test. apply Forall_forall. intros iv' Hin.
    apply in_map_iff in Hin. destruct Hin as [[iv2 z] [<- Hin]].
    apply filter_In in Hin. destruct Hin as [Hin _].
    apply in_combine_l in Hin.
    rewrite Forall_forall in Hclean. apply Hclean, Hin. }
  destruct clean as [|iv clean'].
  - intros E. injection E as <-. exact Hacc.
  - refine (returned (kept data numeric_columns) _ acc' _).
    apply flag_keeps; [exact Hcol | apply Hflagged | exact Hacc].
Qed.

Lemma iqr_column_keeps (column : string) (acc acc' : Acc) :
  In column numeric_columns -> kept data numeric_columns acc ->
  iqr_column cfg data column acc = Return acc' -> kept data numeric_columns acc'.
Proof.
  intros Hcol Hacc. unfold iqr_column.
  destruct (df_col data column) as [series|] eqn:Eseries; cbn [bind];
    [|discriminate].
  destruct (dropna series) as [clean|] eqn:Eclean; cbn [bind];
    [|discriminate].
  pose proof (clean_rows column series clean Eseries Eclean) as Hclean.
  assert (Hflagged :
            forall test : nat * Q -> bool,
              Forall (fun iv => (fst iv < nrows data)%nat)
                (filter test clean)).
  { intros test. apply Forall_forall. intros iv' Hin.
    apply filter_In in Hin.
    rewrite Forall_forall in Hclean. apply Hclean, Hin. }
  destruct clean as [|iv clean'];
    [intros E; injection E as <-; exact Hacc|].
  destruct (quantile (map snd (iv :: clean')) 0.25) as [Q1|];
    [|intros E; injection E as <-; exact Hacc].
  destruct (quantile (map snd (iv :: clean')) 0.75) as [Q3|];
    [|intros E; injection E as <-; exact Hacc].
  refine (returned (kept data numeric_columns) _ acc' _).
  apply flag_keeps; [exact Hcol | apply Hflagged | exact Hacc].
Qed.

Lemma modified_zscore_column_keeps (column : string) (acc acc' : Acc) :
  In column numeric_columns -> kept data numeric_columns acc ->
  modified_zscore_column cfg data column acc = Return acc' -> kept data numeric_columns acc'.
Proof.
  intros Hcol Hacc. unfold modified_zscore_column.
  destruct (df_col data column) as [series|] eqn:Eseries; cbn [bind];
    [|discriminate].
  destruct (dropna series) as [clean|] eqn:Eclean; cbn [bind];
    [|discriminate].
  pose proof (clean_rows column series clean Eseries Eclean) as Hclean.
  destruct clean as [|iv clean'];
    [intros E; injection E as <-; exact Hacc|].
  set (clean := iv :: clean') in *.
  destruct (median (map snd clean)) as [center|];
    [|intros E; injection E as <-; exact Hacc].
  destruct (mad_of (map snd clean) center) as [mad|];
    [|intros E; injection E as <-; exact Hacc].
  destruct (Qeq_bool mad 0); [intros E; injection E as <-; exact Hacc|].
  match goal with
  | |- bind (mapM ?f clean) _ = _ -> _ =>
      destruct (mapM f clean) as [scores|] eqn:Escores; cbn [bind];
      [|discriminate];
      assert (Hpos : map fst scores = map fst clean)
  end.
  { apply mapM_positions in Escores; [exact Escores|].
    intros x y. destruct (py_div _ mad) as [z|]; cbn [bind]; [|discriminate].
    intros E. injection E as <-. reflexivity. }
  intros E. injection E as <-.
  apply flag_keeps; [exact Hcol | | exact Hacc].
  apply Forall_forall. intros iz Hin. apply filter_In in Hin.
  destruct Hin as [Hin _].
  assert (Hfst : In (fst iz) (map fst clean))
    by (rewrite <- Hpos; apply in_map, Hin).
  apply in_map_iff in Hfst. destruct Hfst as [iv' [<- Hiv]].
  rewrite Forall_forall in Hclean. apply Hclean, Hiv.
Qed.

Lemma kept_at_start : kept data numeric_columns ([], []).
Proof. repeat split; constructor. Qed.

Lemma finish_reported (acc : Acc) (name : string) :
  kept data numeric_columns acc -> well_reported_result data numeric_columns (finish acc name).
Proof. intros Hacc. repeat split; apply Hacc. Qed.

Lemma zscore_reported (r : MethodResult) :
  _detect_zscore_outliers cfg data numeric_columns = Return r ->
  well_reported_result data numeric_columns r.
Proof.
  unfold _detect_zscore_outliers.
  destruct (for_columns (zscore_column cfg data) numeric_columns ([], []))
    as [acc|] eqn:Eacc; cbn [bind]; [|discriminate].
  intros E. injection E as <-. apply finish_reported.
  apply (for_columns_keeps _ zscore_column_keeps numeric_columns ([], []) acc
           (incl_refl _) kept_at_start Eacc).
Qed.

Lemma iqr_reported (r : MethodResult) :
  _detect_iqr_outliers cfg data numeric_columns = Return r ->
  well_reported_result data numeric_columns r.
Proof.
  unfold _detect_iqr_outliers.
  destruct (for_columns (iqr_column cfg data) numeric_columns ([], []))
    as [acc|] eqn:Eacc; cbn [bind]; [|discriminate].
  intros E. injection E as <-. apply finish_reported.
  apply (for_columns_keeps _ iqr_column_keeps numeric_columns ([], []) acc
           (incl_refl _) kept_at_start Eacc).
Qed.

Lemma modified_zscore_reported (r : MethodResult) :
  _detect_modified_zscore_outliers cfg data numeric_columns = Return r ->
  well_reported_result data numeric_columns r.
Proof.
  unfold _detect_modified_zscore_outliers.
  destruct (for_columns (modified_zscore_column cfg data) numeric_columns
              ([], [])) as [acc|] eqn:Eacc; cbn [bind]; [|discriminate].
  intros E. injection E as <-. apply finish_reported.
  apply (for_columns_keeps _ modified_zscore_column_keeps numeric_columns
           ([], []) acc (incl_refl _) kept_at_start Eacc).
Qed.

Lemma method_step (on : bool) (name : string) (m : outcome MethodResult)
  (results results' : list (string * MethodResult)) :
  (forall r, m = Return r -> well_reported_result data numeric_columns r) ->
  Forall (fun kv => well_reported_result data numeric_columns (snd kv))
    results ->
  (if on then r <- m ;; Return (dict_set name r results) else Return results)
  = Return results' ->
  Forall (fun kv => well_reported_result data numeric_columns (snd kv))
    results'.
Proof.
  intros Hm Hresults. destruct on.
  - destruct m as [r|]; cbn [bind]; [|discriminate].
    refine (returned _ _ results' _).
    apply Forall_forall. intros kv Hkv. apply dict_set_entries in Hkv.
    destruct Hkv as [-> | Hkv]; [apply Hm; reflexivity|].
    rewrite Forall_forall in Hresults. apply Hresults, Hkv.
  - refine (returned _ _ results' _). exact Hresults.
Qed.

Lemma all_rows_collected (results : list (string * MethodResult)) :
  Forall (fun kv => well_reported_result data numeric_columns (snd kv))
    results ->
  forall rows,
    NoDup rows -> Forall (fun i => (i < nrows data)%nat) rows ->
    let all_outlier_rows :=
      fold_left (fun acc kv => set_update_nat acc (outlier_rows (snd kv)))
        results rows in
    NoDup all_outlier_rows
    /\ Forall (fun i => (i < nrows data)%nat) all_outlier_rows
    /\ incl rows all_outlier_rows
    /\ Forall (fun kv => incl (outlier_rows (snd kv)) all_outlier_rows)
         results.
Proof.
  induction 1 as [|kv results Hkv _ IH]; intros rows Hnd Hrows;
    cbn [fold_left].
  - repeat split; try assumption; [apply incl_refl | constructor].
  - destruct Hkv as [[_ [Hin _]] _].
    destruct (IH (set_update_nat rows (outlier_rows (snd kv))))
      as [H1 [H2 [H3 H4]]].
    + apply set_update_distinct, Hnd.
    + apply Forall_forall. intros i Hi. apply set_update_members in Hi.
      rewrite Forall_forall in Hrows, Hin.
      destruct Hi as [Hi | Hi]; [apply Hrows | apply Hin]; exact Hi.
    + cbv zeta in H1, H2, H3, H4. repeat split; try assumption.
      * intros i Hi. apply H3, set_update_members. left. exact Hi.
      * constructor; [|exact H4].
        intros i Hi. apply H3, set_update_members. right. exact Hi.
Qed.

End Methods.

Lemma distinct_rows_counted (n : nat) (rows : list nat) :
  NoDup rows -> Forall (fun i => (i < n)%nat) rows ->
  (List.length rows <= n)%nat.
Proof.
  intros Hnd Hrows. rewrite <- (length_seq n 0).
  apply NoDup_incl_length; [exact Hnd|].
  intros i Hi. rewrite Forall_forall in Hrows. apply in_seq.
  specialize (Hrows i Hi). lia.
Qed.

Lemma share_bounds (k n : nat) :
  (k <= n)%nat -> n <> 0%nat ->
  exists pct, py_div (Qnat k) (Qnat n) = Return pct /\ 0 <= pct /\ pct <= 1.
Proof.
  intros Hk Hn. unfold py_div.
  assert (Hpos : 0 < Qnat n) by (unfold Qnat, Qlt; cbn; lia).
  destruct (Qeq_bool (Qnat n) 0) eqn:E.
  - apply Qeq_bool_iff in E. rewrite E in Hpos. discriminate Hpos.
  - eexists. split; [reflexivity|]. split.
    + apply Qle_shift_div_l; [exact Hpos|]. rewrite Qmult_0_l.
      unfold Qnat, Qle. cbn. lia.
    + apply Qle_shift_div_r; [exact Hpos|]. rewrite Qmult_1_l.
      unfold Qnat, Qle. cbn. lia.
Qed.

(** X18.  Whatever the z-score, IQR and modified z-score methods return
    on a well-formed dataset is about that dataset: the outlier rows are
    rows of the dataset, listed once, and [total_outliers] is their
    number; every entry of [column_outliers] belongs to one of the
    analysed columns, lists at least one row, counts the rows it lists,
    and lists reported outlier rows only. *)
Theorem statistical_methods_report_rows_of_the_data `{Runtime}
  (cfg : OutliersConfig) (data : DataFrame) (numeric_columns : list string) :
  frame_ok data ->
  (forall r, _detect_zscore_outliers cfg data numeric_columns = Return r ->
             well_reported_result data numeric_columns r)
  /\ (forall r, _detect_iqr_outliers cfg data numeric_columns = Return r ->
                well_reported_result data numeric_columns r)
  /\ (forall r,
        _detect_modified_zscore_outliers cfg data numeric_columns = Return r ->
        well_reported_result data numeric_columns r).
Proof.
  intros Hok. split; [|split]; intros r Hr.
  - exact (zscore_reported cfg data numeric_columns Hok r Hr).
  - exact (iqr_reported cfg data numeric_columns Hok r Hr).
  - exact (modified_zscore_reported cfg data numeric_columns Hok r Hr).
Qed.

(** X19.  When only the statistical methods are switched on and a
    well-formed dataset with rows is analysed whole, every method result
    of the analysis is about the dataset and counts no more rows than the
    analysis does in total; the total is at most the number of rows, and
    the outlier percentage lies between 0 and 1. *)
Theorem statistical_outlier_share_is_a_fraction `{Runtime}
  (cfg : OutliersConfig) (data : DataFrame) (a : Analysis) :
  frame_ok data -> nrows data <> 0%nat ->
  statistical_only cfg = true -> not_sampled cfg data = true ->
  _detect_outliers cfg data = Return a ->
  Forall (fun kv =>
            well_reported_result data (numeric_columns a) (snd kv)
            /\ (total_outliers (snd kv) <= total_outlier_rows a)%nat)
    (outlier_results a)
  /\ (total_outlier_rows a <= total_rows a)%nat
  /\ 0 <= outlier_percentage a /\ outlier_percentage a <= 1.
Proof.
  intros Hok Hrows Hstat Hwhole. unfold _detect_outliers.
  destruct (select_numeric data) as [|column columns'] eqn:Hnum.
  - intros Ea. injection Ea as <-. cbn.
    split; [constructor|]. split; [lia|].
    split; discriminate.
  - cbv zeta.
    unfold not_sampled in Hwhole. apply negb_true_iff in Hwhole.
    rewrite Hwhole.
    unfold statistical_only in Hstat.
    apply andb_prop in Hstat. destruct Hstat as [Hstat Hdbscan].
    apply andb_prop in Hstat. destruct Hstat as [Hforest Hlof].
    apply negb_true_iff in Hforest, Hlof, Hdbscan.
    rewrite Hforest, Hlof, Hdbscan. cbn [andb].
    set (cols := column :: columns') in *.
    match goal with
    | |- bind ?m _ = _ -> _ =>
        destruct m as [results1|] eqn:E1; cbn [bind]; [|discriminate]
    end.
    apply (method_step data cols) in E1;
      [|apply zscore_reported; exact Hok | constructor].
    match goal with
    | |- bind ?m _ = _ -> _ =>
        destruct m as [results2|] eqn:E2; cbn [bind]; [|discriminate]
    end.
    apply (method_step data cols) in E2;
      [|apply iqr_reported; exact Hok | exact E1].
    match goal with
    | |- bind ?m _ = _ -> _ =>
        destruct m as [results|] eqn:E3; cbn [bind]; [|discriminate]
    end.
    apply (method_step data cols) in E3;
      [|apply modified_zscore_reported; exact Hok | exact E2].
    destruct (all_rows_collected data cols results E3 [] (NoDup_nil _)
                (Forall_nil _)) as [Hnd [Hin [_ Hincl]]].
    cbv zeta in Hnd, Hin, Hincl.
    set (all_outlier_rows := fold_left _ results []) in *.
    pose proof (distinct_rows_counted _ _ Hnd Hin) as Hcount.
    destruct (share_bounds _ _ Hcount Hrows) as [pct [Epct [Hlo Hhi]]].
    rewrite Epct. cbn [bind].
    assert (Hall :
              Forall (fun kv =>
                        well_reported_result data cols (snd kv)
                        /\ (total_outliers (snd kv)
                            <= List.length all_outlier_rows)%nat)
                results).
    { apply Forall_forall. intros kv Hkv.
      rewrite Forall_forall in E3, Hincl.
      pose proof (E3 kv Hkv) as Hreported. split; [exact Hreported|].
      destruct Hreported as [[Hdistinct _] [Htotal _]]. rewrite Htotal.
      apply NoDup_incl_length; [exact Hdistinct | apply Hincl, Hkv]. }
    match goal with
    | |- bind ?m _ = _ -> _ =>
        destruct m as [patterns|]; cbn [bind]; [|discriminate]
    end.
    destruct (suggest_treatment cfg).
    + match goal with
      | |- bind ?m _ = _ -> _ =>
          destruct m as [recs|]; cbn [bind]; [|discriminate]
      end.
      intros Ea. injection Ea as <-.
      cbn [total_rows numeric_columns outlier_results total_outlier_rows
           outlier_percentage].
      repeat split; assumption.
    + intros Ea. injection Ea as <-.
      cbn [total_rows numeric_columns outlier_results total_outlier_rows
           outlier_percentage].
      repeat split; assumption.
Qed.

Lemma statistical_outlier_share_is_a_fraction_witness :
  (total_outlier_rows far_value_analysis <= total_rows far_value_analysis)%nat
  /\ outlier_percentage far_value_analysis <= 1.
Proof.
  assert (Hok : frame_ok with_far_value).
  { split; [repeat constructor|].
    cbn. constructor; [cbn; tauto | constructor]. }
  assert (Hrows : nrows with_far_value <> 0%nat) by discriminate.
  assert (Hstat : statistical_only (init None) = true) by reflexivity.
  assert (Hwhole : not_sampled (init None) with_far_value = true)
    by reflexivity.
  assert (Ha : @_detect_outliers sample_runtime (init None) with_far_value
               = Return far_value_analysis) by (vm_compute; reflexivity).
  destruct (@statistical_outlier_share_is_a_fraction sample_runtime
              (init None) with_far_value far_value_analysis
              Hok Hrows Hstat Hwhole Ha) as [_ [Hcount [_ Hhi]]].
  split; [exact Hcount | exact Hhi].
Defined.

Lemma statistical_methods_report_rows_of_the_data_witness :
  frame_ok with_far_value
  /\ forall r,
       _detect_iqr_outliers (init None) with_far_value ["x"] = Return r ->
       well_reported_result with_far_value ["x"] r.
Proof.
  assert (Hok : frame_ok with_far_value).
  { split; [repeat constructor|].
    cbn. constructor; [cbn; tauto | constructor]. }
  split; [exact Hok|].
  exact (proj1 (proj2 (@statistical_methods_report_rows_of_the_data
                         sample_runtime (init None) with_far_value ["x"]
                         Hok))).
Defined.

End DetectionProps.

(* ================================================================== *)
(** * The lookup of the collected rows by label *)

Module LookupProps.
Import Duplicates Notions CheckNotions FuzzyNotions FuzzyProps.

Lemma collected_from_fuzzy `{Runtime} (cfg : DuplicatesConfig)
  (data : DataFrame) (x : nat) :
  fuzzy_matching cfg = true ->
  In x (duplicate_rows (_detect_fuzzy_duplicates cfg data)) ->
  In x (collected_rows cfg data).
Proof.
  intros Hfuzzy Hx. unfold collected_rows. rewrite Hfuzzy.
  cbn [fold_left rows_of].
  apply set_update_members. left.
  apply set_update_members. left.
  apply set_update_members. right. exact Hx.
Qed.

(** X20.  The rows of every fuzzy pair, which are positions, are among
    the rows the duplicates check collects and then looks up by label in
    its pattern analysis.  When that lookup fails (pandas raises
    [KeyError] for a label that the index does not hold), the check with
    a valid configuration on a dataset with rows reports status "error",
    score 0.0 and the message of that exception. *)
Theorem failed_label_lookup_is_reported `{Runtime} (cfg : DuplicatesConfig)
  (data : DataFrame) :
  (forall i j,
     fuzzy_matching cfg = true ->
     In (i, j) (duplicate_pairs (_detect_fuzzy_duplicates cfg data)) ->
     In i (collected_rows cfg data) /\ In j (collected_rows cfg data))
  /\ (forall e,
        validate_config cfg = true ->
        nrows data <> 0%nat ->
        analyze_duplicate_patterns cfg = true ->
        collected_rows cfg data <> [] ->
        df_loc data (collected_rows cfg data) = Raise e ->
        status (execute cfg data) = "error"
        /\ score (execute cfg data) == 0
        /\ details (execute cfg data) = [("error", DStr (str_exn e))]).
Proof.
  split.
  - intros i j Hfuzzy Hpair.
    destruct (fuzzy_result cfg data) as [Hpairs [Hrows _]].
    cbv zeta in Hpairs, Hrows. rewrite <- Hpairs in Hrows.
    split; apply collected_from_fuzzy; try exact Hfuzzy;
      rewrite Hrows; apply set_update_members; right;
      apply in_flat_map; exists (i, j);
      (split; [exact Hpair | cbn; tauto]).
  - intros e Hvalid Hrows Hon Hsome Hloc.
    rewrite (ErrorProps.failed_lookup cfg data e Hvalid Hrows Hon Hsome Hloc).
    cbn. repeat split; reflexivity.
Qed.

Lemma failed_label_lookup_is_reported_witness :
  status (@execute without_label_zero (init None) alike_rows) = "error"
  /\ score (@execute without_label_zero (init None) alike_rows) == 0
  /\ details (@execute without_label_zero (init None) alike_rows)
     = [("error", DStr "'[0] not in index'")].
Proof.
  apply (proj2 (@failed_label_lookup_is_reported without_label_zero
                  (init None) alike_rows)
           (KeyError "[0] not in index")).
  - reflexivity.
  - discriminate.
  - reflexivity.
  - vm_compute. discriminate.
  - vm_compute. reflexivity.
Defined.

End LookupProps.
